(** * Irrigation controller (irrigationESP32.ino): scheduling and persistence

    A shallow embedding of the sketch's scheduling and persistence engine:
    the EEPROM layout and the Fletcher-style checksum over the program
    table, [setup] (boot validation and run recovery), the run-mode section
    of [loop] (24 hour ceiling, irrigation programs, backwash cycle, relay
    register), the four-button state machine, [start_runmode] and
    [stop_runmode].

    Conventions.  Every C integer is a [Z]; an assignment to a [uint8_t],
    [uint16_t] or [unsigned int]/[unsigned long] (32 bits on the ESP32)
    variable is written with its wrap-around [u8], [u16], [u32].  All
    operands of [/] and [%] in the sketch are non-negative, where C's
    truncating operators agree with [Z.div] and [Z.modulo].  The display
    (TM1638 digits and LEDs), the serial log and the pin set-up are not
    modelled; the 74HC595 relay register is the variable [relays]. *)

From stdpp Require Import base numbers list option.

Local Open Scope Z_scope.

(** ** Constants of the sketch *)

Definition CK1 : Z := 96.
Definition CK2 : Z := 97.
Definition LAST_PROG : Z := 102.
Definition STATUS : Z := 103.
Definition LAST_TIME_INDEX : Z := 104.
Definition LAST_TIME_BASE : Z := 105.
Definition LAST_TIME_SIZE : Z := 16.
Definition PROGS : Z := 10.
Definition MAX_PROG : Z := 5.
Definition STATIONS : Z := 16.
Definition EBASE : Z := 180.
Definition HIGH : Z := 1.
Definition LOW : Z := 0.

(** [uint8_t bws[] = { 1,2,0xd }] *)
Definition bws : list Z := [1; 2; 13].

Definition u8 (x : Z) : Z := x mod 256.
Definition u16 (x : Z) : Z := x mod 65536.
Definition u32 (x : Z) : Z := x mod 4294967296.

(** ** The EEPROM object

    [EEPROM.begin(512)] gives a byte array of 512 cells.  [read] returns a
    [uint8_t] and yields 0 outside the array; [write] stores a [uint8_t]
    and ignores an address outside the array.  [commit] makes the image
    durable and is the identity on this model: the list is the persisted
    content. *)

Module EEPROM.

Definition SIZE : Z := 512.

Definition read (e : list Z) (a : Z) : Z :=
  if bool_decide (0 ≤ a < SIZE) then u8 (default 0 (e !! Z.to_nat a)) else 0.

Definition write (e : list Z) (a v : Z) : list Z :=
  if bool_decide (0 ≤ a < SIZE) then <[Z.to_nat a := u8 v]> e else e.

End EEPROM.

(** [uint8_t read_eeprom(uint8_t p, uint8_t s)] *)
Definition read_eeprom (e : list Z) (p s : Z) : Z :=
  EEPROM.read e (EBASE + p * STATIONS + s).

(** The body of the double loop of [checksum]. *)
Definition checksum_step (e : list Z) (a : Z) (acc : Z * Z) (b : Z) : Z * Z :=
  let sum1 := u16 ((acc.1 + read_eeprom e a b) mod 255) in
  let sum2 := u16 ((acc.2 + sum1) mod 255) in
  (sum1, sum2).

Definition checksum_sums (e : list Z) : Z * Z :=
  foldl (λ acc a, foldl (checksum_step e a) acc (seqZ 0 STATIONS))
        (456, 0) (seqZ 0 PROGS).

(** [uint16_t checksum()] *)
Definition checksum (e : list Z) : Z :=
  let sums := checksum_sums e in
  u16 (Z.land (Z.lor (Z.shiftl sums.2 8) sums.1) 0x7fff).

(** The value [setup] compares with [checksum()]. *)
Definition stored_checksum (e : list Z) : Z :=
  Z.land (EEPROM.read e CK2 * 256 + EEPROM.read e CK1) 0x7fff.

(** ** Machine state *)

Record Cursor := { prog : Z; station : Z; duration : Z }.

Record Clock := {
  start_time : Z;      (* unsigned long, milliseconds *)
  last_time : Z;       (* uint8_t, 6 minute units *)
  ct : Z;              (* unsigned int, minutes *)
  lt : Z;
  bt : Z;
  backwash_delay : Z   (* uint8_t *)
}.

Record Outputs := {
  st : list Z;           (* uint8_t st[STATIONS] *)
  remaining : list Z;    (* unsigned int remaining[STATIONS] *)
  station_active : bool;
  relays : Z             (* uint8_t, the relay register *)
}.

Record Keys := { b1 : Z; b2 : Z; b3 : Z; b4 : Z; b8 : Z }.

(** Ghost record of one call of [update_eeprom]: the arguments and the
    value of [run_mode] when the call was made.  No code reads it. *)
Record wr_event := {
  wr_running : bool; wr_prog : Z; wr_station : Z; wr_value : Z
}.

Record State := {
  eeprom : list Z;
  run_mode : bool;
  fast_mode : bool;
  cursor : Cursor;
  clock : Clock;
  outputs : Outputs;
  keys : Keys;
  debounce : Z;
  trace : list wr_event   (* ghost: the calls of update_eeprom, latest first *)
}.

Definition with_eeprom (e : list Z) (σ : State) : State :=
  {| eeprom := e; run_mode := run_mode σ; fast_mode := fast_mode σ;
     cursor := cursor σ; clock := clock σ; outputs := outputs σ;
     keys := keys σ; debounce := debounce σ; trace := trace σ |}.

Definition with_run_mode (r : bool) (σ : State) : State :=
  {| eeprom := eeprom σ; run_mode := r; fast_mode := fast_mode σ;
     cursor := cursor σ; clock := clock σ; outputs := outputs σ;
     keys := keys σ; debounce := debounce σ; trace := trace σ |}.

Definition with_fast_mode (f : bool) (σ : State) : State :=
  {| eeprom := eeprom σ; run_mode := run_mode σ; fast_mode := f;
     cursor := cursor σ; clock := clock σ; outputs := outputs σ;
     keys := keys σ; debounce := debounce σ; trace := trace σ |}.

Definition with_cursor (c : Cursor) (σ : State) : State :=
  {| eeprom := eeprom σ; run_mode := run_mode σ; fast_mode := fast_mode σ;
     cursor := c; clock := clock σ; outputs := outputs σ;
     keys := keys σ; debounce := debounce σ; trace := trace σ |}.

Definition with_clock (c : Clock) (σ : State) : State :=
  {| eeprom := eeprom σ; run_mode := run_mode σ; fast_mode := fast_mode σ;
     cursor := cursor σ; clock := c; outputs := outputs σ;
     keys := keys σ; debounce := debounce σ; trace := trace σ |}.

Definition with_outputs (o : Outputs) (σ : State) : State :=
  {| eeprom := eeprom σ; run_mode := run_mode σ; fast_mode := fast_mode σ;
     cursor := cursor σ; clock := clock σ; outputs := o;
     keys := keys σ; debounce := debounce σ; trace := trace σ |}.

Definition with_keys (k : Keys) (σ : State) : State :=
  {| eeprom := eeprom σ; run_mode := run_mode σ; fast_mode := fast_mode σ;
     cursor := cursor σ; clock := clock σ; outputs := outputs σ;
     keys := k; debounce := debounce σ; trace := trace σ |}.

Definition with_debounce (d : Z) (σ : State) : State :=
  {| eeprom := eeprom σ; run_mode := run_mode σ; fast_mode := fast_mode σ;
     cursor := cursor σ; clock := clock σ; outputs := outputs σ;
     keys := keys σ; debounce := d; trace := trace σ |}.

Definition with_trace (t : list wr_event) (σ : State) : State :=
  {| eeprom := eeprom σ; run_mode := run_mode σ; fast_mode := fast_mode σ;
     cursor := cursor σ; clock := clock σ; outputs := outputs σ;
     keys := keys σ; debounce := debounce σ; trace := t |}.

(** Field updates of the sub-records. *)
Definition set_prog (v : Z) (c : Cursor) : Cursor :=
  {| prog := v; station := station c; duration := duration c |}.
Definition set_station (v : Z) (c : Cursor) : Cursor :=
  {| prog := prog c; station := v; duration := duration c |}.
Definition set_duration (v : Z) (c : Cursor) : Cursor :=
  {| prog := prog c; station := station c; duration := v |}.

Definition set_start_time (v : Z) (c : Clock) : Clock :=
  {| start_time := v; last_time := last_time c; ct := ct c; lt := lt c;
     bt := bt c; backwash_delay := backwash_delay c |}.
Definition set_last_time (v : Z) (c : Clock) : Clock :=
  {| start_time := start_time c; last_time := v; ct := ct c; lt := lt c;
     bt := bt c; backwash_delay := backwash_delay c |}.
Definition set_ct (v : Z) (c : Clock) : Clock :=
  {| start_time := start_time c; last_time := last_time c; ct := v; lt := lt c;
     bt := bt c; backwash_delay := backwash_delay c |}.
Definition set_lt (v : Z) (c : Clock) : Clock :=
  {| start_time := start_time c; last_time := last_time c; ct := ct c; lt := v;
     bt := bt c; backwash_delay := backwash_delay c |}.
Definition set_bt (v : Z) (c : Clock) : Clock :=
  {| start_time := start_time c; last_time := last_time c; ct := ct c; lt := lt c;
     bt := v; backwash_delay := backwash_delay c |}.
Definition set_backwash_delay (v : Z) (c : Clock) : Clock :=
  {| start_time := start_time c; last_time := last_time c; ct := ct c; lt := lt c;
     bt := bt c; backwash_delay := v |}.

Definition set_relays (v : Z) (o : Outputs) : Outputs :=
  {| st := st o; remaining := remaining o;
     station_active := station_active o; relays := v |}.
Definition set_station_active (v : bool) (o : Outputs) : Outputs :=
  {| st := st o; remaining := remaining o;
     station_active := v; relays := relays o |}.

(** Array cells [a[i]] of the 16-entry arrays. *)
Definition arr_get (l : list Z) (i : Z) : Z := default 0 (l !! Z.to_nat i).
Definition arr_set (l : list Z) (i v : Z) : list Z := <[Z.to_nat i := v]> l.

(** ** Persistence helpers of the sketch *)

(** [void update_eeprom(uint8_t p, uint8_t s, uint8_t d)] *)
Definition update_eeprom (p s d : Z) (σ : State) : State :=
  with_trace
    ({| wr_running := run_mode σ; wr_prog := p; wr_station := s;
        wr_value := d |} :: trace σ)
    (with_eeprom (EEPROM.write (eeprom σ) (EBASE + p * STATIONS + s) d) σ).

(** [void update_checksum()], on the EEPROM image. *)
Definition store_checksum (e : list Z) : list Z :=
  let c := checksum e in
  let e := EEPROM.write e CK1 (Z.land c 0xff) in
  EEPROM.write e CK2 (Z.shiftr c 8).

Definition update_checksum (σ : State) : State :=
  with_eeprom (store_checksum (eeprom σ)) σ.

(** [void relays_off()] *)
Definition relays_off (σ : State) : State :=
  with_outputs (set_relays 0 (outputs σ)) σ.

(** [void stop_runmode()] *)
Definition stop_runmode (σ : State) : State :=
  let σ := with_run_mode false σ in
  let σ := with_eeprom (EEPROM.write (eeprom σ) STATUS 0) σ in
  relays_off σ.

(** [void start_runmode()]; [now] is the value of [millis()]. *)
Definition start_runmode (now : Z) (σ : State) : State :=
  let σ := with_run_mode true σ in
  let e := EEPROM.write (eeprom σ) STATUS 1 in
  let e := EEPROM.write e LAST_PROG (station (cursor σ)) in
  let i := u8 ((EEPROM.read e LAST_TIME_INDEX + 1) mod LAST_TIME_SIZE) in
  let e := EEPROM.write e LAST_TIME_INDEX i in
  let e := EEPROM.write e (LAST_TIME_BASE + EEPROM.read e LAST_TIME_INDEX) 0 in
  let σ := with_eeprom e σ in
  with_clock
    {| start_time := u32 now; last_time := 0; ct := 0; lt := 9999; bt := 0;
       backwash_delay := 1 |} σ.

(** ** Inputs: the clock, the keypad and the four button pins *)

Record Pins := { pin1 : Z; pin2 : Z; pin3 : Z; pin4 : Z }.

(** What one pass of [loop] reads from outside: [millis()] at its three call
    sites (run section, fast-mode button, [start_runmode]), the byte of
    [readButtons()] and [digitalRead] of the four pins. *)
Record Inputs := {
  t_run : Z; t_fast : Z; t_start : Z; buttons : Z; pins : Pins
}.

(** ** [setup] *)

(** The globals at reset: zero-initialised, over the persisted EEPROM. *)
Definition power_on (e : list Z) : State :=
  {| eeprom := e; run_mode := false; fast_mode := false;
     cursor := {| prog := 0; station := 0; duration := 0 |};
     clock := {| start_time := 0; last_time := 0; ct := 0; lt := 0; bt := 0;
                 backwash_delay := 0 |};
     outputs := {| st := replicate 16 0; remaining := replicate 16 0;
                   station_active := false; relays := 0 |};
     keys := {| b1 := 0; b2 := 0; b3 := 0; b4 := 0; b8 := 0 |};
     debounce := 0; trace := [] |}.

(** [for(p=0; p<PROGS; p++) for (s=0;s<STATIONS;s++) update_eeprom(p, s, 0);] *)
Definition init_table (σ : State) : State :=
  foldl (λ σ p, foldl (λ σ s, update_eeprom p s 0 σ) σ (seqZ 0 STATIONS))
        σ (seqZ 0 PROGS).

(** The [if] of [setup] that re-initialises the EEPROM. *)
Definition check_eeprom (σ : State) : State :=
  if bool_decide (stored_checksum (eeprom σ) ≠ checksum (eeprom σ)) then
    let σ := init_table σ in
    let σ := update_checksum σ in
    let e := EEPROM.write (eeprom σ) LAST_TIME_INDEX 0 in
    let e := EEPROM.write e LAST_TIME_BASE 0 in
    let e := EEPROM.write e STATUS 0 in
    with_eeprom e σ
  else σ.

(** [void setup()]; [now] is [millis()], [pn] the four button pins. *)
Definition setup (now : Z) (pn : Pins) (σ : State) : State :=
  let σ := with_keys {| b1 := pin1 pn; b2 := pin2 pn; b3 := pin3 pn;
                        b4 := pin4 pn; b8 := HIGH |} σ in
  let σ := check_eeprom σ in
  let σ := with_run_mode (bool_decide (EEPROM.read (eeprom σ) STATUS ≠ 0)) σ in
  let σ := with_clock (set_last_time 0 (clock σ)) σ in
  let σ :=
    if run_mode σ then
      let v := EEPROM.read (eeprom σ)
                 (LAST_TIME_BASE + EEPROM.read (eeprom σ) LAST_TIME_INDEX) in
      let σ := with_clock (set_start_time (u32 now)
                             (set_last_time v (clock σ))) σ in
      with_cursor (set_station (EEPROM.read (eeprom σ) LAST_PROG) (cursor σ)) σ
    else σ in
  let σ :=
    if bool_decide (240 < last_time (clock σ)) then
      with_run_mode false (with_clock (set_last_time 0 (clock σ)) σ)
    else σ in
  let σ := with_clock (set_lt (u32 (last_time (clock σ) * 6)) (clock σ)) σ in
  let σ := with_clock (set_bt (u32 (lt (clock σ) + 1)) (clock σ)) σ in
  let σ := with_clock (set_backwash_delay 1 (clock σ)) σ in
  let σ := with_debounce 0 σ in
  relays_off σ.

(** Booting on a persisted EEPROM image. *)
Definition boot (e : list Z) (now : Z) (pn : Pins) : State :=
  setup now pn (power_on e).

(** ** The run-mode section of [loop] *)

(** [while ( (pt <= ct) && (s < (STATIONS-3)) ) { pt += read_eeprom(p,s)*6; s++; }]
    The loop runs at most [STATIONS-3 - 3] times from [s = 3]; [n] counts
    the iterations still possible. *)
Fixpoint walk (e : list Z) (p c : Z) (n : nat) (pt s : Z) : Z * Z :=
  match n with
  | O => (pt, s)
  | S n' =>
      if bool_decide (pt ≤ c) && bool_decide (s < STATIONS - 3) then
        walk e p c n' (u32 (pt + read_eeprom e p s * 6)) (u8 (s + 1))
      else (pt, s)
  end.

(** [st[k]=1; remaining[k]=max(r,remaining[k]); station_active=true;] *)
Definition mark (k r : Z) (o : Outputs) : Outputs :=
  {| st := arr_set (st o) k 1;
     remaining := arr_set (remaining o) k (Z.max r (arr_get (remaining o) k));
     station_active := true; relays := relays o |}.

(** The body of [for(p=1;p < (PROGS-1); p++)]: one program, selector [sel]
    (the global [station]), elapsed minutes [c]. *)
Definition prog_pass (e : list Z) (sel c : Z) (o : Outputs) (p : Z) : Outputs :=
  if bool_decide (sel = 0) || bool_decide (sel = p) then
    let r := walk e p c 10 0 3 in
    if bool_decide (r.1 > c) then mark (r.2 - 1) (u32 (r.1 - c)) o else o
  else o.

Definition irrigation (e : list Z) (sel c : Z) (o : Outputs) : Outputs :=
  foldl (prog_pass e sel c) o (seqZ 1 (PROGS - 1 - 1)).

(** [for(s=0;s<STATIONS;s++) { st[s]=0; remaining[s]=0; }] *)
Definition all_off (o : Outputs) : Outputs :=
  foldl (λ o s, {| st := arr_set (st o) s 0;
                   remaining := arr_set (remaining o) s 0;
                   station_active := station_active o; relays := relays o |})
        o (seqZ 0 STATIONS).

(** [bws[i]]; the array has three cells and no cell at another index. *)
Definition bws_at (i : Z) : option Z :=
  if bool_decide (0 ≤ i) then bws !! Z.to_nat i else None.

(** [while ( (pt <= ct) && (s < 3) ) { ... s++; }] of the backwash cycle. *)
Fixpoint bw_walk (e : list Z) (c : Z) (n : nat) (pt s : Z) : Z * Z :=
  match n with
  | O => (pt, s)
  | S n' =>
      if bool_decide (pt ≤ c) && bool_decide (s < 3) then
        let d := read_eeprom e (PROGS - 1) (default 0 (bws_at s)) in
        let pt := if bool_decide (s < 2) then u32 (pt + d / 10)
                  else u32 (pt + d * 6) in
        bw_walk e c n' pt (u8 (s + 1))
      else (pt, s)
  end.

(** The backwash part of the tick, entered with [station_active] set.
    [bws[s-1]] is read (for the log line and for the marking) after the
    walk; with [s = 0] that is a read before the array, which has no
    defined value: the result is [None]. *)
Definition backwash (σ : State) : option State :=
  let c := ct (clock σ) in
  if bool_decide (backwash_delay (clock σ) ≠ 0) then
    Some (with_clock
            (set_backwash_delay (u8 (backwash_delay (clock σ) - 1))
               (set_bt (u32 (c + 1)) (clock σ))) σ)
  else
    let r := bw_walk (eeprom σ) c 3 (bt (clock σ)) 0 in
    k ← bws_at (r.2 - 1);
    if bool_decide (r.1 > c) then
      let o := outputs σ in
      Some (with_outputs
              {| st := arr_set (st o) k 1;
                 remaining := arr_set (remaining o) k (u32 (r.1 - c));
                 station_active := station_active o; relays := relays o |} σ)
    else if bool_decide (r.2 = 3) then
      Some (with_clock (set_bt (u32 (c + 1)) (clock σ)) σ)
    else Some σ.

(** [relays=1; for(s=1; s<8; s++) relays = (relays << 1) | (st[s] & 1);] *)
Definition drive_relays (o : Outputs) : Outputs :=
  set_relays
    (foldl (λ r s, u8 (Z.lor (Z.shiftl r 1) (Z.land (arr_get (st o) s) 1)))
           1 (seqZ 1 7)) o.

(** The first part of the body of [if (lt != ct)]: [lt] follows [ct], the
    checkpoint is written to the live slot, the arrays are cleared and the
    irrigation programs are walked. *)
Definition eval_programs (σ : State) : State :=
  let c := ct (clock σ) in
  let σ := with_clock (set_lt c (clock σ)) σ in
  let slot := LAST_TIME_BASE + EEPROM.read (eeprom σ) LAST_TIME_INDEX in
  let σ := with_eeprom (EEPROM.write (eeprom σ) slot (lt (clock σ) / 6)) σ in
  let σ := with_outputs (all_off (outputs σ)) σ in
  with_outputs (irrigation (eeprom σ) (station (cursor σ)) c (outputs σ)) σ.

(** The body of [if (lt != ct)]: one evaluated tick. *)
Definition eval_tick (σ : State) : option State :=
  let σ := eval_programs σ in
  if station_active (outputs σ) then
    σ ← backwash σ;
    Some (with_outputs (drive_relays (outputs σ)) σ)
  else Some (stop_runmode σ).

(** [ct=((millis()-start_time)/60000) + last_time*6;] (5000 in fast mode) *)
Definition elapsed (now : Z) (σ : State) : Z :=
  let per := if fast_mode σ then 5000 else 60000 in
  u32 (u32 (now - start_time (clock σ)) / per + last_time (clock σ) * 6).

(** [if (run_mode) { ... }] *)
Definition run_section (now : Z) (σ : State) : option State :=
  if run_mode σ then
    let σ := with_outputs (set_station_active false (outputs σ)) σ in
    let σ := with_clock (set_ct (elapsed now σ) (clock σ)) σ in
    let σ :=
      if bool_decide (ct (clock σ) > 24 * 60) then
        let σ := stop_runmode σ in
        with_clock (set_lt (ct (clock σ)) (clock σ)) σ
      else σ in
    if bool_decide (lt (clock σ) ≠ ct (clock σ)) then eval_tick σ else Some σ
  else Some σ.

(** ** The button section of [loop] *)

(** Button 8, the fast-mode toggle; [now] is [millis()]. *)
Definition press_b8 (now : Z) (σ : State) : State :=
  let σ := with_debounce 32 σ in
  let σ := with_fast_mode (negb (fast_mode σ)) σ in
  if run_mode σ then
    with_clock (set_start_time (u32 now)
                  (set_last_time (u8 (ct (clock σ) / 6)) (clock σ))) σ
  else σ.

(** Button 1, the mode button. *)
Definition press_b1 (σ : State) : State :=
  let σ := with_debounce 32 σ in
  let c := cursor σ in
  let σ := if bool_decide (prog c = 0) then stop_runmode σ
           else update_eeprom (prog c) (station c) (duration c) σ in
  let σ := with_cursor (set_station 3 (cursor σ)) σ in
  let σ := if bool_decide (prog (cursor σ) ≠ 0) then update_checksum σ else σ in
  let p := u8 (prog (cursor σ) + 1) in
  let p := if bool_decide (p > PROGS - 1) then 0 else p in
  let σ := with_cursor (set_prog p (cursor σ)) σ in
  let σ := if bool_decide (prog (cursor σ) > MAX_PROG) then
             with_cursor (set_station 1 (set_prog (PROGS - 1) (cursor σ))) σ
           else σ in
  if bool_decide (prog (cursor σ) = 0) then
    with_cursor (set_duration 0 (set_station 0 (cursor σ))) σ
  else
    with_cursor
      (set_duration
         (read_eeprom (eeprom σ) (prog (cursor σ)) (station (cursor σ)))
         (cursor σ)) σ.

(** Button 2, the selector / station button. *)
Definition press_b2 (σ : State) : State :=
  let σ := with_debounce 32 σ in
  let c := cursor σ in
  if bool_decide (prog c ≠ 0) then
    let σ := update_eeprom (prog c) (station c) (duration c) σ in
    let s := u8 (station c + 1) in
    let s := if bool_decide (s >= STATIONS - 3) then 1 else s in
    let s := if bool_decide (prog c = PROGS - 1) && bool_decide (s >= 3)
             then 13 else s in
    let s := if bool_decide (prog c ≠ PROGS - 1) then
               let s := if bool_decide (s < 3) then 3 else s in
               if bool_decide (s > 7) then 3 else s
             else s in
    with_cursor
      (set_duration (read_eeprom (eeprom σ) (prog c) s) (set_station s c)) σ
  else if negb (run_mode σ) then
    let s := u8 (station c + 1) in
    let s := if bool_decide (s > MAX_PROG) then 0 else s in
    with_cursor (set_station s c) σ
  else σ.

(** Button 3, increment / start; [now] is [millis()] in [start_runmode]. *)
Definition press_b3 (now : Z) (σ : State) : State :=
  let σ := with_debounce 32 σ in
  let c := cursor σ in
  if bool_decide (prog c = 0) && negb (run_mode σ) then start_runmode now σ
  else if bool_decide (prog c ≠ 0) then
    let d := u8 ((duration c / 5 + 1) * 5) in
    let d := if bool_decide (prog c = PROGS - 1) && bool_decide (station c < 3)
             then u8 (d + 5) else d in
    let d := if bool_decide (d > 80) then 0 else d in
    with_cursor (set_duration d c) σ
  else σ.

(** Button 4, clear / stop. *)
Definition press_b4 (σ : State) : State :=
  let σ := with_debounce 32 σ in
  let σ := if bool_decide (prog (cursor σ) ≠ 0) && negb (run_mode σ) then
             with_cursor (set_duration 0 (cursor σ)) σ
           else σ in
  if run_mode σ then stop_runmode σ else σ.

(** The level of a button: LOW when the keypad bit is set or the pin reads 0. *)
Definition level (buttons bit : Z) (pin : option Z) : Z :=
  if bool_decide (Z.land buttons bit ≠ 0) || bool_decide (pin = Some 0)
  then LOW else HIGH.

(** A falling edge, [(b == HIGH) && (bnew == LOW)]. *)
Definition pressed (b bnew : Z) : bool :=
  bool_decide (b = HIGH) && bool_decide (bnew = LOW).

(** [if (debounce) debounce--; else { ... }] *)
Definition poll_buttons (i : Inputs) (σ : State) : State :=
  if bool_decide (debounce σ ≠ 0) then with_debounce (u8 (debounce σ - 1)) σ
  else
    let b1new := level (buttons i) 1 (Some (pin1 (pins i))) in
    let b2new := level (buttons i) 2 (Some (pin2 (pins i))) in
    let b3new := level (buttons i) 4 (Some (pin3 (pins i))) in
    let b4new := level (buttons i) 8 (Some (pin4 (pins i))) in
    let b8new := level (buttons i) 128 None in
    let k := keys σ in
    let σ := if pressed (b8 k) b8new then press_b8 (t_fast i) σ else σ in
    let σ := if pressed (b1 k) b1new then press_b1 σ else σ in
    let σ := if pressed (b2 k) b2new then press_b2 σ else σ in
    let σ := if pressed (b3 k) b3new then press_b3 (t_start i) σ else σ in
    let σ := if pressed (b4 k) b4new then press_b4 σ else σ in
    with_keys {| b1 := b1new; b2 := b2new; b3 := b3new; b4 := b4new;
                 b8 := b8new |} σ.

(** [void loop()]: the run-mode section, then the buttons. *)
Definition loop (i : Inputs) (σ : State) : option State :=
  σ ← run_section (t_run i) σ;
  Some (poll_buttons i σ).

(** States the controller can be in: after [setup] on any EEPROM content,
    and after any pass of [loop] on any inputs. *)
Inductive reachable : State → Prop :=
  | reach_boot (e : list Z) (now : Z) (pn : Pins) :
      reachable (boot e now pn)
  | reach_loop (i : Inputs) (σ σ' : State) :
      reachable σ → loop i σ = Some σ' → reachable σ'.

(** ** Specification-side views of the program table *)

(** The cells [(a, b)] the double loops over the table visit, in order. *)
Definition cells : list (Z * Z) :=
  a ← seqZ 0 PROGS; (λ b, (a, b)) <$> seqZ 0 STATIONS.

(** The 160 durations, in the order [checksum] reads them. *)
Definition table (e : list Z) : list Z :=
  (λ c, read_eeprom e c.1 c.2) <$> cells.

Definition sumZ (l : list Z) : Z := foldr Z.add 0 l.

(** One step of the checksum fold on a duration [v]. *)
Definition fletcher_step (acc : Z * Z) (v : Z) : Z * Z :=
  let sum1 := u16 ((acc.1 + v) mod 255) in
  (sum1, u16 ((acc.2 + sum1) mod 255)).

(** A persisted image with the byte of table cell [(p, s)] replaced by [v]. *)
Definition corrupt (e : list Z) (p s v : Z) : list Z :=
  <[Z.to_nat (EBASE + p * STATIONS + s) := v]> e.

(** The EEPROM after the table-clearing loop of [setup]. *)
Definition zero_cells (e : list Z) : list Z :=
  foldl (λ e c, EEPROM.write e (EBASE + c.1 * STATIONS + c.2) 0) e cells.

(** Concrete inputs used in the examples: all four button pins released,
    an EEPROM that reads 0 everywhere, and the image [setup] makes of it. *)
Definition pins_up : Pins := {| pin1 := 1; pin2 := 1; pin3 := 1; pin4 := 1 |}.
Definition blank : list Z := replicate 512 0.
Definition factory : list Z := eeprom (boot blank 0 pins_up).

(** The factory image with the run state on and the checkpoint [v] in the
    live slot (index 0). *)
Definition running_image (v : Z) : list Z :=
  EEPROM.write (EEPROM.write factory STATUS 1) LAST_TIME_BASE v.

(** The wear-levelling index and the address of the live log slot. *)
Definition live_index (σ : State) : Z := EEPROM.read (eeprom σ) LAST_TIME_INDEX.
Definition live_slot (σ : State) : Z := LAST_TIME_BASE + live_index σ.

(** The live index after each of a series of [start_runmode] calls made at
    the clock readings [ts]. *)
Fixpoint slots_visited (ts : list Z) (σ : State) : list Z :=
  match ts with
  | [] => []
  | t :: ts =>
      let σ' := start_runmode t σ in live_index σ' :: slots_visited ts σ'
  end.

(** ** Specification-side view of one program's schedule *)

(** Minutes accumulated over the first [n] stations from station 3. *)
Fixpoint cum_n (e : list Z) (p : Z) (n : nat) : Z :=
  match n with
  | O => 0
  | S n' => cum_n e p n' + read_eeprom e p (3 + Z.of_nat n') * 6
  end.

(** The cumulative sum after station [k]: [sum(d3..dk) * 6] minutes. *)
Definition cumulative (e : list Z) (p k : Z) : Z := cum_n e p (Z.to_nat (k - 2)).

(** The total duration of program [p], stations 3 up to (not including) 13. *)
Definition total (e : list Z) (p : Z) : Z := cumulative e p 12.

(** A schedule longer than 24 hours within the limits of the keypad:
    program 1 with stations 3 to 6 at 80 counts (8 hours) each, the
    checksum stored, the run state on and the checkpoint at 239. *)
Definition long_table : list Z :=
  store_checksum
    (corrupt (corrupt (corrupt (corrupt factory 1 3 80) 1 4 80) 1 5 80) 1 6 80).
Definition long_run_image : list Z :=
  EEPROM.write (EEPROM.write long_table STATUS 1) LAST_TIME_BASE 239.

(** A pass of the run section that evaluates a tick: running, within the
    ceiling, and the minute count has moved. *)
Definition evaluated (t : Z) (σ : State) : Prop :=
  run_mode σ = true ∧ elapsed t σ ≤ 24 * 60 ∧ lt (clock σ) ≠ elapsed t σ.

(** The state in which the tick is evaluated, and what the irrigation
    programs make of the station arrays on that tick. *)
Definition tick_state (t : Z) (σ : State) : State :=
  with_clock (set_ct (elapsed t σ) (clock σ))
    (with_outputs (set_station_active false (outputs σ)) σ).

Definition evaluated_outputs (t : Z) (σ : State) : Outputs :=
  irrigation
    (EEPROM.write (eeprom σ) (live_slot σ) (elapsed t σ / 6))
    (station (cursor σ)) (elapsed t σ)
    (all_off (set_station_active false (outputs σ))).

(** The state of the tick after the irrigation programs. *)
Definition eval_state (t : Z) (σ : State) : State :=
  eval_programs (tick_state t σ).

(** ** Inputs and states of the button examples *)

(** The order in which the mode button visits the programs. *)
Definition mode_cycle : list Z := [0; 1; 2; 3; 4; 5; 9].

(** A pass of [loop] at clock reading [t] with the keypad byte [b] and the
    four pins released. *)
Definition poll (t b : Z) : Inputs :=
  {| t_run := t; t_fast := t; t_start := t; buttons := b; pins := pins_up |}.

(** The factory image with the run state on and the wear-levelling index
    byte at 100: the live slot [105 + 100] is cell (1, 9) of the table. *)
Definition stray_index_image : list Z :=
  EEPROM.write (EEPROM.write factory STATUS 1) LAST_TIME_INDEX 100.

(** The state one pass of [loop] after a boot on that image, six minutes
    on: the checkpoint 1 has gone into the table and the run has ended. *)
Definition stale_state : State :=
  default (power_on []) (loop (poll 360000 0) (boot stray_index_image 0 pins_up)).

(** The invariant of the controller: a running controller has its cursor
    on program 0, and no [update_eeprom] call was made while running. *)
Definition edit_inv (σ : State) : Prop :=
  (run_mode σ = true → prog (cursor σ) = 0) ∧
  Forall (λ ev, wr_running ev = false) (trace σ).

(** What the run section may change of the three things the invariant
    reads. *)
Definition frame (σ σ' : State) : Prop :=
  cursor σ' = cursor σ ∧ trace σ' = trace σ ∧
  (run_mode σ' = true → run_mode σ = true).

(** Successive passes of [loop] on a list of inputs. *)
Fixpoint loops (ins : list Inputs) (σ : State) : option State :=
  match ins with
  | [] => Some σ
  | i :: ins => σ' ← loop i σ; loops ins σ'
  end.

(** A key stroke: the keypad byte [b] for one pass, then 33 passes with no
    key down (the debounce window of 32 passes, and the release). *)
Definition stroke (b : Z) : list Inputs := poll 0 b :: replicate 33 (poll 0 0).

(** ** The bit-banged serial link to the display/keypad chip

    [shiftOutMod] and [shiftInMod] move one byte over the data pin, one bit
    per clock pulse.  The model keeps the data-pin levels: what
    [shiftOutMod] writes is the list of the eight levels, in the order of
    the pulses; what [shiftInMod] reads is given by the level [pin i] of
    the data pin at pulse [i]. *)

Definition LSBFIRST : Z := 0.
Definition MSBFIRST : Z := 1.

(** [!!(val & (1 << n))] *)
Definition bit_of (val n : Z) : Z :=
  if bool_decide (Z.land val (Z.shiftl 1 n) ≠ 0) then 1 else 0.

(** [void shiftOutMod(dataPin, clockPin, bitOrder, clock_type, delay, val)] *)
Definition shiftOutMod (bitOrder val : Z) : list Z :=
  (λ i, if bool_decide (bitOrder = LSBFIRST) then bit_of val i
        else bit_of val (7 - i)) <$> seqZ 0 8.

(** [uint8_t shiftInMod(dataPin, clockPin, bitOrder, clock_type, delay)] *)
Definition shiftInMod (bitOrder : Z) (pin : Z → Z) : Z :=
  foldl (λ value i,
           if bool_decide (bitOrder = LSBFIRST)
           then u8 (Z.lor value (Z.shiftl (pin i) i))
           else u8 (Z.lor value (Z.shiftl (pin i) (7 - i))))
        0 (seqZ 0 8).

(** [uint8_t readButtons(void)]: four bytes are read from the chip, byte [i]
    at the pin levels [pin i]. *)
Definition readButtons (pin : Z → Z → Z) : Z :=
  foldl (λ buttons i,
           let v := u8 (Z.shiftl (shiftInMod LSBFIRST (pin i)) i) in
           u8 (Z.lor buttons v))
        0 (seqZ 0 4).


(** ** Specification-side view of the backwash cycle

    From the reference [bt]: filter 1 for [d1] minutes, filter 2 for [d2],
    the delay station 13 for [d3]; the station that is on at [c] and its
    remaining minutes, or [None] when the cycle is over. *)
Definition bw_plan (e : list Z) (b c : Z) : option (Z * Z) :=
  let a1 := b + read_eeprom e (PROGS - 1) 1 / 10 in
  let a2 := a1 + read_eeprom e (PROGS - 1) 2 / 10 in
  let a3 := a2 + read_eeprom e (PROGS - 1) 13 * 6 in
  if bool_decide (c < a1) then Some (1, a1 - c)
  else if bool_decide (c < a2) then Some (2, a2 - c)
  else if bool_decide (c < a3) then Some (13, a3 - c)
  else None.

(** The arrays with the backwash station [k] marked, [r] minutes left. *)
Definition mark_bw (k r : Z) (o : Outputs) : Outputs :=
  {| st := arr_set (st o) k 1; remaining := arr_set (remaining o) k r;
     station_active := station_active o; relays := relays o |}.

(** ** Specification-side views of a tick *)

(** The EEPROM image of an evaluated tick: the checkpoint [ct / 6] is in
    the live slot. *)
Definition checkpointed (t : Z) (σ : State) : list Z :=
  EEPROM.write (eeprom σ) (live_slot σ) (elapsed t σ / 6).

(** Program [p] is selected by [sel] and has not finished at [c]. *)
Definition prog_running (e : list Z) (sel c p : Z) : bool :=
  (bool_decide (sel = 0) || bool_decide (sel = p)) && bool_decide (total e p > c).

(** ** The cursor ranges of the keypad *)

(** [uint8_t bls[] = { 3,4,5,6,7 }], the irrigation blocks. *)
Definition bls : list Z := [3; 4; 5; 6; 7].

(** The run selectors: 0 for all programs, or one program. *)
Definition selectors : list Z := [0; 1; 2; 3; 4; 5].

(** ** Invariants of the cursor and of the persisted state *)





(** ** The display section of [loop]

    The first part of [loop] refreshes the eight digits of the display
    through [WriteNumberToSegment].  Its state is the blink counter [k] and
    the station counter [sr] of the remaining-time digits; [j] is assigned
    before each use and is not part of the state. *)

(** [uint8_t digits[]], the segment maps of 0..9, A..F and the blank. *)
Definition digits : list Z :=
  [0x3f; 0x06; 0x5b; 0x4f; 0x66; 0x6d; 0x7d; 0x07; 0x7f; 0x6f; 0x77; 0x7c;
   0x39; 0x5e; 0x79; 0x71; 0].
Definition POINT_SEG : Z := 0x80.
Definition BLANK_SEG : Z := 16.

(** The conversion to [long int], 32 bits on the ESP32. *)
Definition s32 (x : Z) : Z := (x + 2147483648) mod 4294967296 - 2147483648.

(** [void sendCommand(uint8_t value)], the levels of the data pin. *)
Definition sendCommand (value : Z) : list Z := shiftOutMod LSBFIRST value.

(** [void WriteNumberToSegment(uint8_t Segment, uint8_t Value, uint8_t dp)]:
    the levels of the data pin over the three bytes sent, or [None] when
    [digits[Value]] is read outside of the array. *)
Definition WriteNumberToSegment (Segment Value dp : Z) : option (list Z) :=
  d ← digits !! Z.to_nat Value;
  Some (sendCommand 0x44
        ++ shiftOutMod LSBFIRST (u8 (0xC0 + Z.shiftl Segment 1))
        ++ shiftOutMod LSBFIRST (Z.lor d dp)).

(** [long int k] and [uint8_t sr]. *)
Module Disp.
Record t := { k : Z; sr : Z }.
End Disp.

(** The digits 0..3: program, station and, while [k++ < 100], the duration
    or the elapsed time in tenths of an hour; the calls of
    [WriteNumberToSegment] as triples (Segment, Value, dp). *)
Definition show_time (d : Disp.t) (σ : State) : list (Z * Z * Z) :=
  let c := cursor σ in
  [(0, prog c, 0); (1, station c, 0)] ++
  if bool_decide (Disp.k d < 100) then
    let j := if run_mode σ then ct (clock σ) / 6 else duration c in
    [(2, u8 (j / 10 mod 10), POINT_SEG); (3, u8 (j mod 10), 0)]
  else [(2, BLANK_SEG, 0); (3, BLANK_SEG, 0)].

(** [k] after [k++] and the two resets. *)
Definition blink (d : Disp.t) (σ : State) : Z :=
  let k := Disp.k d + 1 in
  let k := if bool_decide (k > 200) || negb (run_mode σ) then 0 else k in
  if bool_decide (prog (cursor σ) = 0) && negb (run_mode σ) then 100 else k.

(** [while ( (remaining[sr] == 0) && (sr < (STATIONS-1)) ) sr++;]
    [n] counts the iterations still possible. *)
Fixpoint scan (rem : list Z) (n : nat) (sr : Z) : Z :=
  match n with
  | O => sr
  | S n' =>
      if bool_decide (arr_get rem sr = 0) && bool_decide (sr < STATIONS - 1)
      then scan rem n' (u8 (sr + 1))
      else sr
  end.

(** The digits 5..7 in run mode: the next station with time remaining, in
    minutes for the two filters and in tenths of an hour otherwise.
    [None] when [remaining[sr]] is read outside of the array. *)
Definition show_remaining (rem : list Z) (k sr : Z)
  : option (Z * list (Z * Z * Z)) :=
  if bool_decide (sr < STATIONS) then
    let sr := scan rem 15 sr in
    let r := arr_get rem sr in
    let '(sr, ws) :=
      if bool_decide (r ≠ 0) then
        let j := if bool_decide (sr = arr_get bws 0)
                    || bool_decide (sr = arr_get bws 1)
                 then s32 (u32 (r * 10)) else s32 (u32 (r + 3) / 6) in
        (sr, [(5, sr, 0); (6, u8 (Z.rem (Z.quot j 10) 10), POINT_SEG);
              (7, u8 (Z.rem j 10), 0)])
      else (1, []) in
    let sr := if bool_decide (k = 199) then u8 (sr + 1) else sr in
    let sr := if bool_decide (sr > STATIONS - 1) then 1 else sr in
    Some (sr, ws)
  else None.

(** The display section of one pass of [loop]. *)
Definition display (d : Disp.t) (σ : State)
  : option (Disp.t * list (Z * Z * Z)) :=
  let w03 := show_time d σ in
  let k := blink d σ in
  let w4 := [(4, if fast_mode σ then 0xF else BLANK_SEG, 0)] in
  if negb (run_mode σ) then
    Some ({| Disp.k := k; Disp.sr := Disp.sr d |},
          w03 ++ w4 ++ [(5, BLANK_SEG, 0); (6, BLANK_SEG, 0); (7, BLANK_SEG, 0)])
  else
    '(sr, w57) ← show_remaining (remaining (outputs σ)) k (Disp.sr d);
    Some ({| Disp.k := k; Disp.sr := sr |}, w03 ++ w4 ++ w57).

(** The frames of a list of calls. *)
Definition frames (ws : list (Z * Z * Z)) : option (list (list Z)) :=
  mapM (λ w, WriteNumberToSegment w.1.1 w.1.2 w.2) ws.

(** Successive display sections on the states [σs]. *)
Fixpoint displays (σs : list State) (d : Disp.t) : option Disp.t :=
  match σs with
  | [] => Some d
  | σ :: σs => '(d', _) ← display d σ; displays σs d'
  end.

(** ** Cells the keypad cannot edit *)


(** * Properties *)

(** ** Fixed-width arithmetic *)

Lemma u8_range x : 0 ≤ u8 x < 256.
Proof. unfold u8. apply Z.mod_pos_bound. lia. Qed.

Lemma u8_small x : 0 ≤ x < 256 → u8 x = x.
Proof. intros. unfold u8. by apply Z.mod_small. Qed.

Lemma u16_small x : 0 ≤ x < 65536 → u16 x = x.
Proof. intros. unfold u16. by apply Z.mod_small. Qed.

Lemma u32_small x : 0 ≤ x < 4294967296 → u32 x = x.
Proof. intros. unfold u32. by apply Z.mod_small. Qed.

Lemma u32_range x : 0 ≤ u32 x < 4294967296.
Proof. unfold u32. apply Z.mod_pos_bound. lia. Qed.

Lemma lor_shift8 (lo hi : Z) :
  0 ≤ lo < 256 → Z.lor (Z.shiftl hi 8) lo = hi * 256 + lo.
Proof.
  intros Hlo. rewrite <- Z.add_nocarry_lor.
  - rewrite Z.shiftl_mul_pow2 by lia. reflexivity.
  - apply Z.bits_inj'. intros n Hn.
    rewrite Z.land_spec, Z.bits_0.
    destruct (decide (n < 8)) as [Hlt|Hge].
    + rewrite Z.shiftl_spec_low by lia. reflexivity.
    + destruct (decide (lo = 0)) as [->|Hnz].
      * rewrite Z.bits_0. apply andb_false_r.
      * rewrite (Z.bits_above_log2 lo n); [apply andb_false_r|lia|].
        assert (Z.log2 lo < 8) by (apply Z.log2_lt_pow2; lia). lia.
Qed.

(** ** The EEPROM object *)

Lemma read_range e a : 0 ≤ EEPROM.read e a < 256.
Proof.
  unfold EEPROM.read. case_bool_decide; [apply u8_range|lia].
Qed.

Lemma write_length e a v : length (EEPROM.write e a v) = length e.
Proof.
  unfold EEPROM.write. case_bool_decide; [apply length_insert|done].
Qed.

Lemma read_write_eq e a v :
  length e = Z.to_nat EEPROM.SIZE → 0 ≤ a < EEPROM.SIZE →
  EEPROM.read (EEPROM.write e a v) a = u8 v.
Proof.
  intros Hlen Ha. unfold EEPROM.read, EEPROM.write.
  rewrite !bool_decide_eq_true_2 by done.
  rewrite list_lookup_insert_eq by lia. simpl.
  apply u8_small, u8_range.
Qed.

Lemma read_write_ne e a a' v :
  a ≠ a' → EEPROM.read (EEPROM.write e a v) a' = EEPROM.read e a'.
Proof.
  intros Hne. unfold EEPROM.read, EEPROM.write.
  case_bool_decide; [|done]. case_bool_decide; [|done].
  rewrite list_lookup_insert_ne by lia. done.
Qed.

(** A write of 0 never turns a cell that reads 0 into something else. *)
Lemma read_write_zero e a a' :
  EEPROM.read e a' = 0 → EEPROM.read (EEPROM.write e a 0) a' = 0.
Proof.
  intros H0. destruct (decide (a = a')) as [<-|Hne].
  - unfold EEPROM.read, EEPROM.write in *.
    case_bool_decide; [|done].
    destruct (decide (Z.to_nat a < length e)%nat).
    + rewrite list_lookup_insert_eq by done. done.
    + rewrite list_insert_ge by lia. done.
  - by rewrite read_write_ne.
Qed.

(** A cell just written with 0 reads 0, whatever the size of the image. *)
Lemma read_write_zero_eq e a : EEPROM.read (EEPROM.write e a 0) a = 0.
Proof.
  unfold EEPROM.read, EEPROM.write. case_bool_decide; [|done].
  destruct (decide (Z.to_nat a < length e)%nat).
  - rewrite list_lookup_insert_eq by done. done.
  - rewrite lookup_ge_None_2; [done|]. rewrite length_insert. lia.
Qed.

(** ** The program table and its checksum *)

Lemma cell_addr_range p s :
  0 ≤ p < PROGS → 0 ≤ s < STATIONS →
  180 ≤ EBASE + p * STATIONS + s < 340.
Proof. unfold PROGS, STATIONS, EBASE. lia. Qed.

Lemma elem_of_cells p s : (p, s) ∈ cells ↔ 0 ≤ p < PROGS ∧ 0 ≤ s < STATIONS.
Proof.
  unfold cells. rewrite list_elem_of_bind. split.
  - intros (a & Hin & Ha). apply list_elem_of_fmap in Hin as (b & Heq & Hb).
    simplify_eq. apply elem_of_seqZ in Ha, Hb. lia.
  - intros [Hp Hs]. exists p. split.
    + apply list_elem_of_fmap. exists s. split; [done|]. apply elem_of_seqZ. lia.
    + apply elem_of_seqZ. lia.
Qed.

Lemma NoDup_cells : NoDup cells.
Proof. apply (bool_decide_unpack (NoDup cells)). vm_compute. exact I. Qed.

Lemma foldl_bind {A B C} (f : A → B → A) (g : C → list B) (l : list C) (a : A) :
  foldl f a (l ≫= g) = foldl (λ a x, foldl f a (g x)) a l.
Proof.
  revert a. induction l as [|x l IH]; intros a; [done|].
  cbn. rewrite foldl_app. apply IH.
Qed.

Lemma foldl_ext_in {A B} (f g : A → B → A) (l : list B) (a : A) :
  (∀ a x, x ∈ l → f a x = g a x) → foldl f a l = foldl g a l.
Proof.
  revert a. induction l as [|x l IH]; intros a Hfg; [done|].
  cbn. rewrite Hfg by left. apply IH. intros. apply Hfg. by right.
Qed.

Lemma checksum_sums_table e :
  checksum_sums e = foldl fletcher_step (456, 0) (table e).
Proof.
  unfold checksum_sums, table, cells.
  rewrite foldl_fmap, foldl_bind.
  apply foldl_ext_in. intros acc a _. by rewrite foldl_fmap.
Qed.

Lemma fletcher_step_range acc v :
  0 ≤ (fletcher_step acc v).1 < 255 ∧ 0 ≤ (fletcher_step acc v).2 < 255.
Proof.
  assert (∀ x, 0 ≤ x mod 255 < 255) as Hm by (intros; apply Z.mod_pos_bound; lia).
  unfold fletcher_step. cbn.
  pose proof (Hm (acc.1 + v)) as H1.
  rewrite (u16_small ((acc.1 + v) mod 255)) by lia.
  pose proof (Hm (acc.2 + (acc.1 + v) mod 255)) as H2.
  rewrite u16_small by lia. done.
Qed.

Lemma table_ext e e' :
  (∀ p s, 0 ≤ p < PROGS → 0 ≤ s < STATIONS →
          read_eeprom e p s = read_eeprom e' p s) →
  table e = table e'.
Proof.
  intros H. unfold table. apply list_fmap_ext. intros i [p s] Hi. cbn.
  apply H; eapply elem_of_cells, list_elem_of_lookup_2, Hi.
Qed.

Lemma checksum_table e : 
  checksum e =
  let sums := foldl fletcher_step (456, 0) (table e) in
  u16 (Z.land (Z.lor (Z.shiftl sums.2 8) sums.1) 0x7fff).
Proof. unfold checksum. by rewrite checksum_sums_table. Qed.

(** The checksum depends on the 160 table cells only. *)
Lemma checksum_ext e e' :
  (∀ p s, 0 ≤ p < PROGS → 0 ≤ s < STATIONS →
          read_eeprom e p s = read_eeprom e' p s) →
  checksum e = checksum e'.
Proof. intros H. rewrite !checksum_table. by rewrite (table_ext e e'). Qed.

Lemma table_not_nil e : ∃ l v, table e = l ++ [v].
Proof.
  unfold table.
  assert (∃ l c, cells = l ++ [c]) as (l & c & ->).
  { exists (removelast cells), (List.last cells (0, 0)).
    apply app_removelast_last. vm_compute. discriminate. }
  rewrite fmap_app. eauto.
Qed.

Lemma checksum_sums_range e :
  0 ≤ (checksum_sums e).1 < 255 ∧ 0 ≤ (checksum_sums e).2 < 255.
Proof.
  rewrite checksum_sums_table.
  destruct (table_not_nil e) as (l & v & ->).
  rewrite foldl_app. cbn [foldl]. apply fletcher_step_range.
Qed.

(** The value of [checksum], without the bit operations. *)
Lemma checksum_value e :
  checksum e = ((checksum_sums e).2 * 256 + (checksum_sums e).1) mod 32768.
Proof.
  destruct (checksum_sums_range e) as [H1 H2]. unfold checksum. cbn zeta.
  rewrite lor_shift8 by lia.
  change 0x7fff with (Z.ones 15). rewrite Z.land_ones by lia.
  change (2 ^ 15) with 32768. apply u16_small.
  pose proof (Z.mod_pos_bound ((checksum_sums e).2 * 256 + (checksum_sums e).1)
                32768). lia.
Qed.

Lemma checksum_range e : 0 ≤ checksum e < 32768.
Proof. rewrite checksum_value. apply Z.mod_pos_bound. lia. Qed.

(** The low byte of the checksum is [sum1]. *)
Lemma checksum_low e : checksum e mod 256 = (checksum_sums e).1.
Proof.
  destruct (checksum_sums_range e) as [H1 H2]. rewrite checksum_value.
  change 32768 with (256 * 128). rewrite Z.rem_mul_r by lia.
  rewrite (Z.mul_comm 256), Z.mod_add by lia. rewrite Z.mod_mod by lia.
  rewrite Z.add_comm, Z.mod_add by lia. apply Z.mod_small. lia.
Qed.

Lemma fletcher_sum1 l acc :
  (foldl fletcher_step acc l).1 mod 255 = (acc.1 + sumZ l) mod 255.
Proof.
  revert acc. induction l as [|v l IH]; intros acc; cbn [foldl sumZ foldr].
  - by rewrite Z.add_0_r.
  - rewrite IH. fold (sumZ l).
    pose proof (fletcher_step_range acc v) as [H1 _].
    unfold fletcher_step in *. cbn in *.
    rewrite (u16_small ((acc.1 + v) mod 255)).
    + rewrite Z.add_mod_idemp_l by lia. f_equal. lia.
    + pose proof (Z.mod_pos_bound (acc.1 + v) 255). lia.
Qed.

(** [sum1] is the seed plus the sum of the table, modulo 255. *)
Lemma checksum_sum1 e : (checksum_sums e).1 = (456 + sumZ (table e)) mod 255.
Proof.
  destruct (checksum_sums_range e) as [H1 _].
  rewrite <- (Z.mod_small _ 255 H1).
  rewrite checksum_sums_table. apply fletcher_sum1.
Qed.

(** What [update_checksum] stores reads back as the checksum. *)
Lemma stored_checksum_store e :
  length e = Z.to_nat EEPROM.SIZE →
  stored_checksum (store_checksum e) = checksum e.
Proof.
  intros Hlen. pose proof (checksum_range e) as Hc.
  unfold stored_checksum, store_checksum. cbn zeta.
  rewrite read_write_eq; [|by rewrite write_length|done].
  rewrite read_write_ne by done. rewrite read_write_eq by done.
  change 0xff with (Z.ones 8). rewrite Z.land_ones by lia.
  rewrite Z.shiftr_div_pow2 by lia. change (2 ^ 8) with 256.
  rewrite !u8_small.
  - rewrite Z.mul_comm, <- Z.div_mod by lia.
    change 0x7fff with (Z.ones 15). rewrite Z.land_ones by lia.
    apply Z.mod_small. change (2 ^ 15) with 32768. lia.
  - apply Z.mod_pos_bound. lia.
  - split; [apply Z.div_pos; lia|]. apply Z.div_lt_upper_bound; lia.
Qed.

Lemma read_eeprom_write_other e a v p s :
  ¬ (180 ≤ a < 340) → 0 ≤ p < PROGS → 0 ≤ s < STATIONS →
  read_eeprom (EEPROM.write e a v) p s = read_eeprom e p s.
Proof.
  intros Ha Hp Hs. unfold read_eeprom. apply read_write_ne.
  pose proof (cell_addr_range p s Hp Hs). lia.
Qed.

(** A write outside the table leaves the checksum as it is. *)
Lemma checksum_write_other e a v :
  ¬ (180 ≤ a < 340) → checksum (EEPROM.write e a v) = checksum e.
Proof.
  intros Ha. apply checksum_ext. intros. by apply read_eeprom_write_other.
Qed.

Lemma checksum_store e : checksum (store_checksum e) = checksum e.
Proof.
  unfold store_checksum. cbn zeta.
  rewrite !checksum_write_other; try done; unfold CK1, CK2; lia.
Qed.


Lemma read_eeprom_store e p s :
  0 ≤ p < PROGS → 0 ≤ s < STATIONS →
  read_eeprom (store_checksum e) p s = read_eeprom e p s.
Proof.
  intros. unfold store_checksum. cbn zeta.
  rewrite !read_eeprom_write_other; try done; unfold CK1, CK2; lia.
Qed.

(** ** The table-clearing loop *)

Lemma foldl_invariant {A B} (P : A → Prop) (f : A → B → A) (l : list B) (a : A) :
  P a → (∀ a x, x ∈ l → P a → P (f a x)) → P (foldl f a l).
Proof.
  revert a. induction l as [|x l IH]; intros a Ha Hf; [done|].
  cbn. apply IH.
  - apply Hf; [left|done].
  - intros. apply Hf; [by right|done].
Qed.

Lemma init_table_cells σ :
  init_table σ = foldl (λ σ c, update_eeprom c.1 c.2 0 σ) σ cells.
Proof.
  unfold init_table, cells. rewrite foldl_bind.
  apply foldl_ext_in. intros a x _. by rewrite foldl_fmap.
Qed.

Lemma init_table_eeprom σ : eeprom (init_table σ) = zero_cells (eeprom σ).
Proof.
  rewrite init_table_cells. unfold zero_cells.
  generalize cells. intros l. revert σ.
  induction l as [|c l IH]; intros σ; [done|]. cbn [foldl]. by rewrite IH.
Qed.

Lemma zero_cells_length e : length (zero_cells e) = length e.
Proof.
  unfold zero_cells. apply (foldl_invariant (λ e', length e' = length e)); [done|].
  intros e' c _ He'. by rewrite write_length.
Qed.

Lemma zero_fold (l : list (Z * Z)) e p s :
  length e = Z.to_nat EEPROM.SIZE →
  0 ≤ p < PROGS → 0 ≤ s < STATIONS →
  (p, s) ∈ l ∨ read_eeprom e p s = 0 →
  read_eeprom
    (foldl (λ e c, EEPROM.write e (EBASE + c.1 * STATIONS + c.2) 0) e l) p s = 0.
Proof.
  intros Hlen Hp Hs. revert e Hlen.
  induction l as [|c l IH]; intros e Hlen Hin; cbn [foldl].
  - destruct Hin as [Hin|H0]; [by apply elem_of_nil in Hin|done].
  - apply IH; [by rewrite write_length|].
    destruct Hin as [Hin|H0].
    + apply elem_of_cons in Hin as [<-|Hin]; [|by left].
      right. cbn [fst snd]. unfold read_eeprom. rewrite read_write_eq; [done|done|].
      pose proof (cell_addr_range p s Hp Hs). unfold EEPROM.SIZE. lia.
    + right. by apply read_write_zero.
Qed.

(** After the clearing loop every table cell reads 0. *)
Lemma zero_cells_read e p s :
  length e = Z.to_nat EEPROM.SIZE →
  0 ≤ p < PROGS → 0 ≤ s < STATIONS →
  read_eeprom (zero_cells e) p s = 0.
Proof.
  intros. apply zero_fold; [done..|]. left. by apply elem_of_cells.
Qed.

(** ** [setup]: the EEPROM check *)

(** The image the reset branch of [setup] leaves. *)
Lemma check_eeprom_reset σ :
  stored_checksum (eeprom σ) ≠ checksum (eeprom σ) →
  eeprom (check_eeprom σ) =
  EEPROM.write
    (EEPROM.write
       (EEPROM.write (store_checksum (zero_cells (eeprom σ))) LAST_TIME_INDEX 0)
       LAST_TIME_BASE 0) STATUS 0.
Proof.
  intros Hne. unfold check_eeprom.
  rewrite bool_decide_eq_true_2 by done. cbn. by rewrite init_table_eeprom.
Qed.

Lemma check_eeprom_valid σ :
  stored_checksum (eeprom σ) = checksum (eeprom σ) → check_eeprom σ = σ.
Proof.
  intros Heq. unfold check_eeprom. by rewrite bool_decide_eq_false_2 by naive_solver.
Qed.

Lemma stored_checksum_write_other e a v :
  a ≠ CK1 → a ≠ CK2 →
  stored_checksum (EEPROM.write e a v) = stored_checksum e.
Proof.
  intros. unfold stored_checksum. by rewrite !read_write_ne.
Qed.

(** After the reset the table is zero and the stored checksum is valid. *)
Lemma check_eeprom_reset_ok σ :
  length (eeprom σ) = Z.to_nat EEPROM.SIZE →
  stored_checksum (eeprom σ) ≠ checksum (eeprom σ) →
  (∀ p s, 0 ≤ p < PROGS → 0 ≤ s < STATIONS →
          read_eeprom (eeprom (check_eeprom σ)) p s = 0) ∧
  stored_checksum (eeprom (check_eeprom σ)) = checksum (eeprom (check_eeprom σ)).
Proof.
  intros Hlen Hne. rewrite check_eeprom_reset by done. split.
  - intros p s Hp Hs.
    rewrite !read_eeprom_write_other;
      try done; try (unfold STATUS, LAST_TIME_BASE, LAST_TIME_INDEX; lia).
    rewrite read_eeprom_store by done. by apply zero_cells_read.
  - rewrite !stored_checksum_write_other by done.
    rewrite !checksum_write_other
      by (unfold STATUS, LAST_TIME_BASE, LAST_TIME_INDEX; lia).
    rewrite stored_checksum_store by (by rewrite zero_cells_length).
    by rewrite checksum_store.
Qed.

(** [setup] writes the EEPROM in its check only. *)
Lemma setup_eeprom now pn σ :
  eeprom (setup now pn σ) =
  eeprom (check_eeprom
            (with_keys {| b1 := pin1 pn; b2 := pin2 pn; b3 := pin3 pn;
                          b4 := pin4 pn; b8 := HIGH |} σ)).
Proof.
  unfold setup. cbn zeta.
  set (σ1 := check_eeprom _).
  cbn. destruct (bool_decide (EEPROM.read (eeprom σ1) STATUS ≠ 0)); cbn;
    repeat case_bool_decide; done.
Qed.

Lemma boot_eeprom e now pn :
  eeprom (boot e now pn) =
  eeprom (check_eeprom
            (with_keys {| b1 := pin1 pn; b2 := pin2 pn; b3 := pin3 pn;
                          b4 := pin4 pn; b8 := HIGH |} (power_on e))).
Proof. apply setup_eeprom. Qed.

(** ** One changed byte of the table *)

Lemma sumZ_same (f g : Z * Z → Z) (l : list (Z * Z)) :
  (∀ c, c ∈ l → f c = g c) → sumZ (f <$> l) = sumZ (g <$> l).
Proof.
  induction l as [|c l IH]; intros H; [done|].
  cbn. fold (sumZ (f <$> l)) (sumZ (g <$> l)).
  rewrite IH, H; [done|left|]. intros. apply H. by right.
Qed.

Lemma sumZ_change (f g : Z * Z → Z) (l : list (Z * Z)) (c0 : Z * Z) :
  NoDup l → c0 ∈ l → (∀ c, c ∈ l → c ≠ c0 → f c = g c) →
  sumZ (f <$> l) = sumZ (g <$> l) + (f c0 - g c0).
Proof.
  induction 1 as [|c l Hnin Hnd IH]; intros Hin Hfg.
  - by apply elem_of_nil in Hin.
  - cbn. fold (sumZ (f <$> l)) (sumZ (g <$> l)).
    apply elem_of_cons in Hin as [->|Hin].
    + rewrite (sumZ_same f g l); [lia|].
      intros c' Hc'. apply Hfg; [by right|]. intros ->. done.
    + rewrite IH; [|done|intros; apply Hfg; [by right|done]].
      rewrite (Hfg c); [lia|left|]. intros ->. done.
Qed.

Lemma corrupt_length e p s v : length (corrupt e p s v) = length e.
Proof. apply length_insert. Qed.

Lemma corrupt_read e p s v :
  length e = Z.to_nat EEPROM.SIZE → 0 ≤ p < PROGS → 0 ≤ s < STATIONS →
  0 ≤ v < 256 → read_eeprom (corrupt e p s v) p s = v.
Proof.
  intros Hlen Hp Hs Hv. pose proof (cell_addr_range p s Hp Hs).
  unfold read_eeprom, corrupt, EEPROM.read.
  rewrite bool_decide_eq_true_2 by (unfold EEPROM.SIZE; lia).
  rewrite list_lookup_insert_eq by (unfold EEPROM.SIZE in *; lia).
  by apply u8_small.
Qed.

Lemma corrupt_read_ne e p s v a :
  0 ≤ p < PROGS → 0 ≤ s < STATIONS → a ≠ EBASE + p * STATIONS + s →
  EEPROM.read (corrupt e p s v) a = EEPROM.read e a.
Proof.
  intros Hp Hs Hne. pose proof (cell_addr_range p s Hp Hs).
  unfold corrupt, EEPROM.read. case_bool_decide; [|done].
  rewrite list_lookup_insert_ne by lia. done.
Qed.

Lemma corrupt_table_sum e p s v :
  length e = Z.to_nat EEPROM.SIZE → 0 ≤ p < PROGS → 0 ≤ s < STATIONS →
  0 ≤ v < 256 →
  sumZ (table (corrupt e p s v)) = sumZ (table e) + (v - read_eeprom e p s).
Proof.
  intros Hlen Hp Hs Hv. unfold table.
  rewrite (sumZ_change _ (λ c, read_eeprom e c.1 c.2) cells (p, s)).
  - cbn [fst snd]. by rewrite corrupt_read.
  - apply NoDup_cells.
  - by apply elem_of_cells.
  - intros [p' s'] Hc Hne. cbn [fst snd]. apply corrupt_read_ne; [done..|].
    apply elem_of_cells in Hc. unfold PROGS, STATIONS, EBASE in *.
    intros Heq. apply Hne. f_equal; lia.
Qed.

(** A changed byte is seen by the checksum unless old and new value agree
    modulo 255. *)
Lemma corrupt_checksum e p s v :
  length e = Z.to_nat EEPROM.SIZE → 0 ≤ p < PROGS → 0 ≤ s < STATIONS →
  0 ≤ v < 256 → v mod 255 ≠ read_eeprom e p s mod 255 →
  checksum (corrupt e p s v) ≠ checksum e.
Proof.
  intros Hlen Hp Hs Hv Hne Heq. apply Hne.
  apply (f_equal (λ x, x mod 256)) in Heq.
  rewrite !checksum_low, !checksum_sum1, corrupt_table_sum in Heq by done.
  revert Heq. generalize (sumZ (table e)) (read_eeprom e p s). intros S r.
  Z.div_mod_to_equations. lia.
Qed.

Lemma corrupt_stored e p s v :
  0 ≤ p < PROGS → 0 ≤ s < STATIONS →
  stored_checksum (corrupt e p s v) = stored_checksum e.
Proof.
  intros Hp Hs. pose proof (cell_addr_range p s Hp Hs).
  unfold stored_checksum. rewrite !corrupt_read_ne; try done; unfold CK1, CK2; lia.
Qed.

Lemma setup_trace now pn σ :
  trace (setup now pn σ) =
  trace (check_eeprom
           (with_keys {| b1 := pin1 pn; b2 := pin2 pn; b3 := pin3 pn;
                         b4 := pin4 pn; b8 := HIGH |} σ)).
Proof.
  unfold setup. cbn zeta.
  set (σ1 := check_eeprom _).
  cbn. destruct (bool_decide (EEPROM.read (eeprom σ1) STATUS ≠ 0)); cbn;
    repeat case_bool_decide; done.
Qed.

(** ** Checksum round trip *)

(** C4. For every content of the program table, [update_checksum] followed
    by the comparison of [setup] succeeds: [update_checksum] leaves the
    table as it is, the two stored bytes read back (masked to 15 bits) as
    the recomputed checksum, the check of [setup] changes nothing, and a
    boot on that image keeps it and makes no table write. *)
Theorem checksum_roundtrip (σ : State) (now : Z) (pn : Pins) :
  length (eeprom σ) = Z.to_nat EEPROM.SIZE →
  let e := eeprom (update_checksum σ) in
  (∀ p s, 0 ≤ p < PROGS → 0 ≤ s < STATIONS →
          read_eeprom e p s = read_eeprom (eeprom σ) p s) ∧
  stored_checksum e = checksum e ∧
  check_eeprom (update_checksum σ) = update_checksum σ ∧
  eeprom (boot e now pn) = e ∧
  trace (boot e now pn) = [].
Proof.
  intros Hlen e.
  assert (stored_checksum e = checksum e) as Hok.
  { unfold e, update_checksum. cbn.
    by rewrite stored_checksum_store, checksum_store. }
  split; [|split; [done|split; [|split]]].
  - intros p s Hp Hs. unfold e, update_checksum. cbn.
    by apply read_eeprom_store.
  - by apply check_eeprom_valid.
  - rewrite boot_eeprom, check_eeprom_valid; done.
  - unfold boot. rewrite setup_trace, check_eeprom_valid; done.
Qed.

Lemma checksum_roundtrip_witness :
  length (eeprom (power_on (corrupt blank 1 3 10))) = Z.to_nat EEPROM.SIZE ∧
  stored_checksum (eeprom (update_checksum (power_on (corrupt blank 1 3 10)))) =
  checksum (eeprom (update_checksum (power_on (corrupt blank 1 3 10)))).
Proof.
  split; [reflexivity|].
  exact (proj1 (proj2 (checksum_roundtrip (power_on (corrupt blank 1 3 10))
                         0 pins_up eq_refl))).
Defined.

(** ** Corruption of one table byte *)

(** The claim C3 as stated fails: on the image [setup] leaves of a blank
    EEPROM (zero table, valid checksum), replacing the byte 0x00 of cell
    (1, 3) by its complement 0xFF is not seen by the checksum; the boot
    keeps the table and the cell reads 255. *)
Lemma corruption_undetected :
  stored_checksum factory = checksum factory ∧
  read_eeprom factory 1 3 = 0 ∧
  read_eeprom (eeprom (boot (corrupt factory 1 3 255) 0 pins_up)) 1 3 = 255.
Proof. vm_compute. done. Qed.

(** C3 (amended). On a persisted image whose stored checksum matches its
    table, replacing the byte of one table cell by a value that differs
    from the old one modulo 255 (every change but 0x00 <-> 0xFF) makes the
    next boot reset the table: all 160 entries read 0 and the stored
    checksum is the checksum of the zeroed table. *)
Theorem corruption_reset (e : list Z) (p s v now : Z) (pn : Pins) :
  length e = Z.to_nat EEPROM.SIZE →
  stored_checksum e = checksum e →
  0 ≤ p < PROGS → 0 ≤ s < STATIONS → 0 ≤ v < 256 →
  v mod 255 ≠ read_eeprom e p s mod 255 →
  let e' := eeprom (boot (corrupt e p s v) now pn) in
  (∀ p' s', 0 ≤ p' < PROGS → 0 ≤ s' < STATIONS → read_eeprom e' p' s' = 0) ∧
  stored_checksum e' = checksum e'.
Proof.
  intros Hlen Hok Hp Hs Hv Hne e'. unfold e'. rewrite boot_eeprom.
  apply check_eeprom_reset_ok; cbn.
  - by rewrite corrupt_length.
  - rewrite corrupt_stored, Hok by done. intros Heq.
    by apply (corrupt_checksum e p s v).
Qed.

Lemma corruption_reset_witness :
  length factory = Z.to_nat EEPROM.SIZE ∧
  stored_checksum factory = checksum factory ∧
  (∀ p' s', 0 ≤ p' < PROGS → 0 ≤ s' < STATIONS →
     read_eeprom (eeprom (boot (corrupt factory 1 3 10) 0 pins_up)) p' s' = 0).
Proof.
  split; [by vm_compute|]. split; [by vm_compute|].
  refine (proj1 (corruption_reset factory 1 3 10 0 pins_up _ _ _ _ _ _));
    by vm_compute.
Defined.

(** ** Recovery of a run at boot *)

(** What [setup] recovers, from the image its check leaves. *)
Lemma setup_recover now pn σ :
  let σ1 := check_eeprom
              (with_keys {| b1 := pin1 pn; b2 := pin2 pn; b3 := pin3 pn;
                            b4 := pin4 pn; b8 := HIGH |} σ) in
  let v := EEPROM.read (eeprom σ1)
             (LAST_TIME_BASE + EEPROM.read (eeprom σ1) LAST_TIME_INDEX) in
  let ok := bool_decide (EEPROM.read (eeprom σ1) STATUS ≠ 0)
            && bool_decide (v ≤ 240) in
  run_mode (setup now pn σ) = ok ∧
  last_time (clock (setup now pn σ)) = (if ok then v else 0) ∧
  lt (clock (setup now pn σ)) = u32 ((if ok then v else 0) * 6) ∧
  fast_mode (setup now pn σ) = fast_mode σ1 ∧
  (ok = true → start_time (clock (setup now pn σ)) = u32 now).
Proof.
  intros σ1 v ok. unfold setup. cbn zeta. fold σ1.
  subst ok. cbn.
  destruct (bool_decide (EEPROM.read (eeprom σ1) STATUS ≠ 0)) eqn:Hst; cbn.
  - fold v. destruct (bool_decide (v ≤ 240)) eqn:Hv.
    + apply bool_decide_eq_true_1 in Hv.
      rewrite bool_decide_eq_false_2 by lia. cbn. done.
    + apply bool_decide_eq_false_1 in Hv.
      rewrite bool_decide_eq_true_2 by lia. cbn. done.
  - rewrite bool_decide_eq_false_2 by lia. cbn. done.
Qed.

(** C5. On boot, when the persisted run state is on and the live slot of
    the elapsed-time log holds a value above 240, the recovery yields
    was-running = false and elapsed = 0; a checkpoint of 241 does not
    resume a run. *)
Theorem recovery_rejects_stale (e : list Z) (now : Z) (pn : Pins) :
  EEPROM.read e STATUS ≠ 0 →
  240 < EEPROM.read e (LAST_TIME_BASE + EEPROM.read e LAST_TIME_INDEX) →
  run_mode (boot e now pn) = false ∧
  last_time (clock (boot e now pn)) = 0 ∧
  lt (clock (boot e now pn)) = 0.
Proof.
  intros Hst Hv. unfold boot.
  destruct (setup_recover now pn (power_on e)) as (Hr & Hl & Hlt & _).
  rewrite Hr, Hl, Hlt. clear Hr Hl Hlt.
  set (σ0 := with_keys _ (power_on e)).
  destruct (decide (stored_checksum (eeprom σ0) = checksum (eeprom σ0))) as [Hok|Hbad].
  - rewrite check_eeprom_valid by done. cbn.
    rewrite (bool_decide_eq_false_2 (_ ≤ 240)) by lia.
    by rewrite andb_false_r.
  - rewrite check_eeprom_reset by done.
    assert (EEPROM.read
              (EEPROM.write
                 (EEPROM.write
                    (EEPROM.write (store_checksum (zero_cells (eeprom σ0)))
                       LAST_TIME_INDEX 0) LAST_TIME_BASE 0) STATUS 0) STATUS = 0)
      as -> by apply read_write_zero_eq.
    done.
Qed.

Lemma recovery_rejects_stale_witness :
  EEPROM.read (running_image 241) STATUS ≠ 0 ∧
  240 < EEPROM.read (running_image 241)
          (LAST_TIME_BASE + EEPROM.read (running_image 241) LAST_TIME_INDEX) ∧
  run_mode (boot (running_image 241) 0 pins_up) = false.
Proof.
  split; [by vm_compute|]. split; [by vm_compute|].
  refine (proj1 (recovery_rejects_stale (running_image 241) 0 pins_up _ _));
    by vm_compute.
Defined.

(** The recovery on an image with a valid table checksum. *)
Lemma boot_recover e now pn :
  stored_checksum e = checksum e →
  let v := EEPROM.read e (LAST_TIME_BASE + EEPROM.read e LAST_TIME_INDEX) in
  let ok := bool_decide (EEPROM.read e STATUS ≠ 0) && bool_decide (v ≤ 240) in
  run_mode (boot e now pn) = ok ∧
  last_time (clock (boot e now pn)) = (if ok then v else 0) ∧
  lt (clock (boot e now pn)) = u32 ((if ok then v else 0) * 6) ∧
  fast_mode (boot e now pn) = false ∧
  (ok = true → start_time (clock (boot e now pn)) = u32 now).
Proof.
  intros Hok. pose proof (setup_recover now pn (power_on e)) as H.
  rewrite check_eeprom_valid in H by done. exact H.
Qed.

(** A pass of the run section in which the minute count has not moved and
    is within the ceiling only refreshes [ct]. *)
Lemma run_section_same_minute t σ :
  run_mode σ = true →
  elapsed t σ ≤ 24 * 60 →
  lt (clock σ) = elapsed t σ →
  run_section t σ =
  Some (with_clock (set_ct (elapsed t σ) (clock σ))
          (with_outputs (set_station_active false (outputs σ)) σ)).
Proof.
  intros Hr Hle Hlt. unfold run_section. rewrite Hr. cbn zeta.
  change (elapsed t (with_outputs (set_station_active false (outputs σ)) σ))
    with (elapsed t σ).
  cbn [ct lt clock with_clock set_ct with_outputs].
  rewrite (bool_decide_eq_false_2 (elapsed t σ > 24 * 60)) by lia.
  cbn [ct lt clock with_clock set_ct with_outputs].
  rewrite bool_decide_eq_false_2; [done|]. intros H. by apply H.
Qed.

(** A recovered run with [last_time = 240], within its first minute in normal
    mode: the run section computes [ct = 1440] and the run stays on. *)
Lemma resume_at_ceiling (σ : State) (now t : Z) :
  run_mode σ = true → fast_mode σ = false →
  last_time (clock σ) = 240 → lt (clock σ) = 1440 →
  start_time (clock σ) = u32 now →
  u32 (t - u32 now) < 60000 →
  ∃ σ', run_section t σ = Some σ' ∧ run_mode σ' = true ∧
        ct (clock σ') = 1440 ∧ last_time (clock σ') = 240.
Proof.
  intros Hr Hf Hl Hlt Hs Ht.
  assert (elapsed t σ = 1440) as Hct.
  { unfold elapsed. rewrite Hf, Hl, Hs.
    rewrite Z.div_small by (pose proof (u32_range (t - u32 now)); lia).
    reflexivity. }
  rewrite run_section_same_minute; rewrite ?Hct, ?Hlt; [|done|lia|done].
  eexists. split; [reflexivity|].
  cbn [run_mode ct lt clock with_clock set_ct with_outputs last_time].
  by rewrite Hr, Hl.
Qed.

(** C10. On boot with a valid table checksum and the persisted run state
    on, the live checkpoint [v] is accepted exactly when [v <= 240]: the
    run resumes with [last_time = v] and [lt = 6 v].  With [v = 240] the
    run resumes at [ct = 1440]: a pass of the run section within the
    first minute computes [ct = 1440] and leaves the run on. *)
Theorem recovery_accepts_240 (e : list Z) (now : Z) (pn : Pins) :
  stored_checksum e = checksum e →
  EEPROM.read e STATUS ≠ 0 →
  let v := EEPROM.read e (LAST_TIME_BASE + EEPROM.read e LAST_TIME_INDEX) in
  let σ := boot e now pn in
  (run_mode σ = true ↔ v ≤ 240) ∧
  (v ≤ 240 → last_time (clock σ) = v ∧ lt (clock σ) = v * 6) ∧
  (v = 240 → ∀ t, u32 (t - u32 now) < 60000 →
     ∃ σ', run_section t σ = Some σ' ∧ run_mode σ' = true ∧
           ct (clock σ') = 1440 ∧ last_time (clock σ') = 240).
Proof.
  intros Hok Hst. cbv zeta.
  destruct (boot_recover e now pn Hok) as (Hr & Hl & Hlt & Hf & Hs).
  rewrite (bool_decide_eq_true_2 _ Hst), andb_true_l in Hr, Hl, Hlt, Hs.
  pose proof (read_range e (LAST_TIME_BASE + EEPROM.read e LAST_TIME_INDEX)) as Hv.
  revert Hr Hl Hlt Hf Hs Hv.
  generalize (EEPROM.read e (LAST_TIME_BASE + EEPROM.read e LAST_TIME_INDEX)).
  generalize (boot e now pn). intros σ v Hr Hl Hlt Hf Hs Hv.
  split; [|split].
  - rewrite Hr. apply bool_decide_eq_true.
  - intros Hle. rewrite Hl, Hlt, bool_decide_eq_true_2 by done.
    split; [done|]. apply u32_small. lia.
  - intros -> t Ht.
    rewrite bool_decide_eq_true_2 in Hr, Hl, Hlt, Hs by lia.
    by apply (resume_at_ceiling σ now t); auto.
Qed.

Lemma recovery_accepts_240_witness :
  stored_checksum (running_image 240) = checksum (running_image 240) ∧
  EEPROM.read (running_image 240) STATUS ≠ 0 ∧
  (run_mode (boot (running_image 240) 0 pins_up) = true ↔
   EEPROM.read (running_image 240)
     (LAST_TIME_BASE + EEPROM.read (running_image 240) LAST_TIME_INDEX) ≤ 240).
Proof.
  split; [by vm_compute|]. split; [by vm_compute|].
  refine (proj1 (recovery_accepts_240 (running_image 240) 0 pins_up _ _));
    by vm_compute.
Defined.

(** ** Wear levelling of the elapsed-time log *)

Lemma start_runmode_length now σ :
  length (eeprom (start_runmode now σ)) = length (eeprom σ).
Proof. unfold start_runmode. cbn. by rewrite !write_length. Qed.

(** One [start_runmode]: the index advances by one modulo 16, the new live
    slot is cleared, and the run state and the selector are persisted. *)
Lemma start_runmode_spec now σ :
  length (eeprom σ) = Z.to_nat EEPROM.SIZE →
  let σ' := start_runmode now σ in
  live_index σ' = (live_index σ + 1) mod 16 ∧
  EEPROM.read (eeprom σ') (live_slot σ') = 0 ∧
  EEPROM.read (eeprom σ') STATUS = 1 ∧
  EEPROM.read (eeprom σ') LAST_PROG = u8 (station (cursor σ)) ∧
  run_mode σ' = true.
Proof.
  intros Hlen σ'.
  pose proof (read_range (eeprom σ) LAST_TIME_INDEX) as Hi.
  pose proof (Z.mod_pos_bound (live_index σ + 1) 16 eq_refl) as Hm.
  unfold live_index in Hm.
  assert (EEPROM.read
            (EEPROM.write
               (EEPROM.write (EEPROM.write (eeprom σ) STATUS 1) LAST_PROG
                  (station (cursor σ))) LAST_TIME_INDEX
               (u8 ((EEPROM.read
                       (EEPROM.write (EEPROM.write (eeprom σ) STATUS 1)
                          LAST_PROG (station (cursor σ)))
                       LAST_TIME_INDEX + 1) mod LAST_TIME_SIZE)))
            LAST_TIME_INDEX = (live_index σ + 1) mod 16) as Hidx.
  { rewrite read_write_eq; [|by rewrite !write_length|done].
    rewrite !read_write_ne by done. unfold LAST_TIME_SIZE.
    rewrite (u8_small (_ mod 16)) by lia. rewrite u8_small by lia. done. }
  assert (live_index σ' = (live_index σ + 1) mod 16) as Hlive.
  { unfold σ', start_runmode, live_index at 1. cbn.
    rewrite read_write_ne; [exact Hidx|].
    rewrite Hidx. unfold live_index, LAST_TIME_BASE. 
    change LAST_TIME_INDEX with 104 at 2. lia. }
  split; [done|].
  unfold live_slot. rewrite Hlive.
  unfold σ', start_runmode. cbn. rewrite Hidx.
  split; [apply read_write_zero_eq|].
  unfold live_index, LAST_TIME_BASE.
  rewrite !(read_write_ne _ (105 + _)) by (unfold STATUS, LAST_PROG; lia).
  rewrite !(read_write_ne _ LAST_TIME_INDEX) by done.
  split; [|split; [|done]].
  - rewrite read_write_ne by done. by rewrite read_write_eq.
  - rewrite read_write_eq; [done|by rewrite write_length|done].
Qed.

Lemma slots_visited_lookup ts σ (k : nat) :
  length (eeprom σ) = Z.to_nat EEPROM.SIZE →
  (k < length ts)%nat →
  slots_visited ts σ !! k = Some ((live_index σ + 1 + Z.of_nat k) mod 16).
Proof.
  revert σ k. induction ts as [|t ts IH]; intros σ k Hlen Hk; [cbn in Hk; lia|].
  destruct (start_runmode_spec t σ Hlen) as (Hi & _).
  destruct k as [|k]; cbn [slots_visited].
  - cbn. rewrite Hi. f_equal. f_equal. lia.
  - cbn in Hk. rewrite lookup_cons.
    rewrite IH; [|by rewrite start_runmode_length|lia].
    rewrite Hi. f_equal.
    rewrite <- Z.add_assoc, Z.add_mod_idemp_l by lia. f_equal. lia.
Qed.

Lemma slots_visited_length ts σ : length (slots_visited ts σ) = length ts.
Proof.
  revert σ. induction ts as [|t ts IH]; intros σ; [done|]. cbn. by rewrite IH.
Qed.

(** C7. Every [start_runmode] advances the wear-levelling index to
    [(index + 1) mod 16] and clears the new live slot.  So 16 consecutive
    calls visit the slots [index+1, index+2, ...] modulo 16 in that
    rotating order, each of the 16 slots exactly once, and the 17th call
    is back on the slot of the first. *)
Theorem wear_leveling_rotation (σ : State) (ts : list Z) (t17 : Z) :
  length (eeprom σ) = Z.to_nat EEPROM.SIZE →
  length ts = 16%nat →
  let σ1 := start_runmode (default 0 (ts !! 0%nat)) σ in
  let vs := slots_visited ts σ in
  (live_index σ1 = (live_index σ + 1) mod 16 ∧
   EEPROM.read (eeprom σ1) (live_slot σ1) = 0) ∧
  (∀ k : nat, (k < 16)%nat →
     vs !! k = Some ((live_index σ + 1 + Z.of_nat k) mod 16)) ∧
  NoDup vs ∧
  (∀ i, 0 ≤ i < 16 → i ∈ vs) ∧
  slots_visited (ts ++ [t17]) σ !! 16%nat = vs !! 0%nat.
Proof.
  intros Hlen Hts σ1 vs.
  assert (∀ k : nat, (k < 16)%nat →
            vs !! k = Some ((live_index σ + 1 + Z.of_nat k) mod 16)) as Hvs.
  { intros k Hk. apply slots_visited_lookup; [done|lia]. }
  split; [|split; [done|split; [|split]]].
  - destruct (start_runmode_spec (default 0 (ts !! 0%nat)) σ Hlen) as (? & ? & _).
    done.
  - apply NoDup_alt. intros j k x Hj Hk.
    assert (j < 16)%nat as Hj16.
    { apply lookup_lt_Some in Hj. unfold vs in Hj.
      rewrite slots_visited_length in Hj. lia. }
    assert (k < 16)%nat as Hk16.
    { apply lookup_lt_Some in Hk. unfold vs in Hk.
      rewrite slots_visited_length in Hk. lia. }
    rewrite Hvs in Hj, Hk by done.
    injection Hj as Hj. injection Hk as Hk. rewrite <- Hk in Hj. clear Hk.
    revert Hj. generalize (live_index σ). intros i0 Heq.
    Z.div_mod_to_equations. lia.
  - intros i Hi. apply list_elem_of_lookup.
    exists (Z.to_nat ((i - live_index σ - 1) mod 16)).
    pose proof (Z.mod_pos_bound (i - live_index σ - 1) 16 eq_refl) as Hm.
    rewrite Hvs by lia. f_equal. rewrite Z2Nat.id by lia.
    rewrite Z.add_mod_idemp_r by lia.
    replace (live_index σ + 1 + (i - live_index σ - 1)) with i by lia.
    apply Z.mod_small. lia.
  - rewrite slots_visited_lookup; [|done|rewrite length_app; cbn; lia].
    rewrite Hvs by lia. f_equal.
    change (Z.of_nat 16) with (Z.of_nat 0 + 1 * 16).
    rewrite Z.add_assoc, Z.mod_add by lia. done.
Qed.

Lemma wear_leveling_rotation_witness :
  length (eeprom (power_on factory)) = Z.to_nat EEPROM.SIZE ∧
  length (replicate 16 0) = 16%nat ∧
  slots_visited (replicate 16 0) (power_on factory) =
  [1; 2; 3; 4; 5; 6; 7; 8; 9; 10; 11; 12; 13; 14; 15; 0] ∧
  NoDup (slots_visited (replicate 16 0) (power_on factory)).
Proof.
  split; [by vm_compute|]. split; [reflexivity|]. split; [by vm_compute|].
  refine (proj1 (proj2 (proj2 (wear_leveling_rotation (power_on factory)
                                 (replicate 16 0) 0 _ _))));
    by vm_compute.
Defined.

(** ** The schedule evaluator *)

Lemma read_eeprom_range e p s : 0 ≤ read_eeprom e p s < 256.
Proof. apply read_range. Qed.

Lemma cum_n_bounds e p n : 0 ≤ cum_n e p n ≤ 1530 * Z.of_nat n.
Proof.
  induction n as [|n IH]; [cbn; lia|].
  cbn [cum_n]. pose proof (read_eeprom_range e p (3 + Z.of_nat n)). lia.
Qed.

Lemma cum_n_mono e p n m : (n ≤ m)%nat → cum_n e p n ≤ cum_n e p m.
Proof.
  induction 1 as [|m Hle IH]; [lia|].
  cbn [cum_n]. pose proof (read_eeprom_range e p (3 + Z.of_nat m)). lia.
Qed.

Lemma cumulative_succ e p k :
  2 ≤ k → cumulative e p (k + 1) = cumulative e p k + read_eeprom e p (k + 1) * 6.
Proof.
  intros Hk. unfold cumulative.
  replace (Z.to_nat (k + 1 - 2)) with (S (Z.to_nat (k - 2))) by lia.
  cbn [cum_n]. do 3 f_equal. lia.
Qed.

Lemma cumulative_mono e p j k : j ≤ k → cumulative e p j ≤ cumulative e p k.
Proof. intros. apply cum_n_mono. lia. Qed.

Lemma cumulative_bounds e p k : k ≤ 12 → 0 ≤ cumulative e p k ≤ 15300.
Proof.
  intros Hk. unfold cumulative.
  pose proof (cum_n_bounds e p (Z.to_nat (k - 2))). lia.
Qed.

(** The invariant of the walk and what holds when it stops. *)
Lemma walk_spec e p c n pt s :
  3 ≤ s → s + Z.of_nat n = 13 →
  pt = cumulative e p (s - 1) →
  (∀ j, 3 ≤ j < s - 1 → cumulative e p j ≤ c) →
  let r := walk e p c n pt s in
  s ≤ r.2 ≤ 13 ∧ r.1 = cumulative e p (r.2 - 1) ∧
  (∀ j, 3 ≤ j < r.2 - 1 → cumulative e p j ≤ c) ∧
  (r.1 ≤ c → r.2 = 13).
Proof.
  revert pt s. induction n as [|n IH]; intros pt s Hs Hn Hpt Hbefore; cbn [walk].
  - cbn. repeat split; try lia; try done.
  - case_bool_decide as Hle; cbn [andb]; [|cbn; repeat split; try lia; done].
    case_bool_decide as Hlt; [|unfold STATIONS in Hlt; lia].
    pose proof (cumulative_bounds e p (s - 1)) as Hb.
    pose proof (read_eeprom_range e p s) as Hr.
    rewrite u32_small by lia. rewrite u8_small by lia.
    specialize (IH (pt + read_eeprom e p s * 6) (s + 1)).
    destruct IH as (H1 & H2 & H3 & H4); try lia.
    + replace (s + 1 - 1) with (s - 1 + 1) by lia.
      rewrite cumulative_succ by lia. rewrite <- Hpt. do 3 f_equal. lia.
    + intros j Hj. destruct (decide (j = s - 1)) as [->|]; [lia|].
      apply Hbefore. lia.
    + repeat split; try lia; done.
Qed.

Lemma cumulative_2 e p : cumulative e p 2 = 0.
Proof. reflexivity. Qed.

Lemma total_eq e p : total e p = cumulative e p 12.
Proof. reflexivity. Qed.

(** The walk of program [p] at elapsed time [c]: the first station whose
    cumulative sum exceeds [c], when the total does; the total otherwise. *)
Lemma walk_result e p c :
  0 ≤ c →
  let r := walk e p c 10 0 3 in
  (total e p > c →
     3 ≤ r.2 - 1 < 13 ∧ r.1 = cumulative e p (r.2 - 1) ∧ r.1 > c ∧
     (∀ j, 3 ≤ j < r.2 - 1 → cumulative e p j ≤ c)) ∧
  (total e p ≤ c → r.1 ≤ c).
Proof.
  intros Hc. cbv zeta.
  assert (∀ j, 3 ≤ j < 3 - 1 → cumulative e p j ≤ c) as Hb by (intros; lia).
  assert (3 + Z.of_nat 10 = 13) as Hn by lia.
  assert (0 = cumulative e p (3 - 1)) as H0 by (by rewrite cumulative_2).
  pose proof (walk_spec e p c 10 0 3 ltac:(lia) Hn H0 Hb) as H.
  cbv zeta in H. revert H. generalize (walk e p c 10 0 3). intros r H.
  destruct H as (H1 & H2 & H3 & H4). clear Hb Hn H0.
  rewrite total_eq.
  assert (r.1 ≤ cumulative e p 12) as Htot.
  { rewrite H2. apply cumulative_mono. lia. }
  split.
  - intros Hgt. assert (r.1 > c) as Hr1.
    { destruct (decide (r.1 ≤ c)) as [Hle|]; [|lia].
      specialize (H4 Hle). rewrite H4 in H2.
      replace (13 - 1) with 12 in H2 by lia. lia. }
    assert (r.2 ≠ 3) as Hne.
    { intros Heq. rewrite Heq in H2.
      replace (3 - 1) with 2 in H2 by lia. rewrite cumulative_2 in H2. lia. }
    repeat split; try lia; done.
  - intros Hle. lia.
Qed.

Lemma prog_pass_skip e sel c o q : sel ≠ 0 → sel ≠ q → prog_pass e sel c o q = o.
Proof.
  intros H0 Hq. unfold prog_pass.
  by rewrite !bool_decide_eq_false_2 by done.
Qed.

(** With a single program selected, only that program's pass acts. *)
Lemma foldl_prog_pass e sel c (l : list Z) o :
  sel ≠ 0 → NoDup l →
  foldl (prog_pass e sel c) o l =
  if bool_decide (sel ∈ l) then prog_pass e sel c o sel else o.
Proof.
  intros H0 Hnd. revert o. induction Hnd as [|q l Hq Hnd IH]; intros o; [done|].
  cbn [foldl]. rewrite IH. destruct (decide (sel = q)) as [<-|Hne].
  - rewrite bool_decide_eq_false_2 by done.
    rewrite bool_decide_eq_true_2; [done|]. apply elem_of_cons. by left.
  - rewrite (prog_pass_skip e sel c o q) by done.
    case_bool_decide as Hin.
    + rewrite bool_decide_eq_true_2; [done|]. apply elem_of_cons. by right.
    + rewrite bool_decide_eq_false_2; [done|].
      intros [?|?]%elem_of_cons; done.
Qed.

Lemma irrigation_single e p c o :
  1 ≤ p < PROGS - 1 → irrigation e p c o = prog_pass e p c o p.
Proof.
  intros Hp. unfold irrigation.
  rewrite foldl_prog_pass; [|lia|apply NoDup_seqZ].
  rewrite bool_decide_eq_true_2; [done|]. apply elem_of_seqZ.
  unfold PROGS in *. lia.
Qed.

(** The arrays after the clearing loop of the tick. *)
Lemma all_off_spec o :
  length (st o) = 16%nat → length (remaining o) = 16%nat →
  all_off o = {| st := replicate 16 0; remaining := replicate 16 0;
                 station_active := station_active o; relays := relays o |}.
Proof.
  destruct o as [s r a rl]. cbn [st remaining station_active relays].
  intros Hs Hr.
  do 16 (destruct s as [|? s]; [done|]). destruct s; [|done].
  do 16 (destruct r as [|? r]; [done|]). destruct r; [|done].
  reflexivity.
Qed.

Lemma arr_get_set_zero k v j :
  0 ≤ k < 16 → 0 ≤ j < 16 →
  arr_get (arr_set (replicate 16 0) k v) j = if bool_decide (j = k) then v else 0.
Proof.
  intros Hk Hj. unfold arr_get, arr_set. case_bool_decide as Hjk.
  - subst. rewrite list_lookup_insert_eq; [done|]. rewrite length_replicate. lia.
  - rewrite list_lookup_insert_ne by lia.
    rewrite lookup_replicate_2; [done|lia].
Qed.

(** C1. On an evaluated tick at elapsed time [c], for an irrigation program
    [p] in 1..5 that the selector [sel] selects ([sel = 0] selects all,
    [sel = p] selects [p]): when the total duration of [p] exceeds [c], the
    pass of [p] marks exactly one station, the first station [k] in 3..12
    whose cumulative sum exceeds [c], with remaining time that cumulative
    sum minus [c] (merged by [max] into the array, as [mark] does); when
    the total is at most [c] the pass marks nothing.  In a run of the single
    program [p], after the tick station [k] is the only station on, its
    remaining time is the cumulative sum minus [c]; with the total at most
    [c] no station is on and [station_active] is not set. *)
Theorem active_station (e : list Z) (sel c p : Z) (o : Outputs) :
  0 ≤ c → 1 ≤ p ≤ 5 → sel = 0 ∨ sel = p →
  (total e p > c →
   ∃ k, 3 ≤ k < 13 ∧ cumulative e p k > c ∧
        (∀ j, 3 ≤ j < k → cumulative e p j ≤ c) ∧
        prog_pass e sel c o p = mark k (cumulative e p k - c) o ∧
        (sel = p → length (st o) = 16%nat → length (remaining o) = 16%nat →
         let o' := irrigation e sel c (all_off o) in
         (∀ j, 0 ≤ j < 16 →
               arr_get (st o') j = if bool_decide (j = k) then 1 else 0) ∧
         arr_get (remaining o') k = cumulative e p k - c ∧
         station_active o' = true)) ∧
  (total e p ≤ c →
   prog_pass e sel c o p = o ∧
   (sel = p → irrigation e sel c (all_off o) = all_off o)).
Proof.
  intros Hc Hp Hsel.
  assert (∀ o, prog_pass e sel c o p =
          if bool_decide ((walk e p c 10 0 3).1 > c)
          then mark ((walk e p c 10 0 3).2 - 1) (u32 ((walk e p c 10 0 3).1 - c)) o
          else o) as Hpass.
  { intros o0. unfold prog_pass. destruct Hsel as [->| ->].
    - by rewrite bool_decide_eq_true_2 by done.
    - rewrite (bool_decide_eq_true_2 (p = p)) by done. by rewrite orb_true_r. }
  assert (∀ o, sel = p → irrigation e sel c o = prog_pass e sel c o p) as Hirr.
  { intros o0 ->. apply irrigation_single. unfold PROGS. lia. }
  pose proof (walk_result e p c Hc) as Hw. cbv zeta in Hw.
  revert Hpass Hw. generalize (walk e p c 10 0 3). intros r Hpass [Hgt Hle].
  split.
  - intros Htot. destruct (Hgt Htot) as (Hk & Hr1 & Hr1c & Hfirst).
    pose proof (cumulative_bounds e p (r.2 - 1) ltac:(lia)) as Hb.
    assert (∀ o, prog_pass e sel c o p =
                 mark (r.2 - 1) (cumulative e p (r.2 - 1) - c) o) as Hmark.
    { intros o0. rewrite Hpass, bool_decide_eq_true_2 by done.
      rewrite u32_small by lia. by rewrite Hr1. }
    exists (r.2 - 1). split; [done|]. split; [lia|]. split; [done|].
    split; [apply Hmark|].
    intros Hselp Hst Hrem. cbv zeta.
    rewrite Hirr, Hmark, all_off_spec by done.
    unfold mark. cbn [st remaining station_active relays].
    split; [|split; [|done]].
    + intros j Hj. apply arr_get_set_zero; lia.
    + rewrite !arr_get_set_zero by lia.
      rewrite bool_decide_eq_true_2 by done.
      change (arr_get (replicate 16 0) (r.2 - 1)) with
        (default 0 (replicate 16 0 !! Z.to_nat (r.2 - 1))).
      rewrite lookup_replicate_2 by lia. cbn [default from_option id]. lia.
  - intros Htot. specialize (Hle Htot).
    assert (∀ o, prog_pass e sel c o p = o) as Hid.
    { intros o0. rewrite Hpass. by rewrite bool_decide_eq_false_2 by lia. }
    split; [apply Hid|]. intros Hselp. by rewrite Hirr, Hid.
Qed.

Lemma active_station_witness :
  0 ≤ 59 ∧ 1 ≤ 1 ≤ 5 ∧ total (corrupt factory 1 3 10) 1 > 59 ∧
  ∃ k, 3 ≤ k < 13 ∧ cumulative (corrupt factory 1 3 10) 1 k > 59 ∧
       prog_pass (corrupt factory 1 3 10) 1 59 (outputs (power_on factory)) 1 =
       mark k (cumulative (corrupt factory 1 3 10) 1 k - 59)
         (outputs (power_on factory)).
Proof.
  split; [lia|]. split; [lia|]. split; [by vm_compute|].
  destruct (proj1 (active_station (corrupt factory 1 3 10) 1 59 1
                     (outputs (power_on factory))
                     ltac:(lia) ltac:(lia) (or_intror eq_refl))
              ltac:(by vm_compute))
    as (k & Hk & Hgt & Hfirst & Hpass & _).
  exists k. split; [exact Hk|]. split; [exact Hgt|exact Hpass].
Defined.

(** The scenario of the specification: program 1 with station 3 = 10 and
    selector 1; station 3 is on with 60 minutes left at [ct = 0], with 1
    minute left at [ct = 59], and nothing is on at [ct = 60]. *)
Example scenario_station3 :
  let e := corrupt factory 1 3 10 in
  let o := outputs (power_on factory) in
  irrigation e 1 0 (all_off o) = mark 3 60 o ∧
  irrigation e 1 59 (all_off o) = mark 3 1 o ∧
  irrigation e 1 60 (all_off o) = o.
Proof. vm_compute. done. Qed.

(** Under selector 0 the loop [for(p=1;p < (PROGS-1); p++)] also walks the
    programs 6, 7 and 8, which the keypad cannot edit: a duration in cell
    (6, 3) switches station 3 on. *)
Example selector_all_walks_program_6 :
  let e := corrupt factory 6 3 10 in
  let o := outputs (power_on factory) in
  irrigation e 0 0 (all_off o) = mark 3 60 o ∧
  irrigation e 6 0 (all_off o) = mark 3 60 o.
Proof. vm_compute. done. Qed.

(** ** The 24 hour ceiling *)

(** The claim C2 as stated fails at [ct = 1440]: a run resumed at 1434
    minutes on a schedule of 1920 minutes reaches [ct = 1440] six minutes
    later; the tick is evaluated, station 6 is switched on and the run
    stays on. *)
Lemma ceiling_not_at_1440 :
  let σ := boot long_run_image 0 pins_up in
  run_mode σ = true ∧ elapsed 360000 σ = 1440 ∧
  ∃ σ', run_section 360000 σ = Some σ' ∧
        ct (clock σ') = 1440 ∧ run_mode σ' = true ∧
        arr_get (st (outputs σ')) 6 = 1 ∧ relays (outputs σ') ≠ 0.
Proof.
  cbv zeta. split; [by vm_compute|]. split; [by vm_compute|].
  eexists. split; [vm_compute; reflexivity|]. by vm_compute.
Qed.

(** C2 (amended). On a pass of the run section while running, when the
    elapsed time [ct] exceeds 1440 minutes the run is stopped whatever the
    schedule: [run_mode] is off, the persisted run state is off, the relay
    register is cleared, the tick is not evaluated ([lt = ct], no other
    EEPROM cell and no station array is touched). *)
Theorem ceiling_stop (σ : State) (t : Z) :
  run_mode σ = true → elapsed t σ > 24 * 60 →
  ∃ σ', run_section t σ = Some σ' ∧
        run_mode σ' = false ∧ relays (outputs σ') = 0 ∧
        EEPROM.read (eeprom σ') STATUS = 0 ∧
        ct (clock σ') = elapsed t σ ∧ lt (clock σ') = elapsed t σ ∧
        eeprom σ' = EEPROM.write (eeprom σ) STATUS 0 ∧
        st (outputs σ') = st (outputs σ) ∧
        remaining (outputs σ') = remaining (outputs σ).
Proof.
  intros Hr Hgt. unfold run_section. rewrite Hr. cbn zeta.
  change (elapsed t (with_outputs (set_station_active false (outputs σ)) σ))
    with (elapsed t σ).
  cbn [ct lt clock with_clock set_ct with_outputs].
  rewrite (bool_decide_eq_true_2 (elapsed t σ > 24 * 60)) by done.
  cbn [ct lt clock with_clock set_ct set_lt with_outputs stop_runmode relays_off
       with_run_mode with_eeprom].
  rewrite bool_decide_eq_false_2 by (intros H; by apply H).
  eexists. split; [reflexivity|].
  cbn. repeat split; try done. apply read_write_zero_eq.
Qed.

Lemma ceiling_stop_witness :
  run_mode (boot long_run_image 0 pins_up) = true ∧
  elapsed 420000 (boot long_run_image 0 pins_up) > 24 * 60 ∧
  ∃ σ', run_section 420000 (boot long_run_image 0 pins_up) = Some σ' ∧
        run_mode σ' = false ∧ relays (outputs σ') = 0.
Proof.
  split; [by vm_compute|]. split; [by vm_compute|].
  destruct (ceiling_stop (boot long_run_image 0 pins_up) 420000
              ltac:(by vm_compute) ltac:(by vm_compute))
    as (σ' & Hrun & Hoff & Hrel & _).
  exists σ'. split; [exact Hrun|]. split; [exact Hoff|exact Hrel].
Defined.

(** ** The backwash cycle *)

Lemma arr_get_set_ne l k v j :
  0 ≤ k → 0 ≤ j → j ≠ k → arr_get (arr_set l k v) j = arr_get l j.
Proof.
  intros Hk Hj Hne. unfold arr_get, arr_set.
  by rewrite list_lookup_insert_ne by lia.
Qed.

Lemma walk_marks_irrigation e p c :
  0 ≤ c → (walk e p c 10 0 3).1 > c → 3 ≤ (walk e p c 10 0 3).2 - 1 ≤ 12.
Proof.
  intros Hc.
  assert (∀ j, 3 ≤ j < 3 - 1 → cumulative e p j ≤ c) as Hb by (intros; lia).
  assert (3 + Z.of_nat 10 = 13) as Hn by lia.
  assert (0 = cumulative e p (3 - 1)) as H0 by (by rewrite cumulative_2).
  pose proof (walk_spec e p c 10 0 3 ltac:(lia) Hn H0 Hb) as H.
  cbv zeta in H. revert H. generalize (walk e p c 10 0 3).
  intros r (H1 & H2 & _ & _) Hgt.
  destruct (decide (r.2 = 3)) as [Heq|]; [|lia].
  rewrite Heq in H2. replace (3 - 1) with 2 in H2 by lia.
  rewrite cumulative_2 in H2. lia.
Qed.

(** A pass of a program touches the cells 3..12 of [st] only. *)
Lemma prog_pass_st_outside e sel c o p j :
  0 ≤ c → 0 ≤ j → ¬ (3 ≤ j ≤ 12) →
  arr_get (st (prog_pass e sel c o p)) j = arr_get (st o) j.
Proof.
  intros Hc Hj Hout. unfold prog_pass.
  destruct (bool_decide (sel = 0) || bool_decide (sel = p)); [|done].
  cbv zeta. case_bool_decide as Hgt; [|done].
  pose proof (walk_marks_irrigation e p c Hc Hgt) as Hk.
  unfold mark. cbn [st]. apply arr_get_set_ne; lia.
Qed.

Lemma irrigation_st_outside e sel c o j :
  0 ≤ c → 0 ≤ j → ¬ (3 ≤ j ≤ 12) →
  arr_get (st (irrigation e sel c o)) j = arr_get (st o) j.
Proof.
  intros Hc Hj Hout. unfold irrigation.
  apply (foldl_invariant (λ o', arr_get (st o') j = arr_get (st o) j)); [done|].
  intros o' p _ IH. by rewrite prog_pass_st_outside.
Qed.

Lemma arr_get_replicate j : arr_get (replicate 16 0) j = 0.
Proof.
  unfold arr_get. destruct (replicate 16 0 !! Z.to_nat j) as [x|] eqn:Hl; [|done].
  by apply lookup_replicate in Hl as [-> _].
Qed.

(** After the irrigation programs no backwash cell of [st] is set. *)
Lemma evaluated_outputs_bws t σ j :
  length (st (outputs σ)) = 16%nat → length (remaining (outputs σ)) = 16%nat →
  0 ≤ elapsed t σ → 0 ≤ j → ¬ (3 ≤ j ≤ 12) →
  arr_get (st (evaluated_outputs t σ)) j = 0.
Proof.
  intros Hs Hr Hc Hj Hout. unfold evaluated_outputs.
  rewrite irrigation_st_outside by done.
  rewrite all_off_spec by done. cbn [st]. apply arr_get_replicate.
Qed.

Lemma elapsed_nonneg t σ : 0 ≤ elapsed t σ.
Proof. unfold elapsed. apply u32_range. Qed.

(** The backwash walk stops with [s] between its start and 3, and it moves
    when it is entered with [pt <= ct]. *)
Lemma bw_walk_range e c n pt s :
  0 ≤ s → s + Z.of_nat n = 3 →
  s ≤ (bw_walk e c n pt s).2 ≤ 3 ∧
  (pt ≤ c → s < 3 → s + 1 ≤ (bw_walk e c n pt s).2).
Proof.
  revert pt s. induction n as [|n IH]; intros pt s Hs Hn; cbn [bw_walk].
  - cbn [snd]. lia.
  - case_bool_decide as Hle; cbn [andb]; [|cbn [snd]; lia].
    case_bool_decide as Hlt; [|cbn [snd]; lia].
    rewrite u8_small by lia.
    match goal with |- context [bw_walk e c n ?pt' (s + 1)] =>
      destruct (IH pt' (s + 1)) as [H1 _]; [lia|lia|] end.
    lia.
Qed.

Lemma bws_at_Some i k : bws_at i = Some k → k = 1 ∨ k = 2 ∨ k = 13.
Proof.
  unfold bws_at, bws. case_bool_decide; [|done].
  destruct (Z.to_nat i) as [|[|[|?]]]; cbn; intros; simplify_eq; auto.
Qed.

Lemma bws_at_defined i : 0 ≤ i < 3 → is_Some (bws_at i).
Proof.
  intros Hi. unfold bws_at, bws. rewrite bool_decide_eq_true_2 by lia.
  apply lookup_lt_is_Some. cbn. lia.
Qed.

Lemma run_section_evaluated t σ :
  evaluated t σ → run_section t σ = eval_tick (tick_state t σ).
Proof.
  intros (Hr & Hle & Hne). unfold run_section. rewrite Hr. cbn zeta.
  change (elapsed t (with_outputs (set_station_active false (outputs σ)) σ))
    with (elapsed t σ).
  cbn [ct lt clock with_clock set_ct with_outputs].
  rewrite (bool_decide_eq_false_2 (elapsed t σ > 24 * 60)) by lia.
  cbn [ct lt clock with_clock set_ct with_outputs].
  by rewrite bool_decide_eq_true_2 by done.
Qed.

Lemma eval_state_outputs t σ :
  outputs (eval_state t σ) = evaluated_outputs t σ.
Proof.
  unfold eval_state, eval_programs, evaluated_outputs, tick_state, live_slot,
    live_index.
  cbn [eeprom cursor clock outputs with_eeprom with_clock with_outputs
       set_ct set_lt ct lt].
  reflexivity.
Qed.

Lemma eval_state_clock t σ :
  clock (eval_state t σ) =
  set_lt (elapsed t σ) (set_ct (elapsed t σ) (clock σ)).
Proof.
  unfold eval_state, eval_programs, tick_state.
  cbn [eeprom cursor clock outputs with_eeprom with_clock with_outputs
       set_ct set_lt ct lt].
  reflexivity.
Qed.

Lemma eval_tick_tick_state t σ :
  eval_tick (tick_state t σ) =
  if station_active (evaluated_outputs t σ) then
    σ' ← backwash (eval_state t σ);
    Some (with_outputs (drive_relays (outputs σ')) σ')
  else Some (stop_runmode (eval_state t σ)).
Proof.
  unfold eval_tick. cbv zeta. fold (eval_state t σ).
  by rewrite eval_state_outputs.
Qed.

(** The backwash part sets at most one cell of [st], a backwash station. *)
Lemma backwash_one σ σ' :
  backwash σ = Some σ' →
  ∃ k, (k = 1 ∨ k = 2 ∨ k = 13) ∧
       ∀ j, 0 ≤ j → j ≠ k →
            arr_get (st (outputs σ')) j = arr_get (st (outputs σ)) j.
Proof.
  unfold backwash. cbv zeta. case_bool_decide as Hd.
  - intros [= <-]. exists 1. split; [auto|done].
  - generalize (bw_walk (eeprom σ) (ct (clock σ)) 3 (bt (clock σ)) 0). intros r.
    destruct (bws_at (r.2 - 1)) as [k|] eqn:Hk; [|done]. cbn [mbind option_bind].
    pose proof (bws_at_Some _ _ Hk) as Hk3.
    repeat case_bool_decide; intros [= <-].
    + exists k. split; [done|]. intros j Hj Hne. cbn [outputs with_outputs st].
      apply arr_get_set_ne; lia.
    + exists 1. split; [auto|done].
    + exists 1. split; [auto|done].
Qed.

(** The backwash part is defined unless the walk is entered with the
    reference [bt] ahead of the clock. *)
Lemma backwash_defined σ :
  backwash_delay (clock σ) ≠ 0 ∨ bt (clock σ) ≤ ct (clock σ) →
  is_Some (backwash σ).
Proof.
  intros Hok. unfold backwash. cbv zeta. case_bool_decide as Hd; [done|].
  destruct Hok as [?|Hbt]; [done|].
  destruct (bw_walk_range (eeprom σ) (ct (clock σ)) 3 (bt (clock σ)) 0)
    as [H1 H2]; [lia|lia|].
  specialize (H2 Hbt ltac:(lia)). revert H1 H2.
  generalize (bw_walk (eeprom σ) (ct (clock σ)) 3 (bt (clock σ)) 0). intros r H1 H2.
  destruct (bws_at_defined (r.2 - 1)) as [k Hk]; [lia|]. rewrite Hk.
  cbn [mbind option_bind]. repeat case_bool_decide; done.
Qed.

Lemma stop_runmode_outputs σ :
  st (outputs (stop_runmode σ)) = st (outputs σ) ∧
  clock (stop_runmode σ) = clock σ.
Proof. done. Qed.

(** C6. On an evaluated tick: when the irrigation programs report no
    active station, the tick ends with no backwash station (1, 2, 13)
    marked and with the backwash reference [bt] (and the start-up delay)
    as they were; whatever the tick produces has at most one backwash
    station marked; and the tick produces a state whenever the start-up
    delay is pending or [bt] is not ahead of the clock. *)
Theorem backwash_gating (t : Z) (σ : State) :
  evaluated t σ →
  length (st (outputs σ)) = 16%nat → length (remaining (outputs σ)) = 16%nat →
  (station_active (evaluated_outputs t σ) = false →
   ∃ σ', run_section t σ = Some σ' ∧
         arr_get (st (outputs σ')) 1 = 0 ∧ arr_get (st (outputs σ')) 2 = 0 ∧
         arr_get (st (outputs σ')) 13 = 0 ∧
         bt (clock σ') = bt (clock σ) ∧
         backwash_delay (clock σ') = backwash_delay (clock σ)) ∧
  (∀ σ', run_section t σ = Some σ' →
         (arr_get (st (outputs σ')) 1 = 0 ∧ arr_get (st (outputs σ')) 2 = 0) ∨
         (arr_get (st (outputs σ')) 1 = 0 ∧ arr_get (st (outputs σ')) 13 = 0) ∨
         (arr_get (st (outputs σ')) 2 = 0 ∧ arr_get (st (outputs σ')) 13 = 0)) ∧
  (backwash_delay (clock σ) ≠ 0 ∨ bt (clock σ) ≤ elapsed t σ →
   is_Some (run_section t σ)).
Proof.
  intros Hev Hs Hr.
  rewrite run_section_evaluated, eval_tick_tick_state by done.
  pose proof (elapsed_nonneg t σ) as Hc.
  assert (∀ j, 0 ≤ j → ¬ (3 ≤ j ≤ 12) →
               arr_get (st (outputs (eval_state t σ))) j = 0) as Hz.
  { intros j Hj Hout. rewrite eval_state_outputs.
    by apply evaluated_outputs_bws. }
  pose proof (eval_state_clock t σ) as Hclk.
  revert Hz Hclk. generalize (eval_state t σ). intros σ2 Hz Hclk.
  split; [|split].
  - intros ->. eexists. split; [reflexivity|].
    destruct (stop_runmode_outputs σ2) as [-> ->].
    rewrite !Hz by lia. rewrite Hclk. done.
  - intros σ' Hrun. destruct (station_active (evaluated_outputs t σ)).
    + destruct (backwash σ2) as [σ3|] eqn:Hbw; [|done].
      cbn [mbind option_bind] in Hrun. injection Hrun as <-.
      cbn [outputs with_outputs drive_relays set_relays st].
      destruct (backwash_one σ2 σ3 Hbw) as (k & Hk & Hst).
      destruct Hk as [->|[->| ->]].
      * right. right. rewrite !Hst, !Hz by lia. done.
      * right. left. rewrite !Hst, !Hz by lia. done.
      * left. rewrite !Hst, !Hz by lia. done.
    + injection Hrun as <-. left.
      destruct (stop_runmode_outputs σ2) as [-> _]. rewrite !Hz by lia. done.
  - intros Hok. destruct (station_active (evaluated_outputs t σ)); [|done].
    destruct (backwash_defined σ2) as [σ3 ->]; [|done].
    rewrite Hclk. exact Hok.
Qed.

Lemma backwash_gating_witness :
  evaluated 360000 (boot long_run_image 0 pins_up) ∧
  length (st (outputs (boot long_run_image 0 pins_up))) = 16%nat ∧
  length (remaining (outputs (boot long_run_image 0 pins_up))) = 16%nat ∧
  is_Some (run_section 360000 (boot long_run_image 0 pins_up)).
Proof.
  assert (evaluated 360000 (boot long_run_image 0 pins_up)) as Hev.
  { split; [by vm_compute|]. split; by vm_compute. }
  split; [exact Hev|]. split; [by vm_compute|]. split; [by vm_compute|].
  refine (proj2 (proj2 (backwash_gating 360000 (boot long_run_image 0 pins_up)
                          Hev _ _)) _);
    [by vm_compute|by vm_compute|left; by vm_compute].
Defined.

(** ** The mode button *)

(** The claim C9 as stated fails where the mode button leaves program 0:
    [stale_state] is reachable, its cursor is on program 0 and its stored
    checksum does not match the table; the mode button moves the cursor to
    program 1 and the stored checksum still does not match: it was not
    recomputed. *)
Lemma mode_button_leaves_0_without_checksum :
  reachable stale_state ∧
  prog (cursor stale_state) = 0 ∧
  ∃ σ', loop (poll 360000 1) stale_state = Some σ' ∧
        prog (cursor σ') = 1 ∧
        EEPROM.read (eeprom σ') CK1 = EEPROM.read (eeprom stale_state) CK1 ∧
        EEPROM.read (eeprom σ') CK2 = EEPROM.read (eeprom stale_state) CK2 ∧
        stored_checksum (eeprom σ') ≠ checksum (eeprom σ').
Proof.
  split; [|split; [by vm_compute|]].
  - apply (reach_loop (poll 360000 0) (boot stray_index_image 0 pins_up)).
    + apply reach_boot.
    + vm_compute. reflexivity.
  - eexists. split; [vm_compute; reflexivity|]. by vm_compute.
Qed.

(** The mode button on program 0: the run is stopped, nothing else is
    written. *)
Lemma press_b1_from_0 σ :
  prog (cursor σ) = 0 →
  prog (cursor (press_b1 σ)) = 1 ∧
  eeprom (press_b1 σ) = EEPROM.write (eeprom σ) STATUS 0 ∧
  run_mode (press_b1 σ) = false ∧
  trace (press_b1 σ) = trace σ.
Proof.
  intros H0. unfold press_b1. cbv zeta.
  cbn [cursor with_debounce]. rewrite H0.
  rewrite (bool_decide_eq_true_2 (0 = 0)) by done.
  cbn [cursor with_cursor with_debounce stop_runmode relays_off with_outputs
       with_eeprom with_run_mode prog set_station].
  rewrite H0. rewrite (bool_decide_eq_false_2 (0 ≠ 0)) by naive_solver.
  cbn [cursor with_cursor prog set_prog set_station].
  rewrite H0. change (u8 (0 + 1)) with 1.
  rewrite (bool_decide_eq_false_2 (1 > PROGS - 1)) by (unfold PROGS; lia).
  cbn [cursor with_cursor prog set_prog set_station].
  rewrite (bool_decide_eq_false_2 (1 > MAX_PROG)) by (unfold MAX_PROG; lia).
  cbn [cursor with_cursor prog set_prog set_station].
  rewrite (bool_decide_eq_false_2 (1 = 0)) by done.
  done.
Qed.

(** The mode button on an edited program: the pending duration is written
    to the table and the checksum is stored again. *)
Lemma press_b1_from_edit σ :
  prog (cursor σ) ≠ 0 →
  let c := cursor σ in
  let p := u8 (prog c + 1) in
  let p := if bool_decide (p > PROGS - 1) then 0 else p in
  let p := if bool_decide (p > MAX_PROG) then PROGS - 1 else p in
  prog (cursor (press_b1 σ)) = p ∧
  eeprom (press_b1 σ) =
    store_checksum
      (EEPROM.write (eeprom σ) (EBASE + prog c * STATIONS + station c) (duration c)) ∧
  run_mode (press_b1 σ) = run_mode σ ∧
  trace (press_b1 σ) =
    {| wr_running := run_mode σ; wr_prog := prog c; wr_station := station c;
       wr_value := duration c |} :: trace σ.
Proof.
  intros H0. cbv zeta. unfold press_b1. cbv zeta.
  cbn [cursor with_debounce].
  rewrite (bool_decide_eq_false_2 (prog (cursor σ) = 0)) by done.
  cbn [cursor with_cursor with_debounce update_eeprom with_trace with_eeprom
       prog set_station].
  rewrite (bool_decide_eq_true_2 (prog (cursor σ) ≠ 0)) by done.
  cbn [cursor with_cursor with_debounce update_checksum with_eeprom prog
       set_prog set_station].
  generalize (u8 (prog (cursor σ) + 1)). intros p.
  destruct (bool_decide (p > PROGS - 1)) eqn:H1;
    cbn [cursor with_cursor prog set_prog set_station];
    [rewrite (bool_decide_eq_false_2 (0 > MAX_PROG)) by (unfold MAX_PROG; lia)|
     destruct (bool_decide (p > MAX_PROG)) eqn:H2];
    cbn [cursor with_cursor prog set_prog set_station].
  - rewrite (bool_decide_eq_true_2 (0 = 0)) by done. done.
  - rewrite (bool_decide_eq_false_2 (PROGS - 1 = 0)) by (unfold PROGS; lia). done.
  - destruct (bool_decide (p = 0)); done.
Qed.

(** A pass of the button section with only the mode button going down is
    the mode-button transition. *)
Lemma poll_mode_button t σ :
  debounce σ = 0 → b1 (keys σ) = HIGH →
  poll_buttons (poll t 1) σ =
  with_keys {| b1 := LOW; b2 := HIGH; b3 := HIGH; b4 := HIGH; b8 := HIGH |}
    (press_b1 σ).
Proof.
  intros Hd Hb. unfold poll_buttons. rewrite Hd.
  rewrite (bool_decide_eq_false_2 (0 ≠ 0)) by naive_solver.
  cbv zeta. rewrite Hb.
  change (level (buttons (poll t 1)) 1 (Some (pin1 (pins (poll t 1))))) with LOW.
  change (level (buttons (poll t 1)) 2 (Some (pin2 (pins (poll t 1))))) with HIGH.
  change (level (buttons (poll t 1)) 4 (Some (pin3 (pins (poll t 1))))) with HIGH.
  change (level (buttons (poll t 1)) 8 (Some (pin4 (pins (poll t 1))))) with HIGH.
  change (level (buttons (poll t 1)) 128 None) with HIGH.
  change (pressed HIGH LOW) with true.
  assert (∀ b, pressed b HIGH = false) as Hp.
  { intros b. unfold pressed. by rewrite andb_false_r. }
  by rewrite !Hp.
Qed.

(** C9 (amended). The mode button moves the program cursor along the cycle
    0, 1, 2, 3, 4, 5, 9 and back to 0.  Leaving a non-zero program it writes
    the pending duration to the table and recomputes the checksum, which
    then matches the table.  Leaving program 0 it stops the run and writes
    nothing but the run-state byte: no table cell and no checksum byte. *)
Theorem mode_button (σ : State) (i : nat) :
  length (eeprom σ) = Z.to_nat EEPROM.SIZE →
  mode_cycle !! i = Some (prog (cursor σ)) →
  mode_cycle !! ((i + 1) `mod` 7)%nat = Some (prog (cursor (press_b1 σ))) ∧
  (prog (cursor σ) ≠ 0 → 0 ≤ station (cursor σ) < STATIONS →
     read_eeprom (eeprom (press_b1 σ)) (prog (cursor σ)) (station (cursor σ))
       = u8 (duration (cursor σ)) ∧
     stored_checksum (eeprom (press_b1 σ)) = checksum (eeprom (press_b1 σ))) ∧
  (prog (cursor σ) = 0 →
     eeprom (press_b1 σ) = EEPROM.write (eeprom σ) STATUS 0 ∧
     run_mode (press_b1 σ) = false ∧ trace (press_b1 σ) = trace σ).
Proof.
  intros Hlen Hi.
  assert (0 ≤ prog (cursor σ) < PROGS) as Hrange.
  { apply list_elem_of_lookup_2 in Hi. unfold mode_cycle, PROGS in *.
    repeat (apply elem_of_cons in Hi as [->|Hi]; [lia|]).
    by apply elem_of_nil in Hi. }
  destruct (decide (prog (cursor σ) = 0)) as [H0|H0].
  - destruct (press_b1_from_0 σ H0) as (Hp & He & Hr & Ht).
    revert Hp He Hr Ht. generalize (press_b1 σ). intros σ' Hp He Hr Ht.
    split; [|split; [done|done]].
    rewrite Hp. rewrite H0 in Hi.
    destruct i as [|[|[|[|[|[|[|?]]]]]]]; cbn in Hi; simplify_eq. done.
  - pose proof (press_b1_from_edit σ H0) as H. cbv zeta in H.
    destruct H as (Hp & He & _ & _).
    revert Hp He. generalize (press_b1 σ). intros σ' Hp He.
    split; [|split; [|done]].
    + rewrite Hp. clear Hp He.
      destruct i as [|[|[|[|[|[|[|?]]]]]]]; cbn in Hi; simplify_eq;
        first [done | rewrite <- Hi; by vm_compute].
    + intros _ Hst. rewrite He.
      pose proof (cell_addr_range _ _ Hrange Hst) as Ha.
      split.
      * rewrite read_eeprom_store by done. unfold read_eeprom.
        apply read_write_eq; [done|]. unfold EEPROM.SIZE. lia.
      * rewrite stored_checksum_store by (by rewrite write_length).
        by rewrite checksum_store.
Qed.

Lemma mode_button_witness :
  length (eeprom (power_on factory)) = Z.to_nat EEPROM.SIZE ∧
  mode_cycle !! 0%nat = Some (prog (cursor (power_on factory))) ∧
  mode_cycle !! 1%nat = Some (prog (cursor (press_b1 (power_on factory)))).
Proof.
  split; [by vm_compute|]. split; [by vm_compute|].
  refine (proj1 (mode_button (power_on factory) 0 _ _)); by vm_compute.
Defined.

(** ** Edits happen only while the run state is off *)

Lemma init_table_inv σ :
  run_mode σ = false → Forall (λ ev, wr_running ev = false) (trace σ) →
  run_mode (init_table σ) = false ∧ cursor (init_table σ) = cursor σ ∧
  Forall (λ ev, wr_running ev = false) (trace (init_table σ)).
Proof.
  intros Hr Ht. rewrite init_table_cells.
  apply (foldl_invariant
           (λ σ', run_mode σ' = false ∧ cursor σ' = cursor σ ∧
                  Forall (λ ev, wr_running ev = false) (trace σ'))); [done|].
  intros σ' c _ (Hr' & Hc' & Ht'). unfold update_eeprom.
  cbn [run_mode cursor trace with_trace with_eeprom].
  split; [done|]. split; [done|]. by constructor.
Qed.

Lemma check_eeprom_inv σ :
  run_mode σ = false → Forall (λ ev, wr_running ev = false) (trace σ) →
  cursor (check_eeprom σ) = cursor σ ∧
  Forall (λ ev, wr_running ev = false) (trace (check_eeprom σ)).
Proof.
  intros Hr Ht. unfold check_eeprom. case_bool_decide; [|done].
  destruct (init_table_inv σ Hr Ht) as (_ & Hc & Ht').
  cbv zeta. revert Hc Ht'. generalize (init_table σ). intros σ1 Hc Ht'.
  cbn [cursor trace with_eeprom update_checksum]. done.
Qed.

Lemma setup_cursor_prog now pn σ :
  prog (cursor (setup now pn σ)) =
  prog (cursor (check_eeprom
                  (with_keys {| b1 := pin1 pn; b2 := pin2 pn; b3 := pin3 pn;
                                b4 := pin4 pn; b8 := HIGH |} σ))).
Proof.
  unfold setup. cbn zeta.
  set (σ1 := check_eeprom _).
  cbn. destruct (bool_decide (EEPROM.read (eeprom σ1) STATUS ≠ 0)); cbn;
    repeat case_bool_decide; done.
Qed.

Lemma boot_inv e now pn : edit_inv (boot e now pn).
Proof.
  unfold edit_inv, boot.
  rewrite setup_cursor_prog, setup_trace.
  destruct (check_eeprom_inv
              (with_keys {| b1 := pin1 pn; b2 := pin2 pn; b3 := pin3 pn;
                            b4 := pin4 pn; b8 := HIGH |} (power_on e)))
    as [Hc Ht]; [done|by constructor|].
  rewrite Hc. done.
Qed.

Lemma backwash_frame σ σ' : backwash σ = Some σ' → frame σ σ'.
Proof.
  unfold backwash. cbv zeta. case_bool_decide.
  - by intros [= <-].
  - destruct (bws_at _); [|done]. cbn [mbind option_bind].
    repeat case_bool_decide; by intros [= <-].
Qed.

Lemma eval_tick_frame σ σ' : eval_tick σ = Some σ' → frame σ σ'.
Proof.
  unfold eval_tick. cbv zeta.
  assert (frame σ (eval_programs σ)) as Hf by done.
  revert Hf. generalize (eval_programs σ). intros σ1 (Hc & Ht & Hr).
  destruct (station_active (outputs σ1)).
  - destruct (backwash σ1) as [σ2|] eqn:Hbw; [|done].
    apply backwash_frame in Hbw as (Hc2 & Ht2 & Hr2).
    intros [= <-]. unfold frame. cbn [cursor trace run_mode with_outputs].
    rewrite Hc2, Ht2, Hc, Ht. auto.
  - intros [= <-]. unfold frame. cbn. done.
Qed.

Lemma run_section_frame t σ σ' : run_section t σ = Some σ' → frame σ σ'.
Proof.
  unfold run_section. destruct (run_mode σ) eqn:Hr; [|by intros [= <-]].
  cbv zeta. set (σ1 := with_clock _ _).
  assert (frame σ σ1) as Hf1 by done. clearbody σ1.
  destruct Hf1 as (Hc & Ht & _).
  destruct (bool_decide (ct (clock σ1) > 24 * 60)).
  - cbn [clock with_clock set_lt lt ct].
    rewrite bool_decide_eq_false_2 by (intros H'; by apply H').
    intros [= <-]. unfold frame. cbn. rewrite Hc, Ht. done.
  - case_bool_decide.
    + intros Hev. apply eval_tick_frame in Hev as (Hc2 & Ht2 & Hr2).
      unfold frame. rewrite Hc2, Ht2. done.
    + intros [= <-]. done.
Qed.

Lemma frame_inv σ σ' : frame σ σ' → edit_inv σ → edit_inv σ'.
Proof.
  intros (Hc & Ht & Hr) [Hp Hw]. unfold edit_inv. rewrite Hc, Ht. auto.
Qed.

Lemma press_b8_inv now σ : edit_inv σ → edit_inv (press_b8 now σ).
Proof.
  intros [Hp Hw]. unfold press_b8. cbv zeta.
  cbn [run_mode with_fast_mode with_debounce].
  destruct (run_mode σ) eqn:Hr; unfold edit_inv; cbn; rewrite ?Hr; auto.
Qed.

Lemma press_b1_inv σ : edit_inv σ → edit_inv (press_b1 σ).
Proof.
  intros [Hp Hw]. destruct (decide (prog (cursor σ) = 0)) as [H0|H0].
  - destruct (press_b1_from_0 σ H0) as (_ & _ & Hr & Ht).
    revert Hr Ht. generalize (press_b1 σ). intros σ' Hr Ht.
    split; [by rewrite Hr|by rewrite Ht].
  - pose proof (press_b1_from_edit σ H0) as H. cbv zeta in H.
    destruct H as (_ & _ & Hr & Ht).
    revert Hr Ht. generalize (press_b1 σ). intros σ' Hr Ht.
    assert (run_mode σ = false) as Hoff.
    { destruct (run_mode σ); [|done]. by destruct H0; apply Hp. }
    split; [by rewrite Hr, Hoff|]. rewrite Ht, Hoff. by constructor.
Qed.

(** The selector button writes the table only with the cursor on a
    non-zero program. *)
Lemma press_b2_spec σ :
  run_mode (press_b2 σ) = run_mode σ ∧
  prog (cursor (press_b2 σ)) = prog (cursor σ) ∧
  trace (press_b2 σ) =
    if bool_decide (prog (cursor σ) ≠ 0) then
      {| wr_running := run_mode σ; wr_prog := prog (cursor σ);
         wr_station := station (cursor σ);
         wr_value := duration (cursor σ) |} :: trace σ
    else trace σ.
Proof.
  unfold press_b2. cbv zeta. cbn [cursor with_debounce].
  destruct (bool_decide (prog (cursor σ) ≠ 0)); [done|].
  cbn [run_mode with_debounce].
  destruct (run_mode σ) eqn:Hr; cbn; rewrite ?Hr; done.
Qed.

Lemma press_b2_inv σ : edit_inv σ → edit_inv (press_b2 σ).
Proof.
  intros [Hp Hw]. destruct (press_b2_spec σ) as (Hr & Hc & Ht).
  revert Hr Hc Ht. generalize (press_b2 σ). intros σ' Hr Hc Ht.
  split; [rewrite Hr, Hc; done|]. rewrite Ht.
  case_bool_decide as H0; [|done].
  assert (run_mode σ = false) as Hoff.
  { destruct (run_mode σ); [|done]. by destruct H0; apply Hp. }
  rewrite Hoff. by constructor.
Qed.

Lemma press_b3_spec now σ :
  trace (press_b3 now σ) = trace σ ∧
  prog (cursor (press_b3 now σ)) = prog (cursor σ) ∧
  (prog (cursor σ) ≠ 0 → run_mode (press_b3 now σ) = run_mode σ).
Proof.
  unfold press_b3. cbv zeta. cbn [cursor with_debounce run_mode].
  destruct (decide (prog (cursor σ) = 0)) as [H0|H0].
  - rewrite (bool_decide_eq_true_2 _ H0).
    rewrite (bool_decide_eq_false_2 (prog (cursor σ) ≠ 0)) by naive_solver.
    destruct (run_mode σ) eqn:Hr; cbn; rewrite ?Hr; done.
  - rewrite (bool_decide_eq_false_2 _ H0). cbn [andb].
    rewrite (bool_decide_eq_true_2 _ H0). done.
Qed.

Lemma press_b3_inv now σ : edit_inv σ → edit_inv (press_b3 now σ).
Proof.
  intros [Hp Hw]. destruct (press_b3_spec now σ) as (Ht & Hc & Hr).
  revert Ht Hc Hr. generalize (press_b3 now σ). intros σ' Ht Hc Hr.
  split; [|by rewrite Ht]. rewrite Hc. intros Hon.
  destruct (decide (prog (cursor σ) = 0)) as [|H0]; [done|].
  apply Hp. by rewrite <- Hr.
Qed.

Lemma press_b4_spec σ :
  trace (press_b4 σ) = trace σ ∧
  prog (cursor (press_b4 σ)) = prog (cursor σ) ∧
  (run_mode (press_b4 σ) = true → run_mode σ = true).
Proof.
  unfold press_b4. cbv zeta. cbn [cursor with_debounce run_mode].
  destruct (bool_decide (prog (cursor σ) ≠ 0)), (run_mode σ) eqn:Hr;
    cbn; rewrite ?Hr; cbn; rewrite ?Hr; done.
Qed.

Lemma press_b4_inv σ : edit_inv σ → edit_inv (press_b4 σ).
Proof.
  intros [Hp Hw]. destruct (press_b4_spec σ) as (Ht & Hc & Hr).
  revert Ht Hc Hr. generalize (press_b4 σ). intros σ' Ht Hc Hr.
  split; [|by rewrite Ht]. rewrite Hc. auto.
Qed.

Lemma poll_buttons_inv i σ : edit_inv σ → edit_inv (poll_buttons i σ).
Proof.
  intros Hinv. unfold poll_buttons.
  case_bool_decide; [destruct Hinv; split; done|].
  cbv zeta.
  assert (∀ σ k, edit_inv σ → edit_inv (with_keys k σ)) as Hk
    by (intros ? ? [? ?]; split; done).
  apply Hk.
  repeat match goal with
         | |- edit_inv (if ?b then _ else _) => destruct b
         | |- edit_inv (press_b8 _ _) => apply press_b8_inv
         | |- edit_inv (press_b1 _) => apply press_b1_inv
         | |- edit_inv (press_b2 _) => apply press_b2_inv
         | |- edit_inv (press_b3 _ _) => apply press_b3_inv
         | |- edit_inv (press_b4 _) => apply press_b4_inv
         end; done.
Qed.

Lemma loop_inv i σ σ' : loop i σ = Some σ' → edit_inv σ → edit_inv σ'.
Proof.
  unfold loop. destruct (run_section (t_run i) σ) as [σ1|] eqn:Hrun; [|done].
  cbn [mbind option_bind]. intros [= <-] Hinv.
  apply poll_buttons_inv. eapply frame_inv; [|done].
  by eapply run_section_frame.
Qed.

(** C8. In every reachable state: a running controller has its program
    cursor on 0; every call of [update_eeprom] made so far was made with
    the run state off; and while running, the two button transitions that
    write a table entry (mode button, selector button) make no such call. *)
Theorem edit_only_when_off (σ : State) :
  reachable σ →
  (run_mode σ = true → prog (cursor σ) = 0) ∧
  Forall (λ ev, wr_running ev = false) (trace σ) ∧
  (run_mode σ = true →
   trace (press_b1 σ) = trace σ ∧ trace (press_b2 σ) = trace σ).
Proof.
  intros Hreach.
  assert (edit_inv σ) as [Hp Hw].
  { induction Hreach as [e now pn|i σ σ' _ IH Hloop].
    - apply boot_inv.
    - by eapply loop_inv. }
  split; [done|]. split; [done|].
  intros Hon. specialize (Hp Hon). split.
  - by destruct (press_b1_from_0 σ Hp) as (_ & _ & _ & ->).
  - destruct (press_b2_spec σ) as (_ & _ & ->).
    by rewrite bool_decide_eq_false_2 by naive_solver.
Qed.

Lemma edit_only_when_off_witness :
  reachable (boot long_run_image 0 pins_up) ∧
  run_mode (boot long_run_image 0 pins_up) = true ∧
  prog (cursor (boot long_run_image 0 pins_up)) = 0.
Proof.
  split; [apply reach_boot|]. split; [by vm_compute|].
  refine (proj1 (edit_only_when_off (boot long_run_image 0 pins_up)
                   (reach_boot _ _ _)) _).
  by vm_compute.
Defined.

Lemma loops_reachable ins σ σ' :
  reachable σ → loops ins σ = Some σ' → reachable σ'.
Proof.
  revert σ. induction ins as [|i ins IH]; intros σ Hreach; cbn [loops].
  - by intros [= <-].
  - destruct (loop i σ) as [σ1|] eqn:Hloop; [|done]. cbn [mbind option_bind].
    apply IH. by eapply reach_loop.
Qed.

(** The ghost record does see the edits: from the factory image, the mode
    button (program 1, station 3), the increment button twice (duration 10)
    and the selector button give a reachable state whose record holds the
    write of 10 to cell (1, 3), made with the run state off. *)
Example edit_write_recorded :
  ∃ σ, reachable σ ∧
       loops (stroke 1 ++ stroke 4 ++ stroke 4 ++ stroke 2)
             (boot factory 0 pins_up) = Some σ ∧
       trace σ = [{| wr_running := false; wr_prog := 1; wr_station := 3;
                     wr_value := 10 |}] ∧
       read_eeprom (eeprom σ) 1 3 = 10.
Proof.
  destruct (loops (stroke 1 ++ stroke 4 ++ stroke 4 ++ stroke 2)
              (boot factory 0 pins_up)) as [σ|] eqn:Hrun;
    [|by vm_compute in Hrun].
  exists σ. split; [by eapply loops_reachable; [apply reach_boot|]|].
  split; [done|]. vm_compute in Hrun. injection Hrun as <-. by vm_compute.
Qed.

(** ** The undefined read of the backwash cycle

    The result [None] of the tick is reached: a run resumed at boot is
    rebased by the fast-mode button one minute later ([last_time = ct / 6]
    rounds the clock down from 1435 to 1434), and the next tick walks the
    backwash stations with [bt = 1436] ahead of [ct = 1434]; the walk does
    not move and [bws[s-1]] is read with [s = 0]. *)
Example backwash_read_before_array :
  ∃ σ, loops [poll 60000 0; poll 60000 128] (boot long_run_image 0 pins_up)
       = Some σ ∧
       reachable σ ∧ run_mode σ = true ∧
       backwash_delay (clock σ) = 0 ∧ bt (clock σ) = 1436 ∧
       elapsed 60000 σ = 1434 ∧
       loop (poll 60000 0) σ = None.
Proof.
  destruct (loops [poll 60000 0; poll 60000 128]
              (boot long_run_image 0 pins_up)) as [σ|] eqn:Hrun;
    [|by vm_compute in Hrun].
  exists σ. split; [done|].
  split; [by eapply loops_reachable; [apply reach_boot|]|].
  vm_compute in Hrun. injection Hrun as <-. by vm_compute.
Qed.

(** ** The relay register *)



(** ** The serial link *)

Lemma forall_byte (P : Z → bool) :
  forallb P (seqZ 0 256) = true → ∀ x, 0 ≤ x < 256 → P x = true.
Proof.
  intros H x Hx. rewrite forallb_forall in H. apply H.
  apply list_elem_of_In, elem_of_seqZ. lia.
Qed.

(** X2. A byte written by [shiftOutMod] and read back by [shiftInMod] in the
    same bit order is the byte itself; read back in the other order it is
    the byte with its eight bits reversed. *)
Theorem shift_roundtrip (val : Z) :
  0 ≤ val < 256 →
  shiftInMod LSBFIRST (arr_get (shiftOutMod LSBFIRST val)) = val ∧
  shiftInMod MSBFIRST (arr_get (shiftOutMod MSBFIRST val)) = val ∧
  (∀ n, 0 ≤ n < 8 →
        Z.testbit (shiftInMod MSBFIRST (arr_get (shiftOutMod LSBFIRST val))) n
        = Z.testbit val (7 - n)).
Proof.
  intros Hval. split; [|split].
  - apply Z.eqb_eq.
    by apply (forall_byte
                (λ v, shiftInMod LSBFIRST (arr_get (shiftOutMod LSBFIRST v)) =? v)).
  - apply Z.eqb_eq.
    by apply (forall_byte
                (λ v, shiftInMod MSBFIRST (arr_get (shiftOutMod MSBFIRST v)) =? v)).
  - intros n Hn.
    assert (n = 0 ∨ n = 1 ∨ n = 2 ∨ n = 3 ∨ n = 4 ∨ n = 5 ∨ n = 6 ∨ n = 7)
      as Hcases by lia.
    destruct Hcases as [->|[->|[->|[->|[->|[->|[->| ->]]]]]]];
      apply eqb_prop;
      by apply (forall_byte
                  (λ v, eqb (Z.testbit
                               (shiftInMod MSBFIRST
                                  (arr_get (shiftOutMod LSBFIRST v))) _)
                            (Z.testbit v _))).
Qed.

Lemma shift_roundtrip_witness :
  0 ≤ 0x42 < 256 ∧
  shiftInMod LSBFIRST (arr_get (shiftOutMod LSBFIRST 0x42)) = 0x42.
Proof.
  split; [lia|]. exact (proj1 (shift_roundtrip 0x42 ltac:(lia))).
Defined.

Lemma shiftInMod_range order pin : 0 ≤ shiftInMod order pin < 256.
Proof.
  unfold shiftInMod. change (seqZ 0 8) with ([0; 1; 2; 3; 4; 5; 6] ++ [7]).
  rewrite foldl_app. cbn [foldl]. case_bool_decide; apply u8_range.
Qed.

Lemma key_byte_cases x :
  0 ≤ x < 256 → Z.land x 0xEE = 0 → x = 0 ∨ x = 1 ∨ x = 16 ∨ x = 17.
Proof.
  intros Hx Hland.
  pose proof (forall_byte
                (λ v, negb (Z.land v 0xEE =? 0)
                      || (v =? 0) || (v =? 1) || (v =? 16) || (v =? 17))
                ltac:(by vm_compute) x Hx) as H.
  cbv beta in H. rewrite Hland in H. cbn [Z.eqb negb orb] in H.
  repeat (apply orb_true_iff in H as [H|H]);
    first [discriminate | apply Z.eqb_eq in H; auto].
Qed.

(** X3. [readButtons] merges the four bytes of the chip into one: when
    every byte carries key bits at positions 0 and 4 only, bit [i] of the
    result is bit 0 of byte [i] and bit [i + 4] is bit 4 of byte [i], so no
    two keys share a bit of the result. *)
Theorem readButtons_decode (pin : Z → Z → Z) :
  (∀ i, 0 ≤ i < 4 → Z.land (shiftInMod LSBFIRST (pin i)) 0xEE = 0) →
  0 ≤ readButtons pin < 256 ∧
  ∀ i, 0 ≤ i < 4 →
       Z.testbit (readButtons pin) i
       = Z.testbit (shiftInMod LSBFIRST (pin i)) 0 ∧
       Z.testbit (readButtons pin) (i + 4)
       = Z.testbit (shiftInMod LSBFIRST (pin i)) 4.
Proof.
  intros Hkeys.
  pose proof (key_byte_cases _ (shiftInMod_range LSBFIRST (pin 0))
                (Hkeys 0 ltac:(lia))) as H0.
  pose proof (key_byte_cases _ (shiftInMod_range LSBFIRST (pin 1))
                (Hkeys 1 ltac:(lia))) as H1.
  pose proof (key_byte_cases _ (shiftInMod_range LSBFIRST (pin 2))
                (Hkeys 2 ltac:(lia))) as H2.
  pose proof (key_byte_cases _ (shiftInMod_range LSBFIRST (pin 3))
                (Hkeys 3 ltac:(lia))) as H3.
  split.
  { unfold readButtons. change (seqZ 0 4) with ([0; 1; 2] ++ [3]).
    rewrite foldl_app. cbn [foldl]. apply u8_range. }
  intros i Hi.
  assert (i = 0 ∨ i = 1 ∨ i = 2 ∨ i = 3) as [->|[->|[->| ->]]] by lia;
    unfold readButtons; change (seqZ 0 4) with [0; 1; 2; 3]; cbn [foldl];
    revert H0 H1 H2 H3;
    generalize (shiftInMod LSBFIRST (pin 0)), (shiftInMod LSBFIRST (pin 1)),
      (shiftInMod LSBFIRST (pin 2)), (shiftInMod LSBFIRST (pin 3));
    intros x0 x1 x2 x3 [->|[->|[->| ->]]] [->|[->|[->| ->]]]
      [->|[->|[->| ->]]] [->|[->|[->| ->]]];
    by vm_compute.
Qed.

Lemma readButtons_decode_witness :
  (∀ i, 0 ≤ i < 4 →
        Z.land (shiftInMod LSBFIRST
                  ((λ i, arr_get (shiftOutMod LSBFIRST
                                    (arr_get [1; 0; 16; 17] i))) i)) 0xEE = 0) ∧
  Z.testbit
    (readButtons (λ i, arr_get (shiftOutMod LSBFIRST (arr_get [1; 0; 16; 17] i))))
    (3 + 4)
  = Z.testbit
      (shiftInMod LSBFIRST (arr_get (shiftOutMod LSBFIRST (arr_get [1; 0; 16; 17] 3))))
      4.
Proof.
  assert (∀ i, 0 ≤ i < 4 →
            Z.land (shiftInMod LSBFIRST
                      ((λ i, arr_get (shiftOutMod LSBFIRST
                                        (arr_get [1; 0; 16; 17] i))) i)) 0xEE
            = 0) as Hkeys.
  { intros i Hi.
    assert (i = 0 ∨ i = 1 ∨ i = 2 ∨ i = 3) as [->|[->|[->| ->]]] by lia;
      by vm_compute. }
  split; [exact Hkeys|].
  exact (proj2 (proj2 (readButtons_decode _ Hkeys) 3 ltac:(lia))).
Defined.

(** ** The backwash cycle *)

(** The backwash walk from [bt <= ct]: where it stops. *)
Lemma bw_walk_spec e b c :
  0 ≤ b ≤ c → c ≤ 24 * 60 →
  let a1 := b + read_eeprom e (PROGS - 1) 1 / 10 in
  let a2 := a1 + read_eeprom e (PROGS - 1) 2 / 10 in
  let a3 := a2 + read_eeprom e (PROGS - 1) 13 * 6 in
  bw_walk e c 3 b 0 =
  if bool_decide (c < a1) then (a1, 1)
  else if bool_decide (c < a2) then (a2, 2)
  else (a3, 3).
Proof.
  intros Hb Hc. cbv zeta.
  pose proof (read_eeprom_range e (PROGS - 1) 13) as H3.
  assert (0 ≤ read_eeprom e (PROGS - 1) 1 / 10 < 26) as Hd1.
  { pose proof (read_eeprom_range e (PROGS - 1) 1).
    split; [apply Z.div_pos; lia|apply Z.div_lt_upper_bound; lia]. }
  assert (0 ≤ read_eeprom e (PROGS - 1) 2 / 10 < 26) as Hd2.
  { pose proof (read_eeprom_range e (PROGS - 1) 2).
    split; [apply Z.div_pos; lia|apply Z.div_lt_upper_bound; lia]. }
  cbn [bw_walk].
  change (default 0 (bws_at 0)) with 1.
  change (u8 (0 + 1)) with 1.
  change (default 0 (bws_at 1)) with 2.
  change (u8 (1 + 1)) with 2.
  change (default 0 (bws_at 2)) with 13.
  change (u8 (2 + 1)) with 3.
  change (bool_decide (0 < 3)) with true.
  change (bool_decide (0 < 2)) with true.
  change (bool_decide (1 < 3)) with true.
  change (bool_decide (1 < 2)) with true.
  change (bool_decide (2 < 3)) with true.
  change (bool_decide (2 < 2)) with false.
  cbv iota.
  revert H3 Hd1 Hd2.
  generalize (read_eeprom e (PROGS - 1) 1 / 10),
    (read_eeprom e (PROGS - 1) 2 / 10), (read_eeprom e (PROGS - 1) 13).
  intros d1 d2 d3 H3 Hd1 Hd2.
  rewrite (bool_decide_eq_true_2 (b ≤ c)) by lia. cbn [andb].
  rewrite (u32_small (b + d1)) by lia.
  rewrite (u32_small (b + d1 + d2)) by lia.
  rewrite (u32_small (b + d1 + d2 + d3 * 6)) by lia.
  rewrite !andb_true_r.
  repeat case_bool_decide; try lia; reflexivity.
Qed.

(** X4. The backwash part of a tick.  While the start-up delay is pending
    it only consumes the delay and rebases [bt] to [ct + 1].  After that,
    entered with [bt <= ct] (within the 24 hours of a run), it follows the
    cycle filter 1, filter 2, delay station 13 from [bt]: the station whose
    interval holds [ct] is marked with the minutes left of its interval,
    the filter durations counting in whole minutes ([stored / 10]); when
    [ct] is past the three intervals nothing is marked and [bt] is rebased
    to [ct + 1]. *)
Theorem backwash_cycle (σ : State) :
  0 ≤ bt (clock σ) ≤ ct (clock σ) → ct (clock σ) ≤ 24 * 60 →
  (backwash_delay (clock σ) ≠ 0 →
   backwash σ =
   Some (with_clock
           (set_backwash_delay (u8 (backwash_delay (clock σ) - 1))
              (set_bt (ct (clock σ) + 1) (clock σ))) σ)) ∧
  (backwash_delay (clock σ) = 0 →
   backwash σ =
   Some (match bw_plan (eeprom σ) (bt (clock σ)) (ct (clock σ)) with
         | Some (k, r) => with_outputs (mark_bw k r (outputs σ)) σ
         | None => with_clock (set_bt (ct (clock σ) + 1) (clock σ)) σ
         end)).
Proof.
  intros Hbt Hct. split.
  - intros Hd. unfold backwash. cbv zeta.
    rewrite bool_decide_eq_true_2 by done.
    rewrite u32_small by lia. done.
  - intros Hd. unfold backwash, bw_plan. cbv zeta.
    rewrite (bool_decide_eq_false_2 (backwash_delay (clock σ) ≠ 0))
      by (intros H; by apply H).
    pose proof (bw_walk_spec (eeprom σ) (bt (clock σ)) (ct (clock σ)) Hbt Hct)
      as Hw.
    cbv zeta in Hw. rewrite Hw. clear Hw.
    pose proof (read_eeprom_range (eeprom σ) (PROGS - 1) 13) as H3.
    assert (0 ≤ read_eeprom (eeprom σ) (PROGS - 1) 1 / 10 < 26) as Hd1.
    { pose proof (read_eeprom_range (eeprom σ) (PROGS - 1) 1).
      split; [apply Z.div_pos; lia|apply Z.div_lt_upper_bound; lia]. }
    assert (0 ≤ read_eeprom (eeprom σ) (PROGS - 1) 2 / 10 < 26) as Hd2.
    { pose proof (read_eeprom_range (eeprom σ) (PROGS - 1) 2).
      split; [apply Z.div_pos; lia|apply Z.div_lt_upper_bound; lia]. }
    revert H3 Hd1 Hd2.
    generalize (read_eeprom (eeprom σ) (PROGS - 1) 1 / 10),
      (read_eeprom (eeprom σ) (PROGS - 1) 2 / 10),
      (read_eeprom (eeprom σ) (PROGS - 1) 13).
    intros d1 d2 d3 H3 Hd1 Hd2.
    destruct (bool_decide (ct (clock σ) < bt (clock σ) + d1)) eqn:E1;
      [|destruct (bool_decide (ct (clock σ) < bt (clock σ) + d1 + d2)) eqn:E2;
        [|destruct (bool_decide
                      (ct (clock σ) < bt (clock σ) + d1 + d2 + d3 * 6)) eqn:E3]];
      cbn [fst snd];
      try apply bool_decide_eq_true_1 in E1;
      try apply bool_decide_eq_false_1 in E1;
      try apply bool_decide_eq_true_1 in E2;
      try apply bool_decide_eq_false_1 in E2;
      try apply bool_decide_eq_true_1 in E3;
      try apply bool_decide_eq_false_1 in E3.
    + change (bws_at (1 - 1)) with (Some 1). cbn [mbind option_bind].
      rewrite bool_decide_eq_true_2 by lia. rewrite u32_small by lia. done.
    + change (bws_at (2 - 1)) with (Some 2). cbn [mbind option_bind].
      rewrite bool_decide_eq_true_2 by lia. rewrite u32_small by lia. done.
    + change (bws_at (3 - 1)) with (Some 13). cbn [mbind option_bind].
      rewrite bool_decide_eq_true_2 by lia. rewrite u32_small by lia. done.
    + change (bws_at (3 - 1)) with (Some 13). cbn [mbind option_bind].
      rewrite bool_decide_eq_false_2 by lia.
      rewrite (bool_decide_eq_true_2 (3 = 3)) by done.
      rewrite u32_small by lia. done.
Qed.

Lemma backwash_cycle_witness :
  0 ≤ bt (clock (boot long_run_image 0 pins_up))
    ≤ ct (clock (tick_state 360000 (boot long_run_image 0 pins_up))) ∧
  is_Some (backwash (tick_state 360000 (boot long_run_image 0 pins_up))).
Proof.
  split; [by vm_compute|].
  destruct (backwash_cycle (tick_state 360000 (boot long_run_image 0 pins_up))
              ltac:(by vm_compute) ltac:(by vm_compute)) as [Hdelay _].
  rewrite Hdelay by (by vm_compute). done.
Defined.

(** ** The outcome of an evaluated tick *)

Lemma prog_pass_active e sel c o p :
  0 ≤ c →
  station_active (prog_pass e sel c o p)
  = station_active o || prog_running e sel c p.
Proof.
  intros Hc. unfold prog_pass, prog_running.
  destruct (bool_decide (sel = 0) || bool_decide (sel = p));
    [|by rewrite orb_false_r].
  cbv zeta. cbn [andb].
  pose proof (walk_result e p c Hc) as Hw. cbv zeta in Hw.
  revert Hw. generalize (walk e p c 10 0 3). intros r [Hgt Hle].
  destruct (decide (total e p > c)) as [Htot|Htot].
  - rewrite (bool_decide_eq_true_2 (total e p > c)) by done.
    destruct (Hgt Htot) as (_ & _ & Hr & _).
    rewrite bool_decide_eq_true_2 by done. cbn. by rewrite orb_true_r.
  - rewrite (bool_decide_eq_false_2 (total e p > c)) by done.
    specialize (Hle ltac:(lia)).
    rewrite bool_decide_eq_false_2 by lia. by rewrite orb_false_r.
Qed.

Lemma prog_pass_idle e sel c o p :
  0 ≤ c → prog_running e sel c p = false → prog_pass e sel c o p = o.
Proof.
  intros Hc. unfold prog_pass, prog_running.
  destruct (bool_decide (sel = 0) || bool_decide (sel = p)); [|done].
  cbv zeta. cbn [andb]. intros Htot. apply bool_decide_eq_false_1 in Htot.
  pose proof (walk_result e p c Hc) as Hw. cbv zeta in Hw.
  revert Hw. generalize (walk e p c 10 0 3). intros r [_ Hle].
  specialize (Hle ltac:(lia)). by rewrite bool_decide_eq_false_2 by lia.
Qed.

Lemma irrigation_idle e sel c o :
  0 ≤ c → existsb (prog_running e sel c) (seqZ 1 8) = false →
  irrigation e sel c o = o.
Proof.
  intros Hc. unfold irrigation. change (PROGS - 1 - 1) with 8.
  generalize (seqZ 1 8). intros l.
  induction l as [|p l IH]; cbn [foldl existsb]; [done|].
  intros [Hp Hl]%orb_false_iff. rewrite prog_pass_idle by done. by apply IH.
Qed.

Lemma irrigation_active e sel c o :
  0 ≤ c →
  station_active (irrigation e sel c o)
  = station_active o || existsb (prog_running e sel c) (seqZ 1 8).
Proof.
  intros Hc. unfold irrigation. change (PROGS - 1 - 1) with 8.
  generalize (seqZ 1 8). intros l. revert o.
  induction l as [|p l IH]; intros o; cbn [foldl existsb].
  - by rewrite orb_false_r.
  - rewrite IH, prog_pass_active by done. by rewrite orb_assoc.
Qed.

Lemma evaluated_outputs_active t σ :
  station_active (evaluated_outputs t σ)
  = existsb (prog_running (checkpointed t σ) (station (cursor σ)) (elapsed t σ))
      (seqZ 1 8).
Proof.
  unfold evaluated_outputs. rewrite irrigation_active by apply elapsed_nonneg.
  assert (∀ o, station_active (all_off o) = station_active o) as ->; [|done].
  intros o. unfold all_off.
  apply (foldl_invariant (λ o', station_active o' = station_active o)); done.
Qed.

Lemma backwash_same σ σ' :
  backwash σ = Some σ' →
  run_mode σ' = run_mode σ ∧ eeprom σ' = eeprom σ ∧ cursor σ' = cursor σ ∧
  ct (clock σ') = ct (clock σ) ∧ lt (clock σ') = lt (clock σ) ∧
  last_time (clock σ') = last_time (clock σ) ∧
  station_active (outputs σ') = station_active (outputs σ).
Proof.
  unfold backwash. cbv zeta. case_bool_decide.
  - by intros [= <-].
  - destruct (bws_at _); [|done]. cbn [mbind option_bind].
    repeat case_bool_decide; by intros [= <-].
Qed.

Lemma eval_state_fields t σ :
  run_mode (eval_state t σ) = run_mode σ ∧
  eeprom (eval_state t σ) = checkpointed t σ ∧
  cursor (eval_state t σ) = cursor σ.
Proof.
  unfold eval_state, eval_programs, tick_state, checkpointed, live_slot,
    live_index.
  cbn [eeprom cursor clock outputs run_mode with_eeprom with_clock with_outputs
       set_ct set_lt ct lt].
  done.
Qed.

(** What an evaluated tick leaves: the run state follows the activity flag
    of the irrigation programs, the EEPROM holds the checkpoint (and the
    run state off when the run ends). *)
Lemma evaluated_tick_result t σ σ' :
  evaluated t σ → run_section t σ = Some σ' →
  let act := station_active (evaluated_outputs t σ) in
  run_mode σ' = act ∧
  eeprom σ' = (if act then checkpointed t σ
               else EEPROM.write (checkpointed t σ) STATUS 0) ∧
  cursor σ' = cursor σ ∧
  ct (clock σ') = elapsed t σ ∧ lt (clock σ') = elapsed t σ ∧
  station_active (outputs σ') = act.
Proof.
  intros Hev. rewrite run_section_evaluated, eval_tick_tick_state by done.
  cbv zeta.
  destruct (eval_state_fields t σ) as (Hr & He & Hc).
  pose proof (eval_state_clock t σ) as Hclk.
  pose proof (eval_state_outputs t σ) as Hout.
  destruct Hev as (Hrun & _ & _).
  revert Hr He Hc Hclk Hout. generalize (eval_state t σ).
  intros σ2 Hr He Hc Hclk Hout.
  destruct (station_active (evaluated_outputs t σ)) eqn:Hact.
  - destruct (backwash σ2) as [σ3|] eqn:Hbw; [|done].
    cbn [mbind option_bind]. intros [= <-].
    destruct (backwash_same σ2 σ3 Hbw) as (Hr3 & He3 & Hc3 & Hct3 & Hlt3 & _ & Ha3).
    cbn [run_mode eeprom cursor clock outputs with_outputs drive_relays
         set_relays station_active].
    rewrite Hr3, He3, Hc3, Hct3, Hlt3, Ha3, Hr, He, Hc, Hclk, Hout, Hrun, Hact.
    done.
  - intros [= <-]. unfold stop_runmode, relays_off. cbv zeta.
    cbn [run_mode eeprom cursor clock outputs with_outputs with_eeprom
         with_run_mode set_relays station_active].
    rewrite He, Hc, Hclk, Hout, Hact. done.
Qed.

(** X5. The end of a run.  On an evaluated tick, when every selected
    program among 1..8 has its total duration at most [ct], the run stops:
    run state off in RAM and in the EEPROM, relay register cleared, every
    station flag off.  When some selected program still has time left, the
    tick leaves the run on (and [lt = ct], the checkpoint written). *)
Theorem run_completes (t : Z) (σ : State) :
  evaluated t σ →
  length (st (outputs σ)) = 16%nat → length (remaining (outputs σ)) = 16%nat →
  let e := checkpointed t σ in
  let sel := station (cursor σ) in
  ((∀ p, 1 ≤ p ≤ 8 → sel = 0 ∨ sel = p → total e p ≤ elapsed t σ) →
   ∃ σ', run_section t σ = Some σ' ∧ run_mode σ' = false ∧
         relays (outputs σ') = 0 ∧ EEPROM.read (eeprom σ') STATUS = 0 ∧
         ∀ j, arr_get (st (outputs σ')) j = 0) ∧
  (∀ p, 1 ≤ p ≤ 8 → sel = 0 ∨ sel = p → total e p > elapsed t σ →
   ∀ σ', run_section t σ = Some σ' →
         run_mode σ' = true ∧ eeprom σ' = e ∧
         lt (clock σ') = elapsed t σ).
Proof.
  intros Hev Hs Hr. cbv zeta. split.
  - intros Hdone.
    assert (existsb (prog_running (checkpointed t σ) (station (cursor σ))
                       (elapsed t σ)) (seqZ 1 8) = false) as Hnone.
    { apply not_true_iff_false.
      intros (p & Hin & Hrun)%existsb_exists.
      apply list_elem_of_In, elem_of_seqZ in Hin.
      unfold prog_running in Hrun.
      apply andb_true_iff in Hrun as [Hsel Htot].
      apply bool_decide_eq_true_1 in Htot.
      apply orb_true_iff in Hsel as [Hsel|Hsel];
        apply bool_decide_eq_true_1 in Hsel;
        specialize (Hdone p ltac:(lia) ltac:(auto)); lia. }
    assert (evaluated_outputs t σ
            = all_off (set_station_active false (outputs σ))) as Hout.
    { unfold evaluated_outputs. fold (checkpointed t σ).
      apply irrigation_idle; [apply elapsed_nonneg|done]. }
    assert (station_active (evaluated_outputs t σ) = false) as Hact
      by (by rewrite evaluated_outputs_active).
    assert (st (evaluated_outputs t σ) = replicate 16 0) as Hst
      by (by rewrite Hout, all_off_spec).
    rewrite run_section_evaluated, eval_tick_tick_state, Hact by done.
    pose proof (eval_state_outputs t σ) as Ho. rewrite <- Ho in Hst.
    revert Hst. generalize (eval_state t σ). intros σ2 Hst.
    eexists. split; [reflexivity|].
    unfold stop_runmode, relays_off. cbv zeta.
    cbn [run_mode eeprom outputs with_outputs with_eeprom with_run_mode
         set_relays relays st].
    split; [done|]. split; [done|]. split; [apply read_write_zero_eq|].
    intros j. rewrite Hst. apply arr_get_replicate.
  - intros p Hp Hsel Htot σ' Hrun.
    pose proof (evaluated_tick_result t σ σ' Hev Hrun) as Hres.
    cbv zeta in Hres.
    assert (station_active (evaluated_outputs t σ) = true) as Hact.
    { rewrite evaluated_outputs_active. apply existsb_exists. exists p.
      split; [apply list_elem_of_In, elem_of_seqZ; lia|].
      unfold prog_running. rewrite (bool_decide_eq_true_2 _ Htot).
      destruct Hsel as [Hsel|Hsel]; rewrite (bool_decide_eq_true_2 _ Hsel);
        by rewrite ?orb_true_r. }
    rewrite Hact in Hres. destruct Hres as (? & ? & _ & _ & ? & _). done.
Qed.

Lemma run_completes_witness :
  evaluated 360000 (boot long_run_image 0 pins_up) ∧
  length (st (outputs (boot long_run_image 0 pins_up))) = 16%nat ∧
  length (remaining (outputs (boot long_run_image 0 pins_up))) = 16%nat ∧
  total (checkpointed 360000 (boot long_run_image 0 pins_up)) 1 > 1440 ∧
  ∀ σ', run_section 360000 (boot long_run_image 0 pins_up) = Some σ' →
        run_mode σ' = true.
Proof.
  assert (evaluated 360000 (boot long_run_image 0 pins_up)) as Hev.
  { split; [by vm_compute|]. split; by vm_compute. }
  split; [exact Hev|]. split; [by vm_compute|]. split; [by vm_compute|].
  split; [by vm_compute|].
  intros σ' Hrun.
  exact (proj1 (proj2 (run_completes 360000 (boot long_run_image 0 pins_up)
                         Hev ltac:(by vm_compute) ltac:(by vm_compute))
                  1 ltac:(lia) ltac:(by left; vm_compute)
                  ltac:(by vm_compute) σ' Hrun)).
Defined.

(** ** Power loss and recovery *)

Lemma setup_station now pn σ :
  let σ1 := check_eeprom
              (with_keys {| b1 := pin1 pn; b2 := pin2 pn; b3 := pin3 pn;
                            b4 := pin4 pn; b8 := HIGH |} σ) in
  station (cursor (setup now pn σ)) =
  if bool_decide (EEPROM.read (eeprom σ1) STATUS ≠ 0)
  then EEPROM.read (eeprom σ1) LAST_PROG else station (cursor σ1).
Proof.
  intros σ1. unfold setup. cbn zeta. fold σ1.
  cbn. destruct (bool_decide (EEPROM.read (eeprom σ1) STATUS ≠ 0)); cbn;
    repeat case_bool_decide; done.
Qed.

Lemma boot_station e now pn :
  stored_checksum e = checksum e →
  station (cursor (boot e now pn)) =
  if bool_decide (EEPROM.read e STATUS ≠ 0) then EEPROM.read e LAST_PROG else 0.
Proof.
  intros Hok. pose proof (setup_station now pn (power_on e)) as H.
  rewrite check_eeprom_valid in H by done. exact H.
Qed.

Lemma boot_eeprom_valid e now pn :
  stored_checksum e = checksum e → eeprom (boot e now pn) = e.
Proof. intros Hok. rewrite boot_eeprom, check_eeprom_valid; done. Qed.

(** A write to the run-state byte, the selector byte, the index byte or a
    slot of the log leaves the table and its stored checksum as they are. *)
Lemma write_low_keeps_checksum e a v :
  STATUS - 1 ≤ a < LAST_TIME_BASE + LAST_TIME_SIZE →
  stored_checksum (EEPROM.write e a v) = stored_checksum e ∧
  checksum (EEPROM.write e a v) = checksum e.
Proof.
  unfold STATUS, LAST_TIME_BASE, LAST_TIME_SIZE. intros Ha. split.
  - apply stored_checksum_write_other; unfold CK1, CK2; lia.
  - apply checksum_write_other. lia.
Qed.

(** X6. Checkpoint and recovery.  After an evaluated tick on an image with
    a valid checksum, the run state on and the wear-levelling index within
    the log, a boot on what the tick has persisted keeps that image and
    recovers the run: when the tick left the run on, the boot resumes it
    with [last_time = ct / 6], so that the resumed clock [lt] is at most
    [ct] and less than 6 minutes behind it, and with the persisted
    selector; when the tick ended the run, the boot does not resume it. *)
Theorem checkpoint_recovery (t : Z) (σ σ' : State) (now : Z) (pn : Pins) :
  length (eeprom σ) = Z.to_nat EEPROM.SIZE →
  stored_checksum (eeprom σ) = checksum (eeprom σ) →
  EEPROM.read (eeprom σ) STATUS ≠ 0 →
  live_index σ < 16 →
  evaluated t σ → run_section t σ = Some σ' →
  eeprom (boot (eeprom σ') now pn) = eeprom σ' ∧
  run_mode (boot (eeprom σ') now pn) = run_mode σ' ∧
  (run_mode σ' = true →
   last_time (clock (boot (eeprom σ') now pn)) = elapsed t σ / 6 ∧
   lt (clock (boot (eeprom σ') now pn)) ≤ elapsed t σ
     < lt (clock (boot (eeprom σ') now pn)) + 6 ∧
   station (cursor (boot (eeprom σ') now pn))
     = EEPROM.read (eeprom σ) LAST_PROG) ∧
  (run_mode σ' = false → last_time (clock (boot (eeprom σ') now pn)) = 0).
Proof.
  intros Hlen Hok Hst Hidx Hev Hrun.
  pose proof (evaluated_tick_result t σ σ' Hev Hrun) as Hres. cbv zeta in Hres.
  destruct Hres as (Hr & He & _).
  pose proof (read_range (eeprom σ) LAST_TIME_INDEX) as Hi.
  fold (live_index σ) in Hi.
  pose proof (elapsed_nonneg t σ) as Hc. destruct Hev as (_ & Hle & _).
  assert (0 ≤ elapsed t σ / 6 ≤ 240) as Hv.
  { split; [apply Z.div_pos; lia|]. apply Z.div_le_upper_bound; lia. }
  (* the checkpointed image *)
  assert (stored_checksum (checkpointed t σ) = checksum (checkpointed t σ)
          ∧ EEPROM.read (checkpointed t σ) STATUS = EEPROM.read (eeprom σ) STATUS
          ∧ EEPROM.read (checkpointed t σ) LAST_PROG
            = EEPROM.read (eeprom σ) LAST_PROG
          ∧ EEPROM.read (checkpointed t σ) LAST_TIME_INDEX = live_index σ
          ∧ EEPROM.read (checkpointed t σ) (LAST_TIME_BASE + live_index σ)
            = elapsed t σ / 6) as (Hck & Hs' & Hp' & Hi' & Hv').
  { unfold checkpointed, live_slot.
    destruct (write_low_keeps_checksum (eeprom σ)
                (LAST_TIME_BASE + live_index σ) (elapsed t σ / 6)) as [-> ->].
    { unfold STATUS, LAST_TIME_BASE, LAST_TIME_SIZE. lia. }
    split; [done|].
    rewrite !read_write_ne
      by (unfold STATUS, LAST_PROG, LAST_TIME_BASE, LAST_TIME_INDEX; lia).
    split; [done|]. split; [done|]. split; [done|].
    rewrite read_write_eq; [apply u8_small; lia|done|].
    unfold LAST_TIME_BASE, EEPROM.SIZE. lia. }
  revert Hr He Hck Hs' Hp' Hi' Hv'. generalize (checkpointed t σ).
  intros W Hr He Hck Hs' Hp' Hi' Hv'.
  destruct (station_active (evaluated_outputs t σ)).
  - (* the run goes on *)
    rewrite He, Hr. clear He Hr.
    destruct (boot_recover W now pn Hck) as (Hbr & Hbl & Hblt & _).
    pose proof (boot_station W now pn Hck) as Hbs.
    rewrite Hs', Hi', Hv' in Hbr, Hbl, Hblt. rewrite Hs', Hp' in Hbs.
    rewrite (bool_decide_eq_true_2 _ Hst) in Hbr, Hbl, Hblt, Hbs.
    rewrite (bool_decide_eq_true_2 (elapsed t σ / 6 ≤ 240)) in Hbr, Hbl, Hblt
      by lia.
    cbn [andb] in Hbr, Hbl, Hblt.
    rewrite u32_small in Hblt by lia.
    pose proof (boot_eeprom_valid W now pn Hck) as Hbe.
    revert Hbr Hbl Hblt Hbs Hbe. generalize (boot W now pn).
    intros σb Hbr Hbl Hblt Hbs Hbe.
    split; [done|]. split; [done|]. split; [|done].
    intros _. split; [done|]. split; [|done].
    rewrite Hblt. revert Hc. generalize (elapsed t σ). intros c Hc.
    Z.div_mod_to_equations. lia.
  - (* the run has ended *)
    rewrite He, Hr. clear He Hr.
    destruct (write_low_keeps_checksum W STATUS 0) as [Hs1 Hs2].
    { unfold STATUS, LAST_TIME_BASE, LAST_TIME_SIZE. lia. }
    assert (stored_checksum (EEPROM.write W STATUS 0)
            = checksum (EEPROM.write W STATUS 0)) as Hck0
      by (by rewrite Hs1, Hs2).
    destruct (boot_recover (EEPROM.write W STATUS 0) now pn Hck0)
      as (Hbr & Hbl & _).
    rewrite read_write_zero_eq in Hbr, Hbl.
    rewrite (bool_decide_eq_false_2 (0 ≠ 0)) in Hbr, Hbl
      by (intros H; by apply H).
    cbn [andb] in Hbr, Hbl.
    pose proof (boot_eeprom_valid (EEPROM.write W STATUS 0) now pn Hck0) as Hbe.
    revert Hbr Hbl Hbe. generalize (boot (EEPROM.write W STATUS 0) now pn).
    intros σb Hbr Hbl Hbe. done.
Qed.

Lemma checkpoint_recovery_witness :
  length (eeprom (boot long_run_image 0 pins_up)) = Z.to_nat EEPROM.SIZE ∧
  stored_checksum (eeprom (boot long_run_image 0 pins_up))
    = checksum (eeprom (boot long_run_image 0 pins_up)) ∧
  EEPROM.read (eeprom (boot long_run_image 0 pins_up)) STATUS ≠ 0 ∧
  live_index (boot long_run_image 0 pins_up) < 16 ∧
  evaluated 360000 (boot long_run_image 0 pins_up) ∧
  ∀ σ', run_section 360000 (boot long_run_image 0 pins_up) = Some σ' →
        run_mode (boot (eeprom σ') 0 pins_up) = run_mode σ'.
Proof.
  assert (evaluated 360000 (boot long_run_image 0 pins_up)) as Hev.
  { split; [by vm_compute|]. split; by vm_compute. }
  split; [by vm_compute|]. split; [by vm_compute|]. split; [by vm_compute|].
  split; [by vm_compute|]. split; [exact Hev|].
  intros σ' Hrun.
  exact (proj1 (proj2 (checkpoint_recovery 360000
                         (boot long_run_image 0 pins_up) σ' 0 pins_up
                         ltac:(by vm_compute) ltac:(by vm_compute)
                         ltac:(by vm_compute) ltac:(by vm_compute)
                         Hev Hrun))).
Defined.

Lemma start_runmode_checksum t σ :
  length (eeprom σ) = Z.to_nat EEPROM.SIZE →
  stored_checksum (eeprom (start_runmode t σ)) = stored_checksum (eeprom σ) ∧
  checksum (eeprom (start_runmode t σ)) = checksum (eeprom σ).
Proof.
  intros Hlen. unfold start_runmode. cbv zeta.
  cbn [eeprom with_eeprom with_clock with_run_mode cursor].
  set (e2 := EEPROM.write (EEPROM.write (eeprom σ) STATUS 1) LAST_PROG
               (station (cursor σ))).
  set (i := u8 ((EEPROM.read e2 LAST_TIME_INDEX + 1) mod LAST_TIME_SIZE)).
  assert (0 ≤ i < 16) as Hi.
  { unfold i, LAST_TIME_SIZE.
    pose proof (Z.mod_pos_bound (EEPROM.read e2 LAST_TIME_INDEX + 1) 16 eq_refl).
    rewrite u8_small; lia. }
  assert (EEPROM.read (EEPROM.write e2 LAST_TIME_INDEX i) LAST_TIME_INDEX = i)
    as ->.
  { rewrite read_write_eq; [apply u8_small; lia| |done].
    unfold e2. by rewrite !write_length. }
  clearbody i.
  destruct (write_low_keeps_checksum (EEPROM.write e2 LAST_TIME_INDEX i)
              (LAST_TIME_BASE + i) 0) as [-> ->];
    [unfold STATUS, LAST_TIME_BASE, LAST_TIME_SIZE; lia|].
  destruct (write_low_keeps_checksum e2 LAST_TIME_INDEX i) as [-> ->];
    [unfold STATUS, LAST_TIME_INDEX, LAST_TIME_BASE, LAST_TIME_SIZE; lia|].
  unfold e2.
  destruct (write_low_keeps_checksum (EEPROM.write (eeprom σ) STATUS 1)
              LAST_PROG (station (cursor σ))) as [-> ->];
    [unfold STATUS, LAST_PROG, LAST_TIME_BASE, LAST_TIME_SIZE; lia|].
  destruct (write_low_keeps_checksum (eeprom σ) STATUS 1) as [-> ->];
    [unfold STATUS, LAST_TIME_BASE, LAST_TIME_SIZE; lia|].
  done.
Qed.

(** X7. The run state survives a power loss.  On an image with a valid
    checksum, a boot right after [start_runmode] keeps the image and
    resumes the run from elapsed time 0 with the selector that was
    started; a boot after [stop_runmode] never resumes a run, whatever the
    image. *)
Theorem run_state_persisted (σ : State) (t now : Z) (pn : Pins) :
  (length (eeprom σ) = Z.to_nat EEPROM.SIZE →
   stored_checksum (eeprom σ) = checksum (eeprom σ) →
   let σb := boot (eeprom (start_runmode t σ)) now pn in
   eeprom σb = eeprom (start_runmode t σ) ∧
   run_mode σb = true ∧ last_time (clock σb) = 0 ∧ lt (clock σb) = 0 ∧
   station (cursor σb) = u8 (station (cursor σ))) ∧
  (run_mode (boot (eeprom (stop_runmode σ)) now pn) = false ∧
   last_time (clock (boot (eeprom (stop_runmode σ)) now pn)) = 0).
Proof.
  split.
  - intros Hlen Hok. cbv zeta.
    destruct (start_runmode_checksum t σ Hlen) as [Hs Hc].
    destruct (start_runmode_spec t σ Hlen) as (_ & Hslot & Hst & Hp & _).
    unfold live_slot, live_index in Hslot.
    assert (stored_checksum (eeprom (start_runmode t σ))
            = checksum (eeprom (start_runmode t σ))) as Hck
      by (by rewrite Hs, Hc).
    revert Hslot Hst Hp Hck. generalize (eeprom (start_runmode t σ)).
    intros e Hslot Hst Hp Hck.
    destruct (boot_recover e now pn Hck) as (Hbr & Hbl & Hblt & _).
    pose proof (boot_station e now pn Hck) as Hbs.
    pose proof (boot_eeprom_valid e now pn Hck) as Hbe.
    rewrite Hst, Hslot in Hbr, Hbl, Hblt. rewrite Hst, Hp in Hbs.
    revert Hbr Hbl Hblt Hbs Hbe. generalize (boot e now pn).
    intros σb Hbr Hbl Hblt Hbs Hbe. done.
  - assert (EEPROM.read (eeprom (stop_runmode σ)) STATUS = 0) as Hst
      by apply read_write_zero_eq.
    revert Hst. generalize (eeprom (stop_runmode σ)). intros e Hst.
    unfold boot.
    destruct (setup_recover now pn (power_on e)) as (Hr & Hl & _).
    rewrite Hr, Hl. clear Hr Hl.
    set (σ0 := with_keys _ (power_on e)).
    assert (EEPROM.read (eeprom (check_eeprom σ0)) STATUS = 0) as ->.
    { destruct (decide (stored_checksum (eeprom σ0) = checksum (eeprom σ0)))
        as [Hok|Hbad].
      - by rewrite check_eeprom_valid.
      - rewrite check_eeprom_reset by done. apply read_write_zero_eq. }
    done.
Qed.

Lemma run_state_persisted_witness :
  length (eeprom (power_on factory)) = Z.to_nat EEPROM.SIZE ∧
  stored_checksum (eeprom (power_on factory))
    = checksum (eeprom (power_on factory)) ∧
  run_mode (boot (eeprom (start_runmode 0 (power_on factory))) 0 pins_up) = true.
Proof.
  split; [by vm_compute|]. split; [by vm_compute|].
  exact (proj1 (proj2 (proj1 (run_state_persisted (power_on factory) 0 0 pins_up)
                         ltac:(by vm_compute) ltac:(by vm_compute)))).
Defined.

(** ** The selector, increment and fast-mode buttons *)

(** The selector button in edit mode: the pending duration is written, the
    station cursor moves, the duration of the new station is loaded. *)
Lemma press_b2_edit σ :
  prog (cursor σ) ≠ 0 →
  let c := cursor σ in
  let s := u8 (station c + 1) in
  let s := if bool_decide (s >= STATIONS - 3) then 1 else s in
  let s := if bool_decide (prog c = PROGS - 1) && bool_decide (s >= 3)
           then 13 else s in
  let s := if bool_decide (prog c ≠ PROGS - 1) then
             let s := if bool_decide (s < 3) then 3 else s in
             if bool_decide (s > 7) then 3 else s
           else s in
  let e := EEPROM.write (eeprom σ) (EBASE + prog c * STATIONS + station c)
             (duration c) in
  eeprom (press_b2 σ) = e ∧
  cursor (press_b2 σ)
  = {| prog := prog c; station := s; duration := read_eeprom e (prog c) s |}.
Proof.
  intros H0. cbv zeta. unfold press_b2. cbv zeta.
  cbn [cursor with_debounce].
  rewrite (bool_decide_eq_true_2 (prog (cursor σ) ≠ 0)) by done.
  done.
Qed.

(** X8. The selector button.  In edit mode it persists the pending
    duration in the cell of the cursor and loads the duration of the next
    station, the station cursor moving along 3, 4, 5, 6, 7 and back to 3
    for the programs 1..5 and along 1, 2, 13 and back to 1 for program 9.
    On program 0 with the run off it moves the run selector along
    0, 1, 2, 3, 4, 5 and back to 0 and writes nothing; while running it
    changes neither the selector nor the EEPROM. *)
Theorem selector_button (σ : State) (i : nat) :
  (1 ≤ prog (cursor σ) ≤ 5 → bls !! i = Some (station (cursor σ)) →
   bls !! ((i + 1) `mod` 5)%nat = Some (station (cursor (press_b2 σ)))) ∧
  (prog (cursor σ) = 9 → bws !! i = Some (station (cursor σ)) →
   bws !! ((i + 1) `mod` 3)%nat = Some (station (cursor (press_b2 σ)))) ∧
  (prog (cursor σ) ≠ 0 →
   eeprom (press_b2 σ)
   = EEPROM.write (eeprom σ)
       (EBASE + prog (cursor σ) * STATIONS + station (cursor σ))
       (duration (cursor σ)) ∧
   duration (cursor (press_b2 σ))
   = read_eeprom (eeprom (press_b2 σ)) (prog (cursor σ))
       (station (cursor (press_b2 σ))) ∧
   prog (cursor (press_b2 σ)) = prog (cursor σ)) ∧
  (prog (cursor σ) = 0 → run_mode σ = false →
   selectors !! i = Some (station (cursor σ)) →
   selectors !! ((i + 1) `mod` 6)%nat = Some (station (cursor (press_b2 σ))) ∧
   eeprom (press_b2 σ) = eeprom σ) ∧
  (prog (cursor σ) = 0 → run_mode σ = true →
   cursor (press_b2 σ) = cursor σ ∧ eeprom (press_b2 σ) = eeprom σ).
Proof.
  split; [|split; [|split; [|split]]].
  - intros Hp Hi.
    pose proof (press_b2_edit σ ltac:(lia)) as H. cbv zeta in H.
    destruct H as [_ Hc]. revert Hc. generalize (press_b2 σ). intros σ' ->.
    cbn [station].
    rewrite (bool_decide_eq_false_2 (prog (cursor σ) = PROGS - 1))
      by (unfold PROGS; lia).
    rewrite (bool_decide_eq_true_2 (prog (cursor σ) ≠ PROGS - 1))
      by (unfold PROGS; lia).
    cbn [andb].
    destruct i as [|[|[|[|[|?]]]]]; cbn in Hi; simplify_eq;
      rewrite <- Hi; by vm_compute.
  - intros Hp Hi.
    pose proof (press_b2_edit σ ltac:(lia)) as H. cbv zeta in H.
    destruct H as [_ Hc]. revert Hc. generalize (press_b2 σ). intros σ' ->.
    cbn [station]. rewrite Hp.
    destruct i as [|[|[|?]]]; cbn in Hi; simplify_eq;
      rewrite <- Hi; by vm_compute.
  - intros H0.
    pose proof (press_b2_edit σ H0) as H. cbv zeta in H.
    destruct H as [He Hc]. revert He Hc. generalize (press_b2 σ).
    intros σ' -> ->. done.
  - intros H0 Hoff Hi. unfold press_b2. cbv zeta.
    cbn [cursor with_debounce run_mode]. rewrite H0, Hoff.
    rewrite (bool_decide_eq_false_2 (0 ≠ 0)) by (intros H; by apply H).
    cbn [negb cursor with_cursor station set_station eeprom with_debounce].
    split; [|done].
    destruct i as [|[|[|[|[|[|?]]]]]]; cbn in Hi; simplify_eq;
      rewrite <- Hi; by vm_compute.
  - intros H0 Hon. unfold press_b2. cbv zeta.
    cbn [cursor with_debounce run_mode]. rewrite H0, Hon.
    rewrite (bool_decide_eq_false_2 (0 ≠ 0)) by (intros H; by apply H).
    done.
Qed.

Lemma selector_button_witness :
  selectors !! ((0 + 1) `mod` 6)%nat
  = Some (station (cursor (press_b2 (boot factory 0 pins_up)))) ∧
  eeprom (press_b2 (boot factory 0 pins_up)) = eeprom (boot factory 0 pins_up).
Proof.
  destruct (selector_button (boot factory 0 pins_up) 0) as (_ & _ & _ & H & _).
  apply H; by vm_compute.
Defined.

(** X9. The increment button in edit mode, on a duration within the 8 hour
    cap: the new duration is a multiple of 5 within the cap, the next one
    above the old duration (two steps of 5 at once on the backwash filters
    1 and 2 of program 9), or 0 when that would pass 80; the EEPROM is not
    written. *)
Theorem increment_button (now : Z) (σ : State) :
  prog (cursor σ) ≠ 0 → 0 ≤ duration (cursor σ) ≤ 80 →
  let d := duration (cursor σ) in
  let d' := duration (cursor (press_b3 now σ)) in
  let filter := bool_decide (prog (cursor σ) = 9 ∧ station (cursor σ) < 3) in
  let step := if filter then 10 else 5 in
  d' = (if bool_decide (d / 5 * 5 + step ≤ 80) then d / 5 * 5 + step else 0) ∧
  d' mod 5 = 0 ∧ 0 ≤ d' ≤ 80 ∧
  eeprom (press_b3 now σ) = eeprom σ ∧
  prog (cursor (press_b3 now σ)) = prog (cursor σ) ∧
  station (cursor (press_b3 now σ)) = station (cursor σ) ∧
  run_mode (press_b3 now σ) = run_mode σ.
Proof.
  intros H0 Hd. cbv zeta. unfold press_b3. cbv zeta.
  cbn [cursor with_debounce run_mode].
  rewrite (bool_decide_eq_false_2 (prog (cursor σ) = 0)) by done.
  rewrite (bool_decide_eq_true_2 (prog (cursor σ) ≠ 0)) by done.
  cbn [andb cursor with_cursor set_duration duration prog station eeprom
       run_mode with_debounce].
  revert Hd. generalize (duration (cursor σ)). intros d Hd.
  change (PROGS - 1) with 9.
  assert (0 ≤ d / 5 ≤ 16) as Hq
    by (split; [apply Z.div_pos; lia|apply Z.div_le_upper_bound; lia]).
  rewrite (u8_small ((d / 5 + 1) * 5)) by lia.
  match goal with |- ?x = ?y ∧ _ => assert (x = y) as Heq end.
  { destruct (decide (prog (cursor σ) = 9)) as [H9|H9];
      [destruct (decide (station (cursor σ) < 3)) as [H3|H3]|].
    + rewrite (bool_decide_eq_true_2 (prog (cursor σ) = 9)) by done.
      rewrite (bool_decide_eq_true_2 (station (cursor σ) < 3)) by done.
      rewrite (bool_decide_eq_true_2 (_ ∧ _)) by done. cbn [andb].
      rewrite u8_small by lia. repeat case_bool_decide; lia.
    + rewrite (bool_decide_eq_true_2 (prog (cursor σ) = 9)) by done.
      rewrite (bool_decide_eq_false_2 (station (cursor σ) < 3)) by done.
      rewrite (bool_decide_eq_false_2 (_ ∧ _)) by tauto. cbn [andb].
      repeat case_bool_decide; lia.
    + rewrite (bool_decide_eq_false_2 (prog (cursor σ) = 9)) by done.
      rewrite (bool_decide_eq_false_2 (_ ∧ _)) by tauto. cbn [andb].
      repeat case_bool_decide; lia. }
  split; [exact Heq|]. rewrite Heq. clear Heq.
  split; [|split; [|done]].
  - destruct (bool_decide (prog (cursor σ) = 9 ∧ station (cursor σ) < 3));
      case_bool_decide; try done; Z.div_mod_to_equations; lia.
  - destruct (bool_decide (prog (cursor σ) = 9 ∧ station (cursor σ) < 3));
      case_bool_decide; lia.
Qed.

Lemma increment_button_witness :
  prog (cursor (press_b1 (power_on factory))) ≠ 0 ∧
  0 ≤ duration (cursor (press_b1 (power_on factory))) ≤ 80 ∧
  duration (cursor (press_b3 0 (press_b1 (power_on factory)))) mod 5 = 0.
Proof.
  split; [by vm_compute|]. split; [by vm_compute|].
  exact (proj1 (proj2 (increment_button 0 (press_b1 (power_on factory))
                         ltac:(by vm_compute) ltac:(by vm_compute)))).
Defined.

(** X10. The fast-mode button while running.  It toggles [fast_mode] and
    rebases the clock on [last_time = ct / 6]: right after the toggle the
    elapsed time reads [6 * (ct / 6)], the old [ct] rounded down to a
    multiple of 6, so the clock steps back by at most 5 minutes and never
    forward; the cursor, the EEPROM and the run state are not touched. *)
Theorem fast_mode_rebase (now : Z) (σ : State) :
  run_mode σ = true → 0 ≤ ct (clock σ) ≤ 24 * 60 →
  let σ' := press_b8 now σ in
  fast_mode σ' = negb (fast_mode σ) ∧
  elapsed now σ' = 6 * (ct (clock σ) / 6) ∧
  ct (clock σ) - 5 ≤ elapsed now σ' ≤ ct (clock σ) ∧
  cursor σ' = cursor σ ∧ eeprom σ' = eeprom σ ∧ run_mode σ' = true ∧
  lt (clock σ') = lt (clock σ) ∧ bt (clock σ') = bt (clock σ).
Proof.
  intros Hr Hct. cbv zeta.
  assert (press_b8 now σ
          = with_clock
              (set_start_time (u32 now)
                 (set_last_time (u8 (ct (clock σ) / 6)) (clock σ)))
              (with_fast_mode (negb (fast_mode σ)) (with_debounce 32 σ))) as ->.
  { unfold press_b8. cbv zeta. cbn [run_mode with_fast_mode with_debounce].
    by rewrite Hr. }
  assert (0 ≤ ct (clock σ) / 6 ≤ 240) as Hq
    by (split; [apply Z.div_pos; lia|apply Z.div_le_upper_bound; lia]).
  unfold elapsed.
  cbn [clock with_clock with_fast_mode with_debounce set_start_time
       set_last_time start_time last_time fast_mode ct cursor eeprom run_mode
       lt bt].
  assert (u32 (now - u32 now) = 0) as ->
    by (unfold u32; Z.div_mod_to_equations; lia).
  rewrite (u8_small (ct (clock σ) / 6)) by lia.
  assert (u32 (0 / (if negb (fast_mode σ) then 5000 else 60000)
               + ct (clock σ) / 6 * 6) = 6 * (ct (clock σ) / 6)) as ->.
  { destruct (negb (fast_mode σ));
      [change (0 / 5000) with 0|change (0 / 60000) with 0];
      rewrite Z.add_0_l, u32_small by lia; lia. }
  split; [done|]. split; [done|]. split; [|by rewrite Hr].
  revert Hct. generalize (ct (clock σ)). intros c Hc.
  Z.div_mod_to_equations. lia.
Qed.

Lemma fast_mode_rebase_witness :
  run_mode (boot long_run_image 0 pins_up) = true ∧
  0 ≤ ct (clock (tick_state 60000 (boot long_run_image 0 pins_up))) ≤ 24 * 60 ∧
  elapsed 60000 (press_b8 60000 (tick_state 60000 (boot long_run_image 0 pins_up)))
  = 6 * (ct (clock (tick_state 60000 (boot long_run_image 0 pins_up))) / 6).
Proof.
  split; [by vm_compute|]. split; [by vm_compute|].
  exact (proj1 (proj2 (fast_mode_rebase 60000
                         (tick_state 60000 (boot long_run_image 0 pins_up))
                         ltac:(by vm_compute) ltac:(by vm_compute)))).
Defined.

(** ** An edit that is not sealed by the mode button *)




(** ** The cursor stays on editable cells *)


















(** ** The persisted state stays consistent *)

























(** ** The display section *)

Lemma scan_spec rem n sr :
  0 ≤ sr < STATIONS → 15 - sr ≤ Z.of_nat n →
  sr ≤ scan rem n sr < STATIONS ∧
  (∀ j, sr ≤ j < scan rem n sr → arr_get rem j = 0) ∧
  (arr_get rem (scan rem n sr) ≠ 0 ∨ scan rem n sr = STATIONS - 1).
Proof.
  unfold STATIONS. revert sr. induction n as [|n IH]; intros sr Hsr Hn.
  - cbn [scan]. split; [lia|]. split; [intros; lia|]. right. lia.
  - cbn [scan]. unfold STATIONS.
    destruct (decide (arr_get rem sr = 0)) as [H0|H0].
    + rewrite (bool_decide_eq_true_2 _ H0). cbn [andb].
      case_bool_decide as Hlt.
      * rewrite (u8_small (sr + 1)) by lia.
        destruct (IH (sr + 1)) as (Hr & Hz & He); [lia|lia|].
        split; [lia|]. split; [|done].
        intros j Hj. destruct (decide (j = sr)) as [->|]; [done|].
        apply Hz. lia.
      * split; [lia|]. split; [intros; lia|]. right. lia.
    + rewrite (bool_decide_eq_false_2 _ H0). cbn [andb].
      split; [lia|]. split; [intros; lia|]. by left.
Qed.

(** The scan stops on the first station from [sr] with time remaining. *)
Lemma scan_first rem sr i :
  0 ≤ sr → sr ≤ i < STATIONS → arr_get rem i ≠ 0 →
  (∀ j, sr ≤ j < i → arr_get rem j = 0) →
  scan rem 15 sr = i.
Proof.
  intros H0 Hi Hne Hz.
  destruct (scan_spec rem 15 sr) as (Hr & Hz' & He);
    [unfold STATIONS in Hi |- *; lia|lia|].
  revert Hr Hz' He. generalize (scan rem 15 sr). intros r Hr Hz' He.
  destruct (Z.lt_trichotomy r i) as [Hlt|[->|Hgt]]; [|done|].
  - destruct He as [He|He]; [|unfold STATIONS in *; lia].
    destruct He. apply Hz. lia.
  - destruct Hne. apply Hz'. lia.
Qed.

Lemma scan_none rem sr :
  0 ≤ sr < STATIONS → (∀ i, sr ≤ i < STATIONS → arr_get rem i = 0) →
  arr_get rem (scan rem 15 sr) = 0.
Proof.
  intros Hsr Hz.
  destruct (scan_spec rem 15 sr) as (Hr & _ & _);
    [done|unfold STATIONS in *; lia|].
  apply Hz. lia.
Qed.

(** X14. The remaining-time digits.  In run mode, with [sr] inside the
    array, the display section reads [remaining] inside the array only and
    leaves [sr] inside it.  When a station from [sr] on has time remaining,
    the digits 5..7 show the first such station [i]: for the two filters
    the last digit of its minutes followed by 0, for the others the time
    rounded to tenths of an hour; [sr] stays on [i], or on the pass where
    the blink counter is 199 moves on by one (from 15 to 1).  When no
    station from [sr] on has time remaining, nothing is written to the
    digits 5..7 and the scan restarts from station 1. *)
Theorem display_scan (d : Disp.t) (σ : State) :
  run_mode σ = true → 0 ≤ Disp.sr d < STATIONS →
  ∃ sr' ws,
    display d σ
    = Some ({| Disp.k := blink d σ; Disp.sr := sr' |},
            show_time d σ
            ++ [(4, if fast_mode σ then 0xF else BLANK_SEG, 0)] ++ ws) ∧
    0 ≤ sr' < STATIONS ∧
    (∀ i, Disp.sr d ≤ i < STATIONS →
          arr_get (remaining (outputs σ)) i ≠ 0 →
          (∀ j, Disp.sr d ≤ j < i → arr_get (remaining (outputs σ)) j = 0) →
          (∃ a b, ws = [(5, i, 0); (6, a, POINT_SEG); (7, b, 0)] ∧
             let r := arr_get (remaining (outputs σ)) i in
             (0 ≤ r < 200000000 →
              if bool_decide (i = 1 ∨ i = 2) then a = r mod 10 ∧ b = 0
              else a = (r + 3) / 6 / 10 mod 10 ∧ b = (r + 3) / 6 mod 10)) ∧
          sr' = if bool_decide (blink d σ = 199)
                then (if bool_decide (i = STATIONS - 1) then 1 else i + 1)
                else i) ∧
    ((∀ i, Disp.sr d ≤ i < STATIONS →
           arr_get (remaining (outputs σ)) i = 0) →
     ws = [] ∧ sr' = if bool_decide (blink d σ = 199) then 2 else 1).
Proof.
  intros Hrun Hsr. unfold display. cbv zeta. rewrite Hrun. cbn [negb].
  generalize (blink d σ) (show_time d σ) (remaining (outputs σ)).
  intros k w03 rem. unfold show_remaining.
  rewrite (bool_decide_eq_true_2 (Disp.sr d < STATIONS)) by lia.
  cbv zeta.
  pose proof (scan_first rem (Disp.sr d)) as Hfirst.
  pose proof (scan_none rem (Disp.sr d) Hsr) as Hnone.
  destruct (scan_spec rem 15 (Disp.sr d)) as (Hr & _ & _);
    [done|unfold STATIONS in *; lia|].
  revert Hfirst Hnone Hr. generalize (scan rem 15 (Disp.sr d)).
  intros s Hfirst Hnone Hr.
  destruct (decide (arr_get rem s = 0)) as [H0|H0].
  - rewrite (bool_decide_eq_false_2 (arr_get rem s ≠ 0))
      by (intros H'; by apply H').
    cbn [mbind option_bind].
    eexists _, _. split; [reflexivity|].
    assert ((if bool_decide (k = 199) then u8 (1 + 1) else 1)
            = if bool_decide (k = 199) then 2 else 1) as -> by done.
    split; [|split].
    + unfold STATIONS. repeat case_bool_decide; lia.
    + intros i Hi Hne Hz. specialize (Hfirst i). rewrite Hfirst in H0;
        [done|lia|done|done|done].
    + intros _. split; [done|].
      unfold STATIONS. repeat case_bool_decide; lia.
  - rewrite (bool_decide_eq_true_2 (arr_get rem s ≠ 0)) by done.
    cbn [mbind option_bind].
    eexists _, _. split; [reflexivity|].
    assert (0 ≤ s < 16) as Hs by (unfold STATIONS in *; lia).
    split; [|split].
    + unfold STATIONS.
      destruct (bool_decide (k = 199));
        [rewrite (u8_small (s + 1)) by lia|]; case_bool_decide; lia.
    + intros i Hi Hne Hz.
      assert (s = i) as -> by (apply Hfirst; [lia|done|done|done]).
      split.
      * eexists _, _. split; [reflexivity|].
        cbv zeta. intros Hb.
        change (arr_get bws 0) with 1. change (arr_get bws 1) with 2.
        revert Hb. generalize (arr_get rem i). intros r Hb.
        assert (u32 (r * 10) = r * 10) as E1 by (apply u32_small; lia).
        assert (u32 (r + 3) = r + 3) as E2 by (apply u32_small; lia).
        assert (∀ x, 0 ≤ x < 2147483648 → s32 x = x) as E3.
        { intros x Hx. unfold s32.
          rewrite Z.mod_small by lia. lia. }
        destruct (decide (i = 1 ∨ i = 2)) as [Hf|Hf].
        -- rewrite (bool_decide_eq_true_2 (i = 1 ∨ i = 2)) by done.
           assert (bool_decide (i = 1) || bool_decide (i = 2) = true) as ->.
           { destruct Hf as [-> | ->]; done. }
           rewrite E1, E3 by lia.
           rewrite Z.quot_div_nonneg by lia.
           rewrite Z.div_mul by done.
           rewrite !Z.rem_mod_nonneg by lia.
           rewrite !u8_small; [split; [done|]| |].
           ++ apply Z.mod_mul. done.
           ++ pose proof (Z.mod_pos_bound (r * 10) 10). lia.
           ++ pose proof (Z.mod_pos_bound r 10). lia.
        -- rewrite (bool_decide_eq_false_2 (i = 1 ∨ i = 2)) by done.
           rewrite (bool_decide_eq_false_2 (i = 1))
             by (intros ->; apply Hf; by left).
           rewrite (bool_decide_eq_false_2 (i = 2))
             by (intros ->; apply Hf; by right).
           cbn [orb]. rewrite E2.
           assert (0 ≤ (r + 3) / 6 < 2147483648) as Hq.
           { split; [apply Z.div_pos; lia|].
             apply Z.div_lt_upper_bound; lia. }
           rewrite E3 by done.
           revert Hq. generalize ((r + 3) / 6). intros q Hq.
           assert (0 ≤ q / 10) as Hq' by (apply Z.div_pos; lia).
           rewrite Z.quot_div_nonneg by lia.
           rewrite !Z.rem_mod_nonneg by lia.
           rewrite !u8_small; [done| |].
           ++ pose proof (Z.mod_pos_bound q 10). lia.
           ++ pose proof (Z.mod_pos_bound (q / 10) 10). lia.
      * unfold STATIONS.
        destruct (bool_decide (k = 199));
          [rewrite (u8_small (i + 1)) by lia|];
          repeat case_bool_decide; lia.
    + intros Hz. destruct H0. by apply Hnone.
Qed.

Lemma display_scan_witness :
  ∃ sr' ws,
    display {| Disp.k := 0; Disp.sr := 0 |} (boot long_run_image 0 pins_up)
    = Some ({| Disp.k := 1; Disp.sr := sr' |}, ws) ∧ 0 ≤ sr' < STATIONS.
Proof.
  destruct (display_scan {| Disp.k := 0; Disp.sr := 0 |}
              (boot long_run_image 0 pins_up))
    as (sr' & ws & H & Hr & _); [by vm_compute|by vm_compute|].
  eexists sr', _. split; [exact H|exact Hr].
Defined.

Lemma show_remaining_defined rem k sr :
  0 ≤ sr < STATIONS →
  ∃ sr' ws, show_remaining rem k sr = Some (sr', ws) ∧ 0 ≤ sr' < STATIONS ∧
            (ws = [] ∨
             ∃ s, 0 ≤ s < STATIONS ∧
                  ws = [(5, s, 0);
                        (6, u8 (Z.rem (Z.quot
                                  (if bool_decide (s = arr_get bws 0)
                                      || bool_decide (s = arr_get bws 1)
                                   then s32 (u32 (arr_get rem s * 10))
                                   else s32 (u32 (arr_get rem s + 3) / 6))
                                  10) 10), POINT_SEG);
                        (7, u8 (Z.rem
                                  (if bool_decide (s = arr_get bws 0)
                                      || bool_decide (s = arr_get bws 1)
                                   then s32 (u32 (arr_get rem s * 10))
                                   else s32 (u32 (arr_get rem s + 3) / 6))
                                  10), 0)]).
Proof.
  intros Hsr. unfold show_remaining.
  rewrite (bool_decide_eq_true_2 (sr < STATIONS)) by lia. cbv zeta.
  destruct (scan_spec rem 15 sr) as (Hr & _ & _);
    [done|unfold STATIONS in Hsr; lia|].
  revert Hr. generalize (scan rem 15 sr). intros s Hr.
  assert (0 ≤ s < 16) as Hs by (unfold STATIONS in *; lia).
  destruct (bool_decide (arr_get rem s ≠ 0)).
  - eexists _, _. split; [reflexivity|]. split.
    + unfold STATIONS.
      destruct (bool_decide (k = 199));
        [rewrite (u8_small (s + 1)) by lia|]; case_bool_decide; lia.
    + right. exists s. split; [done|done].
  - eexists _, _. split; [reflexivity|]. split; [|by left].
    assert ((if bool_decide (k = 199) then u8 (1 + 1) else 1)
            = if bool_decide (k = 199) then 2 else 1) as -> by done.
    unfold STATIONS. repeat case_bool_decide; lia.
Qed.

(** One display section on a running state. *)
Lemma display_running d σ :
  run_mode σ = true → 0 ≤ Disp.k d ≤ 200 → 0 ≤ Disp.sr d < STATIONS →
  ∃ d' ws,
    display d σ = Some (d', ws) ∧
    Disp.k d' = (Disp.k d + 1) mod 201 ∧ 0 ≤ Disp.sr d' < STATIONS ∧
    ws !! 2%nat
    = Some (if bool_decide (Disp.k d < 100)
            then (2, u8 (ct (clock σ) / 6 / 10 mod 10), POINT_SEG)
            else (2, BLANK_SEG, 0)).
Proof.
  intros Hrun Hk Hsr. unfold display. cbv zeta. rewrite Hrun. cbn [negb].
  destruct (show_remaining_defined (remaining (outputs σ)) (blink d σ)
              (Disp.sr d) Hsr) as (sr' & w57 & -> & Hsr' & _).
  cbn [mbind option_bind].
  eexists _, _. split; [reflexivity|]. cbn [Disp.k Disp.sr].
  split; [|split; [done|]].
  - unfold blink. cbv zeta. rewrite Hrun. cbn [negb orb andb].
    rewrite andb_false_r, orb_false_r.
    case_bool_decide as Hov.
    + assert (Disp.k d = 200) as -> by lia. done.
    + by rewrite Z.mod_small by lia.
  - unfold show_time. cbv zeta. rewrite Hrun.
    destruct (bool_decide (Disp.k d < 100)); done.
Qed.

(** X15. The blink of the time digits in run mode.  From a blink counter
    within 0..200 and [sr] inside the array, any number [n] of display
    sections on running states are executed without reading outside of
    [remaining] and leave the counter at [(k + n) mod 201]; the section
    after them writes the elapsed time to digit 2 when that counter is
    below 100 and blanks the digit otherwise: the time is shown on 100
    passes out of 201. *)
Theorem display_blink (σs : list State) (σ : State) (d : Disp.t) :
  0 ≤ Disp.k d ≤ 200 → 0 ≤ Disp.sr d < STATIONS →
  Forall (λ σ, run_mode σ = true) σs → run_mode σ = true →
  ∃ d' d'' ws,
    displays σs d = Some d' ∧
    Disp.k d' = (Disp.k d + Z.of_nat (length σs)) mod 201 ∧
    display d' σ = Some (d'', ws) ∧
    ws !! 2%nat
    = Some (if bool_decide ((Disp.k d + Z.of_nat (length σs)) mod 201 < 100)
            then (2, u8 (ct (clock σ) / 6 / 10 mod 10), POINT_SEG)
            else (2, BLANK_SEG, 0)).
Proof.
  intros Hk Hsr Hall Hrun.
  assert (∃ d', displays σs d = Some d' ∧
                Disp.k d' = (Disp.k d + Z.of_nat (length σs)) mod 201 ∧
                0 ≤ Disp.sr d' < STATIONS) as (d' & Hd & Hk' & Hsr').
  { clear Hrun σ. revert d Hk Hsr.
    induction Hall as [|σ1 σs H1 _ IH]; intros d Hk Hsr.
    - exists d. cbn [displays length]. change (Z.of_nat 0) with 0.
      rewrite Z.add_0_r, Z.mod_small by lia. done.
    - destruct (display_running d σ1 H1 Hk Hsr)
        as (d1 & ws & Hd & Hk1 & Hsr1 & _).
      destruct (IH d1) as (d' & Hd' & Hk' & Hsr'); [|done|].
      { rewrite Hk1. pose proof (Z.mod_pos_bound (Disp.k d + 1) 201). lia. }
      exists d'. cbn [displays]. rewrite Hd. cbn [mbind option_bind].
      split; [done|]. split; [|done].
      rewrite Hk', Hk1. cbn [length].
      rewrite Zplus_mod_idemp_l. f_equal. lia. }
  destruct (display_running d' σ Hrun) as (d'' & ws & Hd' & _ & _ & Hw);
    [|done|].
  { rewrite Hk'.
    pose proof (Z.mod_pos_bound (Disp.k d + Z.of_nat (length σs)) 201). lia. }
  exists d', d'', ws. rewrite <- Hk'. done.
Qed.

Lemma display_blink_witness :
  ∃ d' d'' ws,
    displays [boot long_run_image 0 pins_up]
      {| Disp.k := 200; Disp.sr := 1 |} = Some d' ∧
    Disp.k d' = 0 ∧
    display d' (boot long_run_image 0 pins_up) = Some (d'', ws).
Proof.
  destruct (display_blink [boot long_run_image 0 pins_up]
              (boot long_run_image 0 pins_up)
              {| Disp.k := 200; Disp.sr := 1 |})
    as (d' & d'' & ws & H1 & H2 & H3 & _).
  - by vm_compute.
  - by vm_compute.
  - constructor; [by vm_compute|constructor].
  - by vm_compute.
  - exists d', d'', ws. split; [exact H1|]. split; [exact H2|exact H3].
Defined.

(** X16. The display when idle.  A display section on a state that is not
    running blanks the digits 5..7, leaves [sr] as it is and sets the blink
    counter to 100 with the cursor on program 0 and to 0 in edit mode; the
    next display section therefore blanks digit 2 when the state of the
    previous pass was on program 0, and shows the tens of the duration
    (or, if a run has started in between, of the elapsed time) when it was
    in edit mode, whatever the cursor is by then. *)
Theorem display_idle (d : Disp.t) (σ1 σ2 : State) :
  run_mode σ1 = false →
  (run_mode σ2 = true → 0 ≤ Disp.sr d < STATIONS) →
  ∃ d1 d2 ws2,
    display d σ1
    = Some (d1, show_time d σ1
                ++ [(4, if fast_mode σ1 then 0xF else BLANK_SEG, 0);
                    (5, BLANK_SEG, 0); (6, BLANK_SEG, 0); (7, BLANK_SEG, 0)]) ∧
    Disp.sr d1 = Disp.sr d ∧
    Disp.k d1 = (if bool_decide (prog (cursor σ1) = 0) then 100 else 0) ∧
    display d1 σ2 = Some (d2, ws2) ∧
    ws2 !! 2%nat
    = Some (if bool_decide (prog (cursor σ1) = 0) then (2, BLANK_SEG, 0)
            else (2, u8 ((if run_mode σ2 then ct (clock σ2) / 6
                          else duration (cursor σ2)) / 10 mod 10),
                  POINT_SEG)).
Proof.
  intros Hoff Hsr.
  assert (blink d σ1 = if bool_decide (prog (cursor σ1) = 0) then 100 else 0)
    as Hk.
  { unfold blink. cbv zeta. rewrite Hoff. cbn [negb].
    rewrite orb_true_r, andb_true_r. done. }
  assert (∃ d2 ws2,
            display {| Disp.k := if bool_decide (prog (cursor σ1) = 0)
                                 then 100 else 0;
                       Disp.sr := Disp.sr d |} σ2 = Some (d2, ws2) ∧
            ws2 !! 2%nat
            = Some (if bool_decide (prog (cursor σ1) = 0)
                    then (2, BLANK_SEG, 0)
                    else (2, u8 ((if run_mode σ2 then ct (clock σ2) / 6
                                  else duration (cursor σ2)) / 10 mod 10),
                          POINT_SEG))) as (d2 & ws2 & H2 & H3).
  { unfold display. cbv zeta.
    destruct (run_mode σ2) eqn:Hrun; cbn [negb].
    - destruct (show_remaining_defined (remaining (outputs σ2))
                  (blink {| Disp.k := if bool_decide (prog (cursor σ1) = 0)
                                      then 100 else 0;
                            Disp.sr := Disp.sr d |} σ2)
                  (Disp.sr d)) as (sr' & w57 & Hs & _); [by apply Hsr|].
      cbn [Disp.sr]. rewrite Hs. cbn [mbind option_bind].
      eexists _, _. split; [reflexivity|].
      unfold show_time. cbv zeta. rewrite Hrun. cbn [Disp.k].
      destruct (bool_decide (prog (cursor σ1) = 0)); done.
    - eexists _, _. split; [reflexivity|].
      unfold show_time. cbv zeta. rewrite Hrun. cbn [Disp.k].
      destruct (bool_decide (prog (cursor σ1) = 0)); done. }
  exists {| Disp.k := if bool_decide (prog (cursor σ1) = 0) then 100 else 0;
            Disp.sr := Disp.sr d |}, d2, ws2.
  split.
  { unfold display. cbv zeta. rewrite Hoff, Hk. cbn [negb]. reflexivity. }
  cbn [Disp.k Disp.sr]. done.
Qed.

Lemma display_idle_witness :
  ∃ d1 d2 ws2,
    Disp.k d1 = 100 ∧
    display d1 (boot factory 0 pins_up) = Some (d2, ws2) ∧
    ws2 !! 2%nat = Some (2, BLANK_SEG, 0).
Proof.
  destruct (display_idle {| Disp.k := 0; Disp.sr := 0 |}
              (boot factory 0 pins_up) (boot factory 0 pins_up))
    as (d1 & d2 & ws2 & _ & _ & H1 & H2 & H3).
  - by vm_compute.
  - intros H. exfalso. revert H. by vm_compute.
  - exists d1, d2, ws2. split; [exact H1|]. split; [exact H2|exact H3].
Defined.

(** One display section on any state keeps the counters in range. *)
Lemma display_ranges d σ :
  0 ≤ Disp.k d ≤ 200 → 0 ≤ Disp.sr d < STATIONS →
  ∃ d' ws, display d σ = Some (d', ws) ∧
           0 ≤ Disp.k d' ≤ 200 ∧ 0 ≤ Disp.sr d' < STATIONS.
Proof.
  intros Hk Hsr. destruct (run_mode σ) eqn:Hrun.
  - destruct (display_running d σ Hrun Hk Hsr) as (d' & ws & H & Hk' & Hs & _).
    exists d', ws. split; [done|]. split; [|done].
    rewrite Hk'. pose proof (Z.mod_pos_bound (Disp.k d + 1) 201). lia.
  - unfold display. cbv zeta. rewrite Hrun. cbn [negb].
    eexists _, _. split; [reflexivity|]. cbn [Disp.k Disp.sr].
    split; [|done]. unfold blink. cbv zeta. rewrite Hrun. cbn [negb].
    rewrite orb_true_r, andb_true_r. case_bool_decide; lia.
Qed.

(** X17. The display never leaves the array [remaining].  From a blink
    counter within 0..200 and a station counter within 0..15 (at power-on
    they are 0 and 0, or 0 and 1 after a recovery), the display sections of
    any number of passes, on any states, are all executed with [sr] inside
    the array, and leave both counters within these ranges. *)
Theorem display_counters_in_range (σs : list State) (d : Disp.t) :
  0 ≤ Disp.k d ≤ 200 → 0 ≤ Disp.sr d < STATIONS →
  ∃ d', displays σs d = Some d' ∧
        0 ≤ Disp.k d' ≤ 200 ∧ 0 ≤ Disp.sr d' < STATIONS.
Proof.
  revert d. induction σs as [|σ σs IH]; intros d Hk Hsr.
  - exists d. done.
  - destruct (display_ranges d σ Hk Hsr) as (d1 & ws & H & Hk1 & Hs1).
    destruct (IH d1 Hk1 Hs1) as (d' & H' & Hr).
    exists d'. cbn [displays]. rewrite H. cbn [mbind option_bind]. done.
Qed.

Lemma display_counters_in_range_witness :
  ∃ d', displays [boot long_run_image 0 pins_up; boot factory 0 pins_up]
          {| Disp.k := 0; Disp.sr := 1 |} = Some d' ∧
        0 ≤ Disp.sr d' < STATIONS.
Proof.
  destruct (display_counters_in_range
              [boot long_run_image 0 pins_up; boot factory 0 pins_up]
              {| Disp.k := 0; Disp.sr := 1 |})
    as (d' & H & _ & Hs); [by vm_compute|by vm_compute|].
  exists d'. split; [exact H|exact Hs].
Defined.

Lemma shiftOutMod_length bo v : length (shiftOutMod bo v) = 8%nat.
Proof. unfold shiftOutMod. by rewrite length_fmap. Qed.

Lemma frames_defined ws :
  Forall (λ w : Z * Z * Z, 0 ≤ w.1.2 < 17) ws →
  ∃ fs, frames ws = Some fs ∧ length fs = length ws ∧
        Forall (λ f, length f = 24%nat) fs.
Proof.
  induction 1 as [|[[sg v] p] ws Hv _ (fs & Hfs & Hl & Hall)].
  - exists []. done.
  - cbn in Hv. unfold frames in *. cbn [mapM]. rewrite Hfs.
    unfold WriteNumberToSegment. cbn [fst snd].
    destruct (lookup_lt_is_Some_2 digits (Z.to_nat v)) as [x Hx];
      [change (length digits) with 17%nat; lia|].
    rewrite Hx. cbn [mbind option_bind mret option_ret].
    eexists. split; [reflexivity|]. cbn [length]. split; [by rewrite Hl|].
    constructor; [|done].
    unfold sendCommand. by rewrite !length_app, !shiftOutMod_length.
Qed.

Lemma frames_undefined ws sg v p :
  (sg, v, p) ∈ ws → 17 ≤ v → frames ws = None.
Proof.
  intros Hin Hv. unfold frames.
  induction ws as [|w ws IH]; [by apply elem_of_nil in Hin|].
  cbn [mapM]. apply elem_of_cons in Hin as [<-|Hin].
  - unfold WriteNumberToSegment. cbn [fst snd].
    rewrite (lookup_ge_None_2 digits (Z.to_nat v))
      by (change (length digits) with 17%nat; lia).
    done.
  - rewrite (IH Hin). by destruct (WriteNumberToSegment _ _ _).
Qed.

Lemma arr_get_bounded (l : list Z) (i b : Z) :
  0 < b → Forall (λ r, 0 ≤ r < b) l → 0 ≤ arr_get l i < b.
Proof.
  intros Hb Hall. unfold arr_get.
  destruct (l !! Z.to_nat i) as [x|] eqn:Hx; cbn; [|lia].
  by apply (Forall_lookup_1 _ _ _ _ Hall Hx).
Qed.

(** X18. The display reads [digits] inside the table.  With the program
    and the station cursor at most 16 and, in run mode, [sr] inside the
    array and the remaining times below 200000000 minutes, every call of
    [WriteNumberToSegment] of a display section has its value within the
    17 entries of [digits]: the section sends one frame of three bytes per
    call, to the digits 0..4 and, unless no station has time remaining, to
    the digits 5..7, in this order. *)
Theorem display_in_table (d : Disp.t) (σ : State) :
  0 ≤ prog (cursor σ) ≤ 16 → 0 ≤ station (cursor σ) ≤ 16 →
  (run_mode σ = true →
   0 ≤ Disp.sr d < STATIONS ∧
   Forall (λ r, 0 ≤ r < 200000000) (remaining (outputs σ))) →
  ∃ d' ws fs,
    display d σ = Some (d', ws) ∧ frames ws = Some fs ∧
    length fs = length ws ∧ Forall (λ f, length f = 24%nat) fs ∧
    ((λ w : Z * Z * Z, w.1.1) <$> ws) ∈ [[0; 1; 2; 3; 4; 5; 6; 7];
                                          [0; 1; 2; 3; 4]].
Proof.
  intros Hp Hs Hrun.
  assert (Forall (λ w : Z * Z * Z, 0 ≤ w.1.2 < 17) (show_time d σ) ∧
          (λ w : Z * Z * Z, w.1.1) <$> show_time d σ = [0; 1; 2; 3]) as [H03 G03].
  { unfold show_time. cbv zeta.
    destruct (bool_decide (Disp.k d < 100)); (split; [|done]).
    - generalize (if run_mode σ then ct (clock σ) / 6
                  else duration (cursor σ)). intros j.
      pose proof (Z.mod_pos_bound (j / 10) 10).
      pose proof (Z.mod_pos_bound j 10).
      repeat constructor; cbn [fst snd]; try lia;
        rewrite u8_small; lia.
    - repeat constructor; cbn [fst snd]; unfold BLANK_SEG; lia. }
  assert (0 ≤ (if fast_mode σ then 15 else BLANK_SEG) < 17) as H4
    by (unfold BLANK_SEG; destruct (fast_mode σ); lia).
  assert (∃ d' w57,
            display d σ
            = Some (d', show_time d σ
                        ++ [(4, if fast_mode σ then 0xF else BLANK_SEG, 0)]
                        ++ w57) ∧
            Forall (λ w : Z * Z * Z, 0 ≤ w.1.2 < 17) w57 ∧
            ((λ w : Z * Z * Z, w.1.1) <$> w57) ∈ [[5; 6; 7]; []])
    as (d' & w57 & Hd & H57 & G57).
  { unfold display. cbv zeta. destruct (run_mode σ) eqn:Hr; cbn [negb].
    - destruct Hrun as [Hsr Hrem]; [done|].
      destruct (show_remaining_defined (remaining (outputs σ)) (blink d σ)
                  (Disp.sr d) Hsr) as (sr' & w57 & -> & _ & Hw).
      cbn [mbind option_bind]. eexists _, w57. split; [reflexivity|].
      destruct Hw as [->|(s & Hs' & ->)].
      + split; [constructor|]. apply list_elem_of_further, list_elem_of_here.
      + split; [|apply list_elem_of_here].
        pose proof (arr_get_bounded (remaining (outputs σ)) s 200000000
                      eq_refl Hrem) as Hb.
        revert Hb. generalize (arr_get (remaining (outputs σ)) s).
        intros r Hb.
        assert (u32 (r * 10) = r * 10) as E1 by (apply u32_small; lia).
        assert (u32 (r + 3) = r + 3) as E2 by (apply u32_small; lia).
        assert (∀ x, 0 ≤ x < 2147483648 → s32 x = x) as E3.
        { intros x Hx. unfold s32. rewrite Z.mod_small by lia. lia. }
        assert (0 ≤ (r + 3) / 6 < 2147483648) as Hq.
        { split; [apply Z.div_pos; lia|].
          apply Z.div_lt_upper_bound; lia. }
        rewrite E1, E2, !E3 by lia.
        assert (∃ j, 0 ≤ j ∧
                  (if bool_decide (s = arr_get bws 0)
                      || bool_decide (s = arr_get bws 1)
                   then r * 10 else (r + 3) / 6) = j) as (j & Hj & ->).
        { eexists. split; [|reflexivity].
          destruct (_ || _); lia. }
        assert (0 ≤ j / 10) as Hj' by (apply Z.div_pos; lia).
        rewrite Z.quot_div_nonneg by lia.
        rewrite !Z.rem_mod_nonneg by lia.
        pose proof (Z.mod_pos_bound (j / 10) 10).
        pose proof (Z.mod_pos_bound j 10).
        unfold STATIONS in Hs'.
        repeat constructor; cbn [fst snd]; try lia;
          rewrite u8_small; lia.
    - eexists _, _. split; [reflexivity|].
      split; [|apply list_elem_of_here].
      repeat constructor; cbn [fst snd]; unfold BLANK_SEG; lia. }
  destruct (frames_defined (show_time d σ
                            ++ [(4, if fast_mode σ then 0xF else BLANK_SEG, 0)]
                            ++ w57)) as (fs & Hfs & Hl & Hall).
  { apply Forall_app. split; [done|]. constructor; [done|done]. }
  eexists d', _, fs. split; [exact Hd|]. split; [done|]. split; [done|].
  split; [done|].
  rewrite !fmap_app, G03. cbn [fmap list_fmap fst].
  apply elem_of_cons in G57 as [->|G57].
  - apply list_elem_of_here.
  - apply list_elem_of_singleton in G57 as ->.
    apply list_elem_of_further, list_elem_of_here.
Qed.

Lemma display_in_table_witness :
  ∃ d' ws fs,
    display {| Disp.k := 0; Disp.sr := 1 |} (boot long_run_image 0 pins_up)
    = Some (d', ws) ∧ frames ws = Some fs.
Proof.
  destruct (display_in_table {| Disp.k := 0; Disp.sr := 1 |}
              (boot long_run_image 0 pins_up))
    as (d' & ws & fs & H1 & H2 & _).
  - by vm_compute.
  - by vm_compute.
  - intros _. split; [by vm_compute|].
    match goal with
    | |- Forall _ ?l => let v := eval vm_compute in l in change l with v
    end.
    repeat (constructor; [lia|]). constructor.
  - exists d', ws, fs. split; [exact H1|exact H2].
Defined.

(** X19. The selector restored at boot is not checked.  On an image with a
    valid checksum and the run state on, [setup] restores the selector
    from the cell LAST_PROG as it is; when that cell holds more than 16,
    the first call [WriteNumberToSegment(1, station, 0)] of the display
    reads [digits] outside of its 17 entries. *)
Theorem display_selector_unchecked
    (e : list Z) (now : Z) (pn : Pins) (d d' : Disp.t)
    (ws : list (Z * Z * Z)) :
  stored_checksum e = checksum e →
  EEPROM.read e STATUS ≠ 0 →
  17 ≤ EEPROM.read e LAST_PROG →
  display d (boot e now pn) = Some (d', ws) →
  station (cursor (boot e now pn)) = EEPROM.read e LAST_PROG ∧
  frames ws = None.
Proof.
  intros Hok Hst Hlp Hd.
  pose proof (boot_station e now pn Hok) as Hs.
  rewrite (bool_decide_eq_true_2 _ Hst) in Hs.
  split; [done|].
  revert Hs Hd. generalize (boot e now pn). intros σ Hs.
  unfold display. cbv zeta.
  assert ((1, station (cursor σ), 0) ∈ show_time d σ) as Hin.
  { unfold show_time. cbv zeta.
    apply elem_of_app. left. apply list_elem_of_further, list_elem_of_here. }
  revert Hin. generalize (show_time d σ). intros w03 Hin.
  destruct (negb (run_mode σ)).
  - intros [= <- <-].
    apply (frames_undefined _ 1 (station (cursor σ)) 0); [|lia].
    apply elem_of_app. by left.
  - destruct (show_remaining _ _ _) as [[sr' w57]|]; [|done].
    cbn [mbind option_bind]. intros [= <- <-].
    apply (frames_undefined _ 1 (station (cursor σ)) 0); [|lia].
    apply elem_of_app. by left.
Qed.

Lemma display_selector_unchecked_witness :
  ∃ d' ws,
    display {| Disp.k := 0; Disp.sr := 1 |}
      (boot (EEPROM.write (EEPROM.write factory STATUS 1) LAST_PROG 200)
         0 pins_up) = Some (d', ws) ∧
    frames ws = None.
Proof.
  eexists _, _. split; [vm_compute; reflexivity|].
  refine (proj2 (display_selector_unchecked
                   (EEPROM.write (EEPROM.write factory STATUS 1) LAST_PROG 200)
                   0 pins_up {| Disp.k := 0; Disp.sr := 1 |} _ _ _ _ _ _)).
  - by vm_compute.
  - by vm_compute.
  - by vm_compute.
  - vm_compute. reflexivity.
Defined.

(** ** The debounce window *)

Lemma run_section_debounce t σ σ' :
  run_section t σ = Some σ' → debounce σ' = debounce σ.
Proof.
  unfold run_section. destruct (run_mode σ); [|by intros [= <-]].
  cbv zeta. set (σ1 := with_clock _ _).
  assert (debounce σ1 = debounce σ) as H1 by done. clearbody σ1.
  rewrite <- H1. clear H1.
  destruct (bool_decide (ct (clock σ1) > 24 * 60)).
  - cbn [clock with_clock set_lt lt ct].
    rewrite bool_decide_eq_false_2 by (intros H'; by apply H').
    by intros [= <-].
  - case_bool_decide; [|by intros [= <-]].
    unfold eval_tick. cbv zeta.
    assert (debounce (eval_programs σ1) = debounce σ1) as H2 by done.
    rewrite <- H2. generalize (eval_programs σ1). intros σ2.
    destruct (station_active (outputs σ2)); [|by intros [= <-]].
    destruct (backwash σ2) as [σ3|] eqn:Hbw; [|done].
    cbn [mbind option_bind]. intros [= <-]. cbn [debounce with_outputs].
    revert Hbw. unfold backwash. cbv zeta. case_bool_decide.
    + by intros [= <-].
    + destruct (bws_at _); [|done]. cbn [mbind option_bind].
      repeat case_bool_decide; by intros [= <-].
Qed.

Lemma poll_buttons_debounced i σ :
  1 ≤ debounce σ ≤ 255 →
  poll_buttons i σ = with_debounce (debounce σ - 1) σ.
Proof.
  intros Hd. unfold poll_buttons.
  rewrite bool_decide_eq_true_2 by lia. by rewrite u8_small by lia.
Qed.

(** X20. The debounce window.  While the debounce counter is not 0 a pass
    of [loop] reads neither the keypad nor the pins: over as many passes as
    the counter holds, two input sequences with the same clock readings of
    the run section lead to the same result, whatever buttons they carry;
    the passes count the counter down by one each and leave the button
    states and the cursor as they are. *)
Theorem debounce_window (ins ins' : list Inputs) (σ : State) :
  Forall2 (λ i i', t_run i = t_run i') ins ins' →
  Z.of_nat (length ins) ≤ debounce σ ≤ 255 →
  loops ins σ = loops ins' σ ∧
  ∀ σ', loops ins σ = Some σ' →
        debounce σ' = debounce σ - Z.of_nat (length ins) ∧
        keys σ' = keys σ ∧ cursor σ' = cursor σ ∧ trace σ' = trace σ.
Proof.
  intros Hins. revert σ.
  induction Hins as [|i i' ins ins' Ht _ IH]; intros σ Hd.
  - split; [done|]. cbn [loops length]. intros σ' [= <-].
    split; [lia|done].
  - cbn [loops length] in *. unfold loop. rewrite <- Ht.
    destruct (run_section (t_run i) σ) as [σ1|] eqn:Hrun; [|done].
    cbn [mbind option_bind].
    pose proof (run_section_debounce _ _ _ Hrun) as Hd1.
    destruct (run_section_frame _ _ _ Hrun) as (Hc1 & Ht1 & _).
    assert (keys σ1 = keys σ) as Hk1.
    { clear -Hrun. revert Hrun. unfold run_section.
      destruct (run_mode σ); [|by intros [= <-]].
      cbv zeta. set (σ1' := with_clock _ _).
      assert (keys σ1' = keys σ) as H1 by done. clearbody σ1'.
      rewrite <- H1. clear H1.
      destruct (bool_decide (ct (clock σ1') > 24 * 60)).
      - cbn [clock with_clock set_lt lt ct].
        rewrite bool_decide_eq_false_2 by (intros H'; by apply H').
        by intros [= <-].
      - case_bool_decide; [|by intros [= <-]].
        unfold eval_tick. cbv zeta.
        assert (keys (eval_programs σ1') = keys σ1') as H2 by done.
        rewrite <- H2. generalize (eval_programs σ1'). intros σ2.
        destruct (station_active (outputs σ2)); [|by intros [= <-]].
        destruct (backwash σ2) as [σ3|] eqn:Hbw; [|done].
        cbn [mbind option_bind]. intros [= <-]. cbn [keys with_outputs].
        revert Hbw. unfold backwash. cbv zeta. case_bool_decide.
        + by intros [= <-].
        + destruct (bws_at _); [|done]. cbn [mbind option_bind].
          repeat case_bool_decide; by intros [= <-]. }
    rewrite !poll_buttons_debounced by lia.
    destruct (IH (with_debounce (debounce σ1 - 1) σ1)) as [IH1 IH2];
      [cbn [debounce with_debounce]; lia|].
    split; [done|].
    intros σ' Hl. destruct (IH2 σ' Hl) as (E1 & E2 & E3 & E4).
    cbn [debounce keys cursor trace with_debounce] in E1, E2, E3, E4.
    rewrite E1, E2, E3, E4, Hd1, Hk1, Hc1, Ht1. split; [lia|done].
Qed.

Lemma debounce_window_witness :
  loops [poll 0 1] (with_debounce 32 (boot factory 0 pins_up))
  = loops [poll 0 0] (with_debounce 32 (boot factory 0 pins_up)).
Proof.
  refine (proj1 (debounce_window [poll 0 1] [poll 0 0]
                   (with_debounce 32 (boot factory 0 pins_up)) _ _)).
  - constructor; [reflexivity|constructor].
  - by vm_compute.
Defined.

Lemma press_b8_debounce now σ : debounce (press_b8 now σ) = 32.
Proof.
  unfold press_b8. cbv zeta. cbn [run_mode with_fast_mode with_debounce].
  by destruct (run_mode σ).
Qed.

Lemma press_b1_debounce σ : debounce (press_b1 σ) = 32.
Proof.
  unfold press_b1. cbv zeta. cbn [cursor with_debounce].
  set (σ1 := if bool_decide (prog (cursor σ) = 0) then _ else _).
  assert (debounce σ1 = 32) as H1
    by (unfold σ1; by destruct (bool_decide (prog (cursor σ) = 0))).
  clearbody σ1.
  set (σ2 := if bool_decide (prog (cursor (with_cursor _ σ1)) ≠ 0)
             then _ else _).
  assert (debounce σ2 = 32) as H2
    by (unfold σ2; by destruct (bool_decide _)).
  clearbody σ2.
  set (σ3 := if bool_decide (prog (cursor (with_cursor _ σ2)) > MAX_PROG)
             then _ else _).
  assert (debounce σ3 = 32) as H3
    by (unfold σ3; by destruct (bool_decide _)).
  clearbody σ3.
  by destruct (bool_decide (prog (cursor σ3) = 0)).
Qed.

Lemma press_b2_debounce σ : debounce (press_b2 σ) = 32.
Proof.
  unfold press_b2. cbv zeta. cbn [cursor with_debounce run_mode].
  destruct (bool_decide (prog (cursor σ) ≠ 0)); [done|].
  by destruct (run_mode σ).
Qed.

Lemma press_b3_debounce now σ : debounce (press_b3 now σ) = 32.
Proof.
  unfold press_b3. cbv zeta. cbn [cursor with_debounce run_mode].
  destruct (bool_decide (prog (cursor σ) = 0) && negb (run_mode σ)); [done|].
  by destruct (bool_decide (prog (cursor σ) ≠ 0)).
Qed.

Lemma press_b4_debounce σ : debounce (press_b4 σ) = 32.
Proof.
  unfold press_b4. cbv zeta. cbn [cursor with_debounce run_mode].
  destruct (bool_decide (prog (cursor σ) ≠ 0)), (run_mode σ) eqn:Hr;
    cbn; rewrite ?Hr; cbn; rewrite ?Hr; done.
Qed.

(** X21. A detected press arms the debounce.  With the debounce counter at
    0, a pass that detects a falling edge on at least one of the five
    buttons leaves the counter at 32, and a pass that detects none leaves
    it at 0; in both cases the button states become the levels just
    read. *)
Theorem press_arms_debounce (i : Inputs) (σ : State) :
  debounce σ = 0 →
  let n1 := level (buttons i) 1 (Some (pin1 (pins i))) in
  let n2 := level (buttons i) 2 (Some (pin2 (pins i))) in
  let n3 := level (buttons i) 4 (Some (pin3 (pins i))) in
  let n4 := level (buttons i) 8 (Some (pin4 (pins i))) in
  let n8 := level (buttons i) 128 None in
  debounce (poll_buttons i σ)
  = (if pressed (b8 (keys σ)) n8 || pressed (b1 (keys σ)) n1
        || pressed (b2 (keys σ)) n2 || pressed (b3 (keys σ)) n3
        || pressed (b4 (keys σ)) n4
     then 32 else 0) ∧
  keys (poll_buttons i σ)
  = {| b1 := n1; b2 := n2; b3 := n3; b4 := n4; b8 := n8 |}.
Proof.
  intros Hd. cbv zeta. unfold poll_buttons.
  rewrite bool_decide_eq_false_2 by (rewrite Hd; naive_solver).
  cbv zeta. cbn [debounce keys with_keys]. split; [|done].
  destruct (pressed (b4 (keys σ)) _); [by rewrite press_b4_debounce, !orb_true_r|].
  destruct (pressed (b3 (keys σ)) _); [by rewrite press_b3_debounce, !orb_true_r|].
  destruct (pressed (b2 (keys σ)) _); [by rewrite press_b2_debounce, !orb_true_r|].
  destruct (pressed (b1 (keys σ)) _); [by rewrite press_b1_debounce, !orb_true_r|].
  destruct (pressed (b8 (keys σ)) _); [by rewrite press_b8_debounce|].
  done.
Qed.

Lemma press_arms_debounce_witness :
  debounce (poll_buttons (poll 0 4) (boot factory 0 pins_up)) = 32.
Proof.
  refine (proj1 (press_arms_debounce (poll 0 4) (boot factory 0 pins_up) _)).
  by vm_compute.
Defined.

(** ** Cells the keypad cannot edit stay at 0 *)



















